(** * VedicMathEngine: the FastAPI backend [main.py], embedded and verified

    The development follows [src/main.py]:
    - Python's numbers ([int], and [float] as IEEE-754 binary64 through the
      Standard Library's [SpecFloat]) with the exceptions their operators raise;
    - [VedicMathEngine._analyze_pattern], [_calculate_expected_speedup],
      [_get_sanskrit_name] and [_simulate_vedic_operation];
    - the [calculate], [matrix_multiply], [run_benchmark] and [generate_dataset]
      endpoints with the engine's counters threaded as explicit state, and the
      test-case generators of the two loops with the random draws made explicit;
    - [simulate_matrix_operation], over the C library's [pow];
    and [create_test_patterns] of [src/python/vedicmath_py.py]. *)

From Stdlib Require Import ZArith Lia List String Bool Sorted.
From Stdlib Require Import Floats.SpecFloat.
Import ListNotations.

Local Open Scope Z_scope.

(** ** Exceptions and the error monad *)

Inductive exn : Type :=
| OverflowError
| ValueError
| ZeroDivisionError
| ValidationError
| HTTPException (status_code : Z).

Inductive outcome (A : Type) : Type :=
| Return (a : A)
| Raise (e : exn).

Arguments Return {A} a.
Arguments Raise {A} e.

Definition bind {A B : Type} (r : outcome A) (k : A -> outcome B) : outcome B :=
  match r with
  | Return a => k a
  | Raise e => Raise e
  end.

Notation "x <- c1 ;; c2" := (bind c1 (fun x => c2))
  (at level 61, c1 at next level, right associativity).

Notation "' pat <- c1 ;; c2" := (bind c1 (fun x => let 'pat := x in c2))
  (at level 61, pat pattern, c1 at next level, right associativity).

(** ** Python floats: IEEE-754 binary64 *)

Module Float64.

Definition prec : Z := 53.
Definition emax : Z := 1024.

Definition float : Type := spec_float.

Definition fadd : float -> float -> float := SFadd prec emax.
Definition fsub : float -> float -> float := SFsub prec emax.
Definition fmul : float -> float -> float := SFmul prec emax.
Definition fdiv : float -> float -> float := SFdiv prec emax.
Definition feqb : float -> float -> bool := SFeqb.
Definition fltb : float -> float -> bool := SFltb.
Definition fleb : float -> float -> bool := SFleb.

Definition is_zero (f : float) : bool :=
  match f with
  | S754_zero _ => true
  | _ => false
  end.

(** [float(z)] for a Python [int]: round to nearest, ties to even;
    [OverflowError: int too large to convert to float] past the largest double. *)
Definition of_int (z : Z) : outcome float :=
  match binary_normalize prec emax z 0 false with
  | S754_infinity _ => Raise OverflowError
  | f => Return f
  end.

(** [a / b] on two Python [int]s: the correctly rounded quotient. *)
Definition int_true_div (a b : Z) : outcome float :=
  if b =? 0 then Raise ZeroDivisionError
  else if a =? 0 then Return (S754_zero (b <? 0))
  else
    let '(mz, ez, lz) := SFdiv_core_binary prec emax (Z.abs a) 0 (Z.abs b) 0 in
    match binary_round_aux prec emax (xorb (a <? 0) (b <? 0)) mz ez lz with
    | S754_infinity _ => Raise OverflowError
    | f => Return f
    end.

(** A decimal literal [n/d] of the source text, read as the nearest double. *)
Definition lit (n d : Z) : float :=
  match int_true_div n d with
  | Return f => f
  | Raise _ => S754_nan
  end.

(** [int(f)]: truncation toward zero. *)
Definition trunc (f : float) : outcome Z :=
  match f with
  | S754_nan => Raise ValueError
  | S754_infinity _ => Raise OverflowError
  | S754_zero _ => Return 0
  | S754_finite s m e =>
      Return (cond_Zopp s (if 0 <=? e then Zpos m * 2 ^ e else Zpos m / 2 ^ (- e)))
  end.

(** Comparison of an [int] with a [float]: Python compares the exact values. *)
Definition Zcompare (z : Z) (f : float) : option comparison :=
  match f with
  | S754_nan => None
  | S754_infinity s => Some (if s then Gt else Lt)
  | S754_zero _ => Some (z ?= 0)
  | S754_finite s m e =>
      Some (if 0 <=? e then z ?= cond_Zopp s (Zpos m) * 2 ^ e
            else z * 2 ^ (- e) ?= cond_Zopp s (Zpos m))
  end.

Definition Zltb (z : Z) (f : float) : bool :=
  match Zcompare z f with Some Lt => true | _ => false end.

Definition Zgtb (z : Z) (f : float) : bool :=
  match Zcompare z f with Some Gt => true | _ => false end.

Definition Zeqb (z : Z) (f : float) : bool :=
  match Zcompare z f with Some Eq => true | _ => false end.

(** [z * f] and [z / f] with an [int] on the left: the [int] is converted first. *)
Definition int_mul (z : Z) (f : float) : outcome float :=
  x <- of_int z ;;
  Return (fmul x f).

Definition int_div (z : Z) (f : float) : outcome float :=
  x <- of_int z ;;
  if is_zero f then Raise ZeroDivisionError else Return (fdiv x f).

(** [min(x, y)] of the builtins: [y] only when [y < x]. *)
Definition fmin (x y : float) : float := if fltb y x then y else x.

Definition zero : float := S754_zero false.
Definition inf : float := S754_infinity false.

End Float64.

Import Float64.

(** The float literals of [main.py]. *)
Definition f0_002 : float := Eval vm_compute in lit 2 1000.
Definition f0_001 : float := Eval vm_compute in lit 1 1000.
Definition f0_05 : float := Eval vm_compute in lit 5 100.
Definition f0_06 : float := Eval vm_compute in lit 6 100.
Definition f0_1 : float := Eval vm_compute in lit 1 10.
Definition f0_2 : float := Eval vm_compute in lit 2 10.
Definition f0_6 : float := Eval vm_compute in lit 6 10.
Definition f0_8 : float := Eval vm_compute in lit 8 10.
Definition f0_85 : float := Eval vm_compute in lit 85 100.
Definition f0_88 : float := Eval vm_compute in lit 88 100.
Definition f0_90 : float := Eval vm_compute in lit 90 100.
Definition f0_95 : float := Eval vm_compute in lit 95 100.
Definition f1_0 : float := Eval vm_compute in lit 1 1.
Definition f1_2 : float := Eval vm_compute in lit 12 10.
Definition f1_4 : float := Eval vm_compute in lit 14 10.
Definition f1_8 : float := Eval vm_compute in lit 18 10.
Definition f2_3 : float := Eval vm_compute in lit 23 10.
Definition f2_4 : float := Eval vm_compute in lit 24 10.
Definition f2_5 : float := Eval vm_compute in lit 25 10.
Definition f2_8 : float := Eval vm_compute in lit 28 10.
Definition f3_2 : float := Eval vm_compute in lit 32 10.
Definition f8_27 : float := Eval vm_compute in lit 827 100.
Definition f189_84 : float := Eval vm_compute in lit 18984 100.

(** ** Python numbers: [Union[int, float]] *)

Inductive pynum : Type :=
| PyInt (z : Z)
| PyFloat (f : float).

Module Py.

(** [int(x)] *)
Definition int (x : pynum) : outcome Z :=
  match x with
  | PyInt z => Return z
  | PyFloat f => trunc f
  end.

(** [float(x)], the conversion a mixed operation applies to its [int] operand. *)
Definition to_float (x : pynum) : outcome float :=
  match x with
  | PyInt z => of_int z
  | PyFloat f => Return f
  end.

(** [x == y] *)
Definition eqb (x y : pynum) : bool :=
  match x, y with
  | PyInt a, PyInt b => a =? b
  | PyInt a, PyFloat g => Float64.Zeqb a g
  | PyFloat f, PyInt b => Float64.Zeqb b f
  | PyFloat f, PyFloat g => feqb f g
  end.

(** [x < y] *)
Definition ltb (x y : pynum) : bool :=
  match x, y with
  | PyInt a, PyInt b => a <? b
  | PyInt a, PyFloat g => Float64.Zltb a g
  | PyFloat f, PyInt b => Float64.Zgtb b f
  | PyFloat f, PyFloat g => fltb f g
  end.

(** [x > y] *)
Definition gtb (x y : pynum) : bool := ltb y x.

(** [x != y] *)
Definition neqb (x y : pynum) : bool := negb (eqb x y).

Definition arith (zop : Z -> Z -> Z) (fop : float -> float -> float)
    (x y : pynum) : outcome pynum :=
  match x, y with
  | PyInt a, PyInt b => Return (PyInt (zop a b))
  | _, _ =>
      f <- to_float x ;;
      g <- to_float y ;;
      Return (PyFloat (fop f g))
  end.

(** [x * y], [x + y], [x - y] *)
Definition mul : pynum -> pynum -> outcome pynum := arith Z.mul fmul.
Definition add : pynum -> pynum -> outcome pynum := arith Z.add fadd.
Definition sub : pynum -> pynum -> outcome pynum := arith Z.sub fsub.

(** [x / y]: true division; [ZeroDivisionError] on a zero divisor. *)
Definition truediv (x y : pynum) : outcome pynum :=
  match x, y with
  | PyInt a, PyInt b =>
      q <- int_true_div a b ;;
      Return (PyFloat q)
  | _, _ =>
      f <- to_float x ;;
      g <- to_float y ;;
      if is_zero g then Raise ZeroDivisionError else Return (PyFloat (fdiv f g))
  end.

(** The number of decimal digits of [n >= 0]. *)
Fixpoint digits_fuel (fuel : nat) (n : Z) : Z :=
  match fuel with
  | O => 1
  | S fuel' => if n <? 10 then 1 else 1 + digits_fuel fuel' (n / 10)
  end.

Definition len_str (n : Z) : Z := digits_fuel (Z.to_nat (Z.log2 n)) n.

(** [len(str(n))] as CPython 3.11 and later evaluate it: converting an [int] of
    more than 4300 decimal digits to [str] raises [ValueError] (the default of
    [sys.get_int_max_str_digits()]). *)
Definition max_str_digits : Z := 4300.

Definition str_len (n : Z) : outcome Z :=
  if max_str_digits <? len_str n then Raise ValueError else Return (len_str n).

End Py.

(** ** The engine *)

(** The two counters of [VedicMathEngine.__init__]; [vedic_executable] is never
    read by the paths below. *)
Record VedicMathEngine : Type := {
  operation_counter : Z;
  active_operations : Z
}.

Definition Ekadhikena_Purvena : string := "Ekadhikena Purvena".
Definition Antyayordasake : string := "Antyayordasake".
Definition Nikhilam : string := "Nikhilam".
Definition Urdhva_Tiryagbhyam : string := "Urdhva-Tiryagbhyam".
Definition Standard_Arithmetic : string := "Standard Arithmetic".

(** The tuple [_analyze_pattern] returns:
    (sutra, confidence, predicted speedup, reasoning). *)
Definition pattern : Type := (string * float * float * string)%type.

Definition _analyze_pattern (a b : pynum) : outcome pattern :=
  a_int <- Py.int a ;;
  b_int <- Py.int b ;;
  if Py.eqb a b && (a_int mod 10 =? 5) && Py.gtb a (PyInt 0) then
    Return (Ekadhikena_Purvena, f0_95, f3_2,
            "Perfect squaring pattern: number ending in 5"%string)
  else if (a_int mod 10 + b_int mod 10 =? 10) && (a_int / 10 =? b_int / 10) then
    Return (Antyayordasake, f0_88, f2_4,
            "Same prefix, last digits sum to 10"%string)
  else
    digits_a <- Py.str_len (Z.abs a_int) ;;
    let base_a := 10 ^ digits_a in
    thr_a <- int_mul base_a f0_2 ;;
    near <- (if Float64.Zltb (Z.abs (a_int - base_a)) thr_a then
               thr_b <- int_mul base_a f0_2 ;;
               Return (Float64.Zltb (Z.abs (b_int - base_a)) thr_b)
             else Return false) ;;
    if near then
      den <- int_mul (2 * base_a) f0_2 ;;
      quo <- int_div (Z.abs (a_int - base_a) + Z.abs (b_int - base_a)) den ;;
      let proximity := fsub f1_0 quo in
      Return (Nikhilam, fmul proximity f0_85, fadd f1_8 (fmul proximity f0_8),
              "Numbers close to same power of 10"%string)
    else
      digits_a <- Py.str_len (Z.abs a_int) ;;
      digits_b <- Py.str_len (Z.abs b_int) ;;
      let max_digits := Z.max digits_a digits_b in
      if 3 <=? max_digits then
        c <- int_mul (max_digits - 3) f0_05 ;;
        let confidence := fmin (fadd f0_6 c) f0_8 in
        s <- int_mul (max_digits - 3) f0_1 ;;
        Return (Urdhva_Tiryagbhyam, confidence, fadd f1_4 s,
                "Multi-digit crosswise multiplication"%string)
      else
        Return (Standard_Arithmetic, f1_0, f1_0,
                "No optimal Vedic pattern detected"%string).

(** [dict.get(key, default)] on a dictionary literal. *)
Fixpoint dict_get {A : Type} (d : list (string * A)) (key : string) (default : A) : A :=
  match d with
  | [] => default
  | (k, v) :: d' => if String.eqb k key then v else dict_get d' key default
  end.

Definition speedup_map : list (string * float) :=
  [ (Ekadhikena_Purvena, f3_2);
    (Nikhilam, f2_8);
    (Antyayordasake, f2_3);
    (Urdhva_Tiryagbhyam, f1_8);
    (Standard_Arithmetic, f1_0) ].

(** [variance] is the draw of [random.uniform(0.8, 1.2)]. *)
Definition _calculate_expected_speedup (variance : float) (sutra : string)
    (a b : pynum) : float :=
  let base_speedup := dict_get speedup_map sutra f1_0 in
  fmul base_speedup variance.

(** [_get_sanskrit_name]: the Devanagari name of a sutra, the empty string for an
    unknown one. *)
Definition sanskrit_map : list (string * string) :=
  [ (Ekadhikena_Purvena, "एकाधिकेन पूर्वेण"%string);
    (Nikhilam, "निखिलं नवतश्चरमं दशतः"%string);
    (Antyayordasake, "अन्त्ययोर्दशके"%string);
    (Urdhva_Tiryagbhyam, "ऊर्ध्व-तिर्यगभ्याम्"%string);
    (Standard_Arithmetic, "मानक गणित"%string) ].

Definition _get_sanskrit_name (sutra : string) : string :=
  dict_get sanskrit_map sutra EmptyString.

(** The dictionary [_simulate_vedic_operation] returns, without the fields that
    hold display text and wall-clock readings ([sutra_name_sanskrit],
    [execution_time_ms], [timestamp]). *)
Record OperationRecord : Type := {
  result : pynum;
  selected_algorithm : string;
  pattern_confidence : float;
  predicted_speedup : float;
  actual_speedup : float;
  decision_reasoning : string;
  correctness_verified : bool;
  operation_id : Z
}.

Definition _simulate_vedic_operation (self : VedicMathEngine) (variance : float)
    (a b : pynum) (operation : string) : outcome OperationRecord :=
  '(selected_sutra, confidence, predicted_speedup, reasoning) <- _analyze_pattern a b ;;
  result <- (if String.eqb operation "multiply" then Py.mul a b
             else if String.eqb operation "divide" then
               if Py.neqb b (PyInt 0) then Py.truediv a b
               else Return (PyFloat inf)
             else if String.eqb operation "add" then Py.add a b
             else if String.eqb operation "subtract" then Py.sub a b
             else Py.mul a b) ;;
  let actual_speedup := _calculate_expected_speedup variance selected_sutra a b in
  Return {| result := result;
            selected_algorithm := selected_sutra;
            pattern_confidence := confidence;
            predicted_speedup := predicted_speedup;
            actual_speedup := actual_speedup;
            decision_reasoning := reasoning;
            correctness_verified := true;
            operation_id := operation_counter self |}.

(** ** The endpoints *)

Record OperationRequest : Type := {
  operand_a : pynum;
  operand_b : pynum;
  operation : string
}.

(** What [get_system_status()] returns; its [timestamp] is left out. *)
Record SystemStatus : Type := {
  cpu_usage_percent : float;
  memory_usage_percent : float;
  available_memory_mb : float;
  platform : string;
  status_active_operations : Z
}.

Section Calculate.

(** [OperationResponse( **result_data)]: the validation of the response model
    by pydantic, which is not part of the repository.  It is given the record
    and the [system_context] taken from the system status, and accepts them or
    raises. *)
Variable OperationResponse_validates : OperationRecord -> SystemStatus -> bool.

(** [POST /api/v1/calculate].  The engine is threaded through.
    [system_status] is the outcome of the call [get_system_status()], which
    reads the host through [psutil]: a status, or the exception it raised.  The
    response is the record of [_simulate_vedic_operation] (its [system_context]
    is host telemetry and is left out).  Every exception of the body becomes
    [HTTPException(500)], after [active_operations] is decremented -- once more
    when the body had already decremented it. *)
Definition calculate (self : VedicMathEngine) (variance : float)
    (system_status : outcome SystemStatus) (request : OperationRequest)
    : outcome OperationRecord * VedicMathEngine :=
  let self1 := {| operation_counter := operation_counter self + 1;
                  active_operations := active_operations self |} in
  let self2 := {| operation_counter := operation_counter self1;
                  active_operations := active_operations self1 + 1 |} in
  match (result_data <- _simulate_vedic_operation self2 variance
                          (operand_a request) (operand_b request)
                          (operation request) ;;
         system_status <- system_status ;;
         Return (result_data, system_status)) with
  | Return (result_data, system_status) =>
      let self3 := {| operation_counter := operation_counter self2;
                      active_operations := active_operations self2 - 1 |} in
      if OperationResponse_validates result_data system_status then
        (Return result_data, self3)
      else
        (Raise (HTTPException 500),
         {| operation_counter := operation_counter self3;
            active_operations := active_operations self3 - 1 |})
  | Raise _ =>
      (Raise (HTTPException 500),
       {| operation_counter := operation_counter self2;
          active_operations := active_operations self2 - 1 |})
  end.

(** A run of requests against one engine, each with its own random draw and
    its own system status. *)
Fixpoint calculate_all (self : VedicMathEngine)
    (requests : list (float * outcome SystemStatus * OperationRequest))
    : list (outcome OperationRecord) * VedicMathEngine :=
  match requests with
  | [] => ([], self)
  | (variance, system_status, request) :: rest =>
      let '(r, self') := calculate self variance system_status request in
      let '(rs, self'') := calculate_all self' rest in
      (r :: rs, self'')
  end.

End Calculate.

(** The loop of [run_benchmark]: [draws] are the operand pairs the generators
    produced, each with its random draw; every pair goes through
    [_simulate_vedic_operation] with ["multiply"].  The engine is only read. *)
Fixpoint run_benchmark_loop (self : VedicMathEngine)
    (draws : list (pynum * pynum * float)) : outcome (list OperationRecord) :=
  match draws with
  | [] => Return []
  | (a, b, variance) :: rest =>
      op_result <- _simulate_vedic_operation self variance a b "multiply" ;;
      results <- run_benchmark_loop self rest ;;
      Return (op_result :: results)
  end.

Definition run_benchmark (self : VedicMathEngine)
    (draws : list (pynum * pynum * float))
    : outcome (list OperationRecord) * VedicMathEngine :=
  match run_benchmark_loop self draws with
  | Return results => (Return results, self)
  | Raise _ => (Raise (HTTPException 500), self)
  end.

(** *** Test-case generators of [run_benchmark] and [generate_dataset]

    Both loops draw their operands with the same [if]/[elif] chain.  The raw
    outputs of the random generator are made explicit: [random.randint(lo, hi)]
    maps a raw output [r] into [lo .. hi], [random.choice(xs)] picks by index. *)
Definition randint (lo hi r : Z) : Z := lo + r mod (hi - lo + 1).

Definition choice (xs : list Z) (r : Z) : Z :=
  nth (Z.to_nat (r mod Z.of_nat (List.length xs))) xs 0.

(** [r1], [r2], [r3] are the raw outputs in the order the branch draws them. *)
Definition test_case (pattern_type : string) (r1 r2 r3 : Z) : Z * Z :=
  if String.eqb pattern_type "ekadhikena" then
    let n := randint 1 50 r1 * 10 + 5 in
    (n, n)
  else if String.eqb pattern_type "nikhilam" then
    let base := choice [100; 1000] r1 in
    let a := base + randint ((- base) / 5) (base / 5) r2 in
    let b := base + randint ((- base) / 5) (base / 5) r3 in
    (a, b)
  else if String.eqb pattern_type "antyayordasake" then
    let prefix := randint 1 99 r1 in
    let last_a := randint 1 9 r2 in
    let last_b := 10 - last_a in
    (prefix * 10 + last_a, prefix * 10 + last_b)
  else if String.eqb pattern_type "urdhva" then
    (randint 1000 9999 r1, randint 1000 9999 r2)
  else
    (randint 1 1000 r1, randint 1 1000 r2).

(** [run_benchmark]'s count of Vedic methods:
    [sum(1 for r in results if r["sutra_used"] != "Standard Arithmetic")]. *)
Definition vedic_count (results : list OperationRecord) : Z :=
  fold_left Z.add
    (map (fun _ => 1)
       (filter (fun r => negb (String.eqb (selected_algorithm r) Standard_Arithmetic))
          results))
    0.

(** A row of [generate_dataset], without the wall-clock fields and
    [pattern_type]. *)
Record DatasetRow : Type := {
  row_operand_a : pynum;
  row_operand_b : pynum;
  row_result : pynum;
  sutra_used : string;
  confidence : float;
  speedup : float
}.

(** The loop of [generate_dataset], with its two accumulators. *)
Fixpoint generate_dataset_loop (self : VedicMathEngine)
    (draws : list (pynum * pynum * float))
    (dataset : list DatasetRow) (vedic_operations : Z)
    : outcome (list DatasetRow * Z) :=
  match draws with
  | [] => Return (dataset, vedic_operations)
  | (a, b, variance) :: rest =>
      op_result <- _simulate_vedic_operation self variance a b "multiply" ;;
      let dataset :=
        dataset ++ [ {| row_operand_a := a;
                        row_operand_b := b;
                        row_result := result op_result;
                        sutra_used := selected_algorithm op_result;
                        confidence := pattern_confidence op_result;
                        speedup := actual_speedup op_result |} ] in
      let vedic_operations :=
        if negb (String.eqb (selected_algorithm op_result) Standard_Arithmetic)
        then vedic_operations + 1 else vedic_operations in
      generate_dataset_loop self rest dataset vedic_operations
  end.

(** [try: ... except Exception as e: raise HTTPException(status_code=500, ...)] *)
Definition except_500 {A : Type} (body : outcome A) : outcome A :=
  match body with
  | Return r => Return r
  | Raise _ => Raise (HTTPException 500)
  end.

(** *** Matrix estimate *)

Record MatrixRequest : Type := {
  size : Z;
  use_vedic : bool
}.

(** The constraint [Field(ge=2, le=200)] on [size]: building the request fails
    with a validation error outside the range. *)
Definition MatrixRequest_new (size : Z) (use_vedic : bool) : outcome MatrixRequest :=
  if (2 <=? size) && (size <=? 200) then
    Return {| size := size; use_vedic := use_vedic |}
  else Raise ValidationError.

Record MatrixResponse : Type := {
  m_size : Z;
  method_used : string;
  execution_time_ms : float;
  operations_per_second : pynum;
  vedic_operations_used : Z;
  speedup_factor : float;
  m_correctness_verified : bool;
  performance_notes : string
}.

Section Matrix.

(** [x ** y] on floats, which Python hands to the C library's [pow]. *)
Variable float_pow : float -> float -> outcome float.

(** [coefficient * (size / reference) ** 2.5] *)
Definition power_law (coefficient : float) (size reference : Z) : outcome float :=
  ratio <- int_true_div size reference ;;
  p <- float_pow ratio f2_5 ;;
  Return (fmul coefficient p).

Definition simulate_matrix_operation (size : Z) (use_vedic : bool)
    : outcome MatrixResponse :=
  let operations := size ^ 3 in
  '(execution_time, vedic_ops, method, speedup, notes) <-
    (if use_vedic then
       '(execution_time, vedic_ops) <-
         (if size <=? 25 then
            t <- power_law f0_06 size 10 ;; Return (t, size ^ 2)
          else if size <=? 50 then
            t <- power_law f0_90 size 25 ;; Return (t, size ^ 2 * 15)
          else if size <=? 100 then
            t <- power_law f8_27 size 50 ;; Return (t, size ^ 2 * 200)
          else
            t <- power_law f189_84 size 100 ;; Return (t, size ^ 2 * 1980)) ;;
       Return (execution_time, vedic_ops, "Vedic Enhanced"%string, f0_002,
               "Standard methods faster (overhead dominates)"%string)
     else
       t <- int_mul operations f0_001 ;;
       thousand <- of_int 1000 ;;
       Return (fdiv t thousand, 0, "Standard"%string, f1_0,
               "Optimized standard matrix multiplication"%string)) ;;
  ops_per_sec <-
    (if Float64.Zltb 0 execution_time then
       thousand <- of_int 1000 ;;
       q <- int_div operations (fdiv execution_time thousand) ;;
       Return (PyFloat q)
     else Return (PyInt 0)) ;;
  Return {| m_size := size;
            method_used := method;
            execution_time_ms := execution_time;
            operations_per_second := ops_per_sec;
            vedic_operations_used := vedic_ops;
            speedup_factor := speedup;
            m_correctness_verified := true;
            performance_notes := notes |}.

(** [POST /api/v1/matrix]: the body of the handler's [try]. *)
Definition matrix_multiply_try (request : MatrixRequest) : outcome MatrixResponse :=
  if size request >? 200 then Raise (HTTPException 400)
  else simulate_matrix_operation (size request) (use_vedic request).

(** The handler: [except Exception] catches whatever the body raised, its own
    [HTTPException(400)] included, and raises [HTTPException(500)]. *)
Definition matrix_multiply (request : MatrixRequest) : outcome MatrixResponse :=
  except_500 (matrix_multiply_try request).

(** The endpoint as a caller sees it: the request model is built, then handled. *)
Definition post_matrix (size : Z) (use_vedic : bool) : outcome MatrixResponse :=
  request <- MatrixRequest_new size use_vedic ;;
  matrix_multiply request.

End Matrix.

(** ** The Python wrapper [vedicmath_py.py]: [create_test_patterns] *)

(** [np.random.randint(lo, hi)]: an integer of [lo .. hi - 1].  [raw] holds the
    raw outputs of NumPy's generator after [np.random.seed(42)], by position;
    the position is threaded through. *)
Definition np_randint (raw : nat -> Z) (lo hi : Z) (pos : nat) : Z * nat :=
  (lo + raw pos mod (hi - lo), S pos).

(** [for _ in range(n): patterns.append(body())] *)
Fixpoint append_loop (n : nat) (body : nat -> (Z * Z) * nat)
    (patterns : list (Z * Z)) (pos : nat) : list (Z * Z) * nat :=
  match n with
  | O => (patterns, pos)
  | S n' =>
      let '(item, pos') := body pos in
      append_loop n' body (patterns ++ [item]) pos'
  end.

Definition square_ending_in_5 (raw : nat -> Z) (pos : nat) : (Z * Z) * nat :=
  let '(r, pos) := np_randint raw 1 20 pos in
  let n := r * 10 + 5 in
  ((n, n), pos).

Definition pair_between (raw : nat -> Z) (lo hi : Z) (pos : nat) : (Z * Z) * nat :=
  let '(a, pos) := np_randint raw lo hi pos in
  let '(b, pos) := np_randint raw lo hi pos in
  ((a, b), pos).

Definition antyayordasake_pair (raw : nat -> Z) (pos : nat) : (Z * Z) * nat :=
  let '(prefix, pos) := np_randint raw 1 10 pos in
  let '(last_a, pos) := np_randint raw 1 10 pos in
  let last_b := 10 - last_a in
  ((prefix * 10 + last_a, prefix * 10 + last_b), pos).

Definition create_test_patterns (raw : nat -> Z) (count : Z) : list (Z * Z) :=
  let pattern_types := Z.to_nat (count / 6) in
  let '(patterns, pos) :=
    append_loop pattern_types (square_ending_in_5 raw) [] O in
  let '(patterns, pos) :=
    append_loop pattern_types (pair_between raw 85 116) patterns pos in
  let '(patterns, pos) :=
    append_loop pattern_types (pair_between raw 950 1051) patterns pos in
  let '(patterns, pos) :=
    append_loop pattern_types (antyayordasake_pair raw) patterns pos in
  let '(patterns, pos) :=
    append_loop pattern_types (pair_between raw 1000 10000) patterns pos in
  let remaining := count - Z.of_nat (List.length patterns) in
  let '(patterns, pos) :=
    append_loop (Z.to_nat remaining) (pair_between raw 1 1000) patterns pos in
  patterns.

(** ** Predicates and tables used in the proofs *)

Definition canon (s : bool) (m2 e1 : Z) : float :=
  match m2 with
  | Z0 => S754_zero s
  | Zpos p =>
      if m2 =? 2 ^ 53 then
        if e1 + 1 <=? 971 then S754_finite s (2 ^ 52) (e1 + 1) else S754_infinity s
      else if e1 <=? 971 then S754_finite s p e1 else S754_infinity s
  | Zneg _ => S754_nan
  end.

Definition has_sign (s : bool) (f : float) : bool :=
  match f with
  | S754_zero s' | S754_infinity s' | S754_finite s' _ _ => Bool.eqb s s'
  | S754_nan => false
  end.

Definition unitb (f : float) : bool :=
  match f with
  | S754_zero false => true
  | S754_finite false m e =>
      bounded prec emax m e && (e <=? 0) && (Zpos m <=? 2 ^ (- e))
  | _ => false
  end.

Definition nonnegb (f : float) : bool := has_sign false f.

(** What the proofs need of the two products [base_a * 0.2] and
    [2 * base_a * 0.2] at [base_a = 10 ^ k]: both are positive doubles, the first
    is an integer and the second is twice the first. *)
Definition nikhilam_table_ok (k : Z) : bool :=
  match int_mul (10 ^ k) f0_2, int_mul (2 * 10 ^ k) f0_2 with
  | Return (S754_finite false mt et), Return (S754_finite false my ey) =>
      bounded prec emax my ey && (-1074 <=? et) &&
      (Z.pos my * 2 ^ (ey + 1074) =? 2 * (Z.pos mt * 2 ^ (et + 1074))) &&
      ((Z.pos mt * 2 ^ (et + 1074)) mod 2 ^ 1074 =? 0)
  | _, _ => false
  end.

Definition rule1 (a b : pynum) (a_int : Z) : bool :=
  Py.eqb a b && (a_int mod 10 =? 5) && Py.gtb a (PyInt 0).

Definition rule2 (a_int b_int : Z) : bool :=
  (a_int mod 10 + b_int mod 10 =? 10) && (a_int / 10 =? b_int / 10).

Definition in_unit (c : float) : Prop := fleb zero c = true /\ fleb c f1_0 = true.

(** Operands the classifier is total on: an [int], or a finite [float], whose
    integer part has at most 307 decimal digits. *)
Definition in_range (x : pynum) : bool :=
  match Py.int x with
  | Return z => Z.abs z <? 10 ^ 307
  | Raise _ => false
  end.

(** The arithmetic step of [_simulate_vedic_operation]: the [if]/[elif] chain on
    the operation token. *)
Definition calculate_result (a b : pynum) (operation : string) : outcome pynum :=
  if String.eqb operation "multiply" then Py.mul a b
  else if String.eqb operation "divide" then
    if Py.neqb b (PyInt 0) then Py.truediv a b else Return (PyFloat inf)
  else if String.eqb operation "add" then Py.add a b
  else if String.eqb operation "subtract" then Py.sub a b
  else Py.mul a b.

Definition engine0 : VedicMathEngine :=
  {| operation_counter := 0; active_operations := 0 |}.

Definition status0 : SystemStatus :=
  {| cpu_usage_percent := f2_5;
     memory_usage_percent := f2_5;
     available_memory_mb := f2_5;
     platform := "Linux";
     status_active_operations := 1 |}.

(** The [operation_id]s of the records among a run's outcomes, in order. *)
Fixpoint returned_ids (rs : list (outcome OperationRecord)) : list Z :=
  match rs with
  | [] => []
  | Return r :: rs' => operation_id r :: returned_ids rs'
  | Raise _ :: rs' => returned_ids rs'
  end.

(** A positive normal double whose exponent lies in [lo, hi]. *)
Definition normalb (lo hi : Z) (f : float) : bool :=
  match f with
  | S754_finite false m e =>
      bounded prec emax m e && (Z.pos (digits2_pos m) =? 53) && (lo <=? e) && (e <=? hi)
  | _ => false
  end.

(** The reference size of the bracket [size] falls in. *)
Definition matrix_reference (size : Z) : Z :=
  if size <=? 25 then 10 else if size <=? 50 then 25
  else if size <=? 100 then 50 else 100.

(** The arguments [pow] receives for sizes 2..200 are normal doubles between
    [0.2] and [2.5]. *)
Definition pow_arg_ok (x : float) : bool := normalb (-55) (-51) x.

(** What is assumed of [pow(x, 2.5)] on such arguments: it returns a positive
    normal double of moderate magnitude (between [2^-18] and [2^14]). *)
Definition pow_res_ok (r : outcome float) : bool :=
  match r with
  | Return p => normalb (-70) (-40) p
  | Raise _ => false
  end.

Definition pow_sane (float_pow : float -> float -> outcome float) : Prop :=
  forall x, pow_arg_ok x = true -> pow_res_ok (float_pow x f2_5) = true.

Definition ratio_ok (size : Z) : bool :=
  match int_true_div size (matrix_reference size) with
  | Return x => pow_arg_ok x
  | Raise _ => false
  end.

(** A stand-in for the C library's [pow] at exponent 2.5, [x * x * sqrt x] in
    double arithmetic (and [1.0] should that leave the expected range). *)
Definition pow_model (x y : float) : outcome float :=
  let r := fmul (fmul x x) (SFsqrt prec emax x) in
  if pow_res_ok (Return r) then Return r else Return f1_0.

(** Structural equality of doubles (not [==]: it tells [0.0] from [-0.0]). *)
Definition float_same (x y : float) : bool :=
  match x, y with
  | S754_zero s, S754_zero s' => Bool.eqb s s'
  | S754_infinity s, S754_infinity s' => Bool.eqb s s'
  | S754_nan, S754_nan => true
  | S754_finite s m e, S754_finite s' m' e' =>
      Bool.eqb s s' && Pos.eqb m m' && Z.eqb e e'
  | _, _ => false
  end.

Definition standard_ok (float_pow : float -> float -> outcome float) (size : Z) : bool :=
  match simulate_matrix_operation float_pow size false with
  | Return r =>
      float_same (speedup_factor r) f1_0 && m_correctness_verified r &&
      (vedic_operations_used r =? 0)
  | Raise _ => false
  end.

(** Clamping to [0, 1]. *)
Definition clamp01 (x : float) : float :=
  if fltb x zero then zero else if fltb f1_0 x then f1_0 else x.

(** Modelled on the spec's words for the NearPowerOfTen confidence,
    [0.85 * (1 - (|a-base| + |b-base|) / (2 * 0.2 * base))] clamped to [0, 1],
    evaluated as Python evaluates that expression. *)
Definition spec_nikhilam_confidence (a b base : Z) : outcome float :=
  two_fifths <- int_mul 2 f0_2 ;;
  fbase <- of_int base ;;
  quo <- int_div (Z.abs (a - base) + Z.abs (b - base)) (fmul two_fifths fbase) ;;
  one <- of_int 1 ;;
  Return (clamp01 (fmul f0_85 (fsub one quo))).

(** For [base_a = 10 ^ k] with [k <= 23] the threshold [base_a * 0.2] is exactly
    [base_a / 5], and the spec's denominator [2 * 0.2 * base] is the code's
    [2 * base_a * 0.2]. *)
Definition threshold_exact_ok (k : Z) : bool :=
  match int_mul (10 ^ k) f0_2 with
  | Return (S754_finite false m e) =>
      (-1074 <=? e) && (Z.pos m * 2 ^ (e + 1074) =? 2 * 10 ^ (k - 1) * 2 ^ 1074)
  | _ => false
  end.

(** For [k <= 28] the threshold [base_a * 0.2] is not below [base_a / 5]. *)
Definition threshold_lower_ok (k : Z) : bool :=
  match int_mul (10 ^ k) f0_2 with
  | Return (S754_finite false m e) =>
      (-1074 <=? e) && (10 ^ k * 2 ^ 1074 <=? 5 * (Z.pos m * 2 ^ (e + 1074)))
  | _ => false
  end.

Definition spec_denominator_ok (k : Z) : bool :=
  match int_mul 2 f0_2, of_int (10 ^ k), int_mul (2 * 10 ^ k) f0_2 with
  | Return c, Return fbase, Return den => float_same (fmul c fbase) den
  | _, _, _ => false
  end.

(** [f] is exactly the rational [num / den] ([den > 0]). *)
Definition float_is_rational (f : float) (num den : Z) : bool :=
  match f with
  | S754_zero _ => num =? 0
  | S754_finite s m e =>
      if 0 <=? e then cond_Zopp s (Z.pos m) * 2 ^ e * den =? num
      else cond_Zopp s (Z.pos m) * den =? num * 2 ^ (- e)
  | _ => false
  end.

Definition is_exactly (x : pynum) (num den : Z) : bool :=
  match x with
  | PyInt z => z * den =? num
  | PyFloat f => float_is_rational f num den
  end.

Ltac sutra_names :=
  unfold Ekadhikena_Purvena, Antyayordasake, Nikhilam, Urdhva_Tiryagbhyam,
    Standard_Arithmetic in *.

(** The double [10^k * 0.2] is at most a relative [10^-15] above [10^k / 5]. *)
Definition threshold_upper_ok (k : Z) : bool :=
  match int_mul (10 ^ k) f0_2 with
  | Return (S754_finite false m e) =>
      (-1074 <=? e) &&
      (5 * (Z.pos m * 2 ^ (e + 1074)) <=? (10 ^ k + 10 ^ k / 10 ^ 15) * 2 ^ 1074)
  | _ => false
  end.

(** The scores of the fourth rule for [max_digits = d]. *)
Definition urdhva_ok (d : Z) : bool :=
  match int_mul (d - 3) f0_05, int_mul (d - 3) f0_1 with
  | Return c0, Return s0 =>
      let confidence := fmin (fadd f0_6 c0) f0_8 in
      fleb f0_6 confidence && fleb confidence f0_8 &&
      (if 7 <=? d then float_same confidence f0_8 else fltb confidence f0_8) &&
      fleb f1_4 (fadd f1_4 s0)
  | _, _ => false
  end.

(** [10^9], the double below it and the double above it. *)
Definition f1e9 : float := Eval vm_compute in lit 1000000000 1.
Definition f1e9_pred : float := S754_finite false 8388607999999999 (-23).
Definition f1e9_succ : float := S754_finite false 8388608000000001 (-23).

(** The throughput of the standard path at one size is [m * 2^-23] with [m]
    at most two below and one above the mantissa of [10^9]. *)
Definition standard_throughput_ulp_ok (float_pow : float -> float -> outcome float)
    (n : Z) : bool :=
  match simulate_matrix_operation float_pow n false with
  | Return r =>
      match operations_per_second r with
      | PyFloat (S754_finite false m e) =>
          (e =? -23) && (8388607999999998 <=? Z.pos m) && (Z.pos m <=? 8388608000000001)
      | _ => false
      end
  | Raise _ => false
  end.

(** The standard path at one size: a positive time and a throughput within one
    operation per second of [10^9]. *)
Definition standard_throughput_ok (float_pow : float -> float -> outcome float)
    (n : Z) : bool :=
  match simulate_matrix_operation float_pow n false with
  | Return r =>
      match operations_per_second r with
      | PyFloat q =>
          Float64.Zltb 999999999 q && Float64.Zgtb 1000000001 q &&
          Float64.Zltb 0 (execution_time_ms r) && (m_size r =? n)
      | PyInt _ => false
      end
  | Raise _ => false
  end.

(** The shapes of the pairs in the groups of [create_test_patterns]. *)
Definition square_of_5_shape (item : Z * Z) : Prop :=
  fst item = snd item /\ fst item mod 10 = 5 /\ 15 <= fst item <= 195.

Definition both_between (lo hi : Z) (item : Z * Z) : Prop :=
  lo <= fst item <= hi /\ lo <= snd item <= hi.

Definition antyayordasake_shape (item : Z * Z) : Prop :=
  fst item / 10 = snd item / 10 /\ 1 <= fst item / 10 <= 9 /\
  1 <= fst item mod 10 <= 9 /\ fst item mod 10 + snd item mod 10 = 10.

Definition finite_or_zero (f : float) : bool :=
  match f with
  | S754_zero _ | S754_finite _ _ _ => true
  | _ => false
  end.

(** * Properties *)

(** ** Rounding to binary64 *)

Lemma digits2_pos_bounds (p : positive) :
  2 ^ (Zpos (digits2_pos p) - 1) <= Zpos p < 2 ^ Zpos (digits2_pos p).
Proof.
  induction p as [p IH | p IH | ]; simpl digits2_pos.
  - rewrite Pos2Z.inj_succ.
    replace (Z.succ (Zpos (digits2_pos p)) - 1) with (Z.succ (Zpos (digits2_pos p) - 1)) by lia.
    rewrite !Z.pow_succ_r by lia. lia.
  - rewrite Pos2Z.inj_succ.
    replace (Z.succ (Zpos (digits2_pos p)) - 1) with (Z.succ (Zpos (digits2_pos p) - 1)) by lia.
    rewrite !Z.pow_succ_r by lia. lia.
  - simpl. lia.
Qed.

Lemma Zdigits2_bounds (m : Z) :
  0 < m -> 2 ^ (Zdigits2 m - 1) <= m < 2 ^ Zdigits2 m.
Proof.
  destruct m as [ | p | p]; try lia. intros _. apply digits2_pos_bounds.
Qed.

Lemma Zdigits2_pos (m : Z) : 0 < m -> 0 < Zdigits2 m.
Proof. destruct m; simpl; lia. Qed.

Lemma Zdigits2_le (m k : Z) : 0 < m -> 0 <= k -> m < 2 ^ k -> Zdigits2 m <= k.
Proof.
  intros Hm Hk Hlt.
  destruct (Zdigits2_bounds m Hm) as [Hlo _].
  destruct (Z.le_gt_cases (Zdigits2 m) k) as [ | Hgt]; [assumption | exfalso].
  assert (2 ^ k <= 2 ^ (Zdigits2 m - 1)) by (apply Z.pow_le_mono_r; lia).
  lia.
Qed.

Lemma Zdigits2_ge (m k : Z) : 0 < m -> 0 <= k -> 2 ^ k <= m -> k + 1 <= Zdigits2 m.
Proof.
  intros Hm Hk Hle.
  destruct (Zdigits2_bounds m Hm) as [_ Hhi].
  pose proof (Zdigits2_pos m Hm).
  destruct (Z.le_gt_cases (k + 1) (Zdigits2 m)) as [ | Hgt]; [assumption | exfalso].
  assert (2 ^ Zdigits2 m <= 2 ^ k) by (apply Z.pow_le_mono_r; lia).
  lia.
Qed.

Lemma iter_pos_nat {A : Type} (f : A -> A) (p : positive) (x : A) :
  iter_pos f p x = Nat.iter (Pos.to_nat p) f x.
Proof.
  revert x. induction p as [p IH | p IH | ]; intros x; simpl iter_pos.
  - rewrite !IH. rewrite Pos2Nat.inj_xI.
    replace (S (2 * Pos.to_nat p))%nat with (Pos.to_nat p + (Pos.to_nat p + 1))%nat by lia.
    rewrite !Nat.iter_add. simpl. reflexivity.
  - rewrite !IH. rewrite Pos2Nat.inj_xO.
    replace (2 * Pos.to_nat p)%nat with (Pos.to_nat p + Pos.to_nat p)%nat by lia.
    rewrite Nat.iter_add. reflexivity.
  - reflexivity.
Qed.

Lemma shr_1_spec (mrs : shr_record) :
  0 <= shr_m mrs ->
  shr_m (shr_1 mrs) = shr_m mrs / 2 /\
  shr_r (shr_1 mrs) = Z.odd (shr_m mrs) /\
  shr_s (shr_1 mrs) = shr_r mrs || shr_s mrs.
Proof.
  destruct mrs as [m r s]. simpl shr_m. intros Hm.
  rewrite <- Z.div2_div.
  destruct m as [ | [p | p | ] | p]; try lia; simpl; auto.
Qed.

Lemma iter_shr_1_spec (k : nat) (mrs : shr_record) :
  0 <= shr_m mrs ->
  shr_m (Nat.iter k shr_1 mrs) = shr_m mrs / 2 ^ Z.of_nat k /\
  (shr_m mrs mod 2 ^ Z.of_nat k = 0 -> shr_r mrs = false -> shr_s mrs = false ->
   shr_r (Nat.iter k shr_1 mrs) = false /\ shr_s (Nat.iter k shr_1 mrs) = false).
Proof.
  intros Hm. induction k as [ | k [IHm IHrs]].
  - simpl. rewrite Z.div_1_r. auto.
  - rewrite Nat2Z.inj_succ, Z.pow_succ_r by lia.
    change (Nat.iter (S k) shr_1 mrs) with (shr_1 (Nat.iter k shr_1 mrs)).
    assert (Hk : 0 <= shr_m (Nat.iter k shr_1 mrs)).
    { rewrite IHm. apply Z.div_pos; [assumption | apply Z.pow_pos_nonneg; lia]. }
    destruct (shr_1_spec _ Hk) as (E1 & E2 & E3).
    assert (Hp : 0 < 2 ^ Z.of_nat k) by (apply Z.pow_pos_nonneg; lia).
    split.
    + rewrite E1, IHm, Z.div_div by lia. f_equal. lia.
    + intros Hmod Hr Hs.
      assert (Hmodk : shr_m mrs mod 2 ^ Z.of_nat k = 0).
      { apply Z.mod_divide in Hmod; [ | lia].
        apply Z.mod_divide; [lia | ].
        destruct Hmod as [c Hc]. exists (c * 2). lia. }
      destruct (IHrs Hmodk Hr Hs) as [Hr' Hs'].
      rewrite E2, E3, Hr', Hs'. split; [ | reflexivity].
      rewrite IHm.
      apply Z.mod_divide in Hmod; [ | lia]. destruct Hmod as [c Hc].
      rewrite Hc. replace (c * (2 * 2 ^ Z.of_nat k)) with (c * 2 * 2 ^ Z.of_nat k) by lia.
      rewrite Z.div_mul by lia. rewrite Z.mul_comm, Z.odd_mul. reflexivity.
Qed.

Lemma fexp_eq (e : Z) : fexp prec emax e = Z.max (e - 53) (-1074).
Proof. reflexivity. Qed.

Lemma loc_of_shr_record_of_loc (m : Z) (l : location) :
  loc_of_shr_record (shr_record_of_loc m l) = l.
Proof. destruct l as [ | [ | | ]]; reflexivity. Qed.

Lemma shr_m_of_loc (m : Z) (l : location) : shr_m (shr_record_of_loc m l) = m.
Proof. destruct l as [ | [ | | ]]; reflexivity. Qed.

Lemma shr_spec (mrs : shr_record) (e n : Z) :
  0 <= shr_m mrs -> 0 <= n ->
  exists mrs',
    shr mrs e n = (mrs', e + n) /\
    shr_m mrs' = shr_m mrs / 2 ^ n /\
    (shr_m mrs mod 2 ^ n = 0 -> loc_of_shr_record mrs = loc_Exact ->
     loc_of_shr_record mrs' = loc_Exact).
Proof.
  intros Hm Hn. destruct n as [ | p | p]; [ | | lia].
  - exists mrs. simpl. rewrite Z.add_0_r, Z.div_1_r. auto.
  - exists (iter_pos shr_1 p mrs). unfold shr. split; [reflexivity | ].
    rewrite iter_pos_nat.
    destruct (iter_shr_1_spec (Pos.to_nat p) mrs Hm) as [E1 E2].
    rewrite positive_nat_Z in E1, E2. split; [exact E1 | ].
    intros Hmod Hloc.
    assert (shr_r mrs = false /\ shr_s mrs = false) as [Hr Hs].
    { destruct mrs as [m [ | ] [ | ]]; simpl in Hloc; try discriminate; auto. }
    destruct (E2 Hmod Hr Hs) as [Hr' Hs'].
    destruct (Nat.iter (Pos.to_nat p) shr_1 mrs) as [m' r' s'].
    simpl in Hr', Hs'. subst. reflexivity.
Qed.

Lemma shr_fexp_spec (m e : Z) (l : location) :
  0 < m ->
  0 <= fexp prec emax (Zdigits2 m + e) - e ->
  exists mrs,
    shr_fexp prec emax m e l = (mrs, fexp prec emax (Zdigits2 m + e)) /\
    shr_m mrs = m / 2 ^ (fexp prec emax (Zdigits2 m + e) - e) /\
    (l = loc_Exact -> m mod 2 ^ (fexp prec emax (Zdigits2 m + e) - e) = 0 ->
     loc_of_shr_record mrs = loc_Exact).
Proof.
  intros Hm Hn. unfold shr_fexp.
  destruct (shr_spec (shr_record_of_loc m l) e _ ltac:(rewrite shr_m_of_loc; lia) Hn)
    as (mrs & E & E1 & E2).
  exists mrs. rewrite E. rewrite shr_m_of_loc in E1, E2.
  split; [f_equal; lia | ]. split; [exact E1 | ].
  intros -> Hmod. apply E2; [exact Hmod | reflexivity].
Qed.

Lemma shr_fexp_renorm (m2 e1 : Z) :
  -1074 <= e1 -> 0 <= m2 <= 2 ^ 53 ->
  exists mrs e2,
    shr_fexp prec emax m2 e1 loc_Exact = (mrs, e2) /\
    ((m2 < 2 ^ 53 /\ shr_m mrs = m2 /\ e2 = e1) \/
     (m2 = 2 ^ 53 /\ shr_m mrs = 2 ^ 52 /\ e2 = e1 + 1)).
Proof.
  intros He [Hlo Hhi]. unfold shr_fexp.
  destruct (Z.eq_dec m2 (2 ^ 53)) as [-> | Hne].
  - change (Zdigits2 (2 ^ 53)) with 54. rewrite fexp_eq.
    replace (Z.max (54 + e1 - 53) (-1074) - e1) with 1 by lia.
    eexists _, _. split; [reflexivity | ]. right. simpl shr_m. lia.
  - assert (Hn : fexp prec emax (Zdigits2 m2 + e1) - e1 <= 0).
    { rewrite fexp_eq. destruct (Z.eq_dec m2 0) as [-> | Hz].
      - simpl Zdigits2. lia.
      - pose proof (Zdigits2_le m2 53 ltac:(lia) ltac:(lia) ltac:(lia)). lia. }
    exists (shr_record_of_loc m2 loc_Exact), e1. split.
    + unfold shr. destruct (fexp prec emax (Zdigits2 m2 + e1) - e1); try reflexivity. lia.
    + left. simpl. lia.
Qed.

Lemma round_nearest_even_bounds (m : Z) (l : location) :
  m <= round_nearest_even m l <= m + 1 /\
  (l = loc_Exact -> round_nearest_even m l = m).
Proof.
  destruct l as [ | [ | | ]]; simpl; try destruct (Z.even m); split; try lia;
    intros; try discriminate; reflexivity.
Qed.

Lemma binary_round_aux_spec (s : bool) (m e : Z) (l : location) :
  0 < m ->
  0 <= fexp prec emax (Zdigits2 m + e) - e ->
  exists m2,
    m / 2 ^ (fexp prec emax (Zdigits2 m + e) - e) <= m2
      <= m / 2 ^ (fexp prec emax (Zdigits2 m + e) - e) + 1 /\
    (l = loc_Exact -> m mod 2 ^ (fexp prec emax (Zdigits2 m + e) - e) = 0 ->
     m2 = m / 2 ^ (fexp prec emax (Zdigits2 m + e) - e)) /\
    m2 <= 2 ^ 53 /\
    (2 ^ 52 <= m2 \/ fexp prec emax (Zdigits2 m + e) = -1074) /\
    binary_round_aux prec emax s m e l = canon s m2 (fexp prec emax (Zdigits2 m + e)).
Proof.
  intros Hm Hn.
  destruct (shr_fexp_spec m e l Hm Hn) as (mrs & E & E1 & E2).
  set (e1 := fexp prec emax (Zdigits2 m + e)) in *.
  set (n := e1 - e) in *.
  destruct (Zdigits2_bounds m Hm) as [Hdlo Hdhi].
  pose proof (Zdigits2_pos m Hm) as Hdpos.
  assert (Hpn : 0 < 2 ^ n) by (apply Z.pow_pos_nonneg; lia).
  assert (He1 : e1 = Z.max (Zdigits2 m + e - 53) (-1074)) by reflexivity.
  assert (Hm1hi : m / 2 ^ n < 2 ^ 53).
  { apply Z.div_lt_upper_bound; [lia | ].
    rewrite <- Z.pow_add_r by lia.
    assert (2 ^ Zdigits2 m <= 2 ^ (n + 53)) by (apply Z.pow_le_mono_r; lia). lia. }
  assert (Hm1lo : 0 <= m / 2 ^ n) by (apply Z.div_pos; lia).
  assert (Hnorm : 2 ^ 52 <= m / 2 ^ n \/ e1 = -1074).
  { destruct (Z.eq_dec e1 (-1074)) as [ | Hne]; [right; assumption | left].
    assert (Hneq : n = Zdigits2 m - 53) by lia.
    apply Z.div_le_lower_bound; [lia | ].
    rewrite <- Z.pow_add_r by lia.
    replace (n + 52) with (Zdigits2 m - 1) by lia. lia. }
  destruct (round_nearest_even_bounds (m / 2 ^ n) (loc_of_shr_record mrs)) as [Hb Hex].
  set (m2 := round_nearest_even (m / 2 ^ n) (loc_of_shr_record mrs)) in *.
  exists m2. split; [exact Hb | ]. split.
  { intros Hl Hmod. apply Hex. apply E2; assumption. }
  split; [lia | ]. split; [lia | ].
  unfold binary_round_aux. rewrite E, E1. fold m2.
  destruct (shr_fexp_renorm m2 e1 ltac:(lia) ltac:(lia)) as (mrs2 & e2 & E' & Hcase).
  rewrite E'.
  destruct Hcase as [(Hlt & -> & ->) | (Heq & -> & ->)].
  - unfold canon. clearbody m2. destruct m2 as [ | p | p]; try reflexivity.
    replace (Z.pos p =? 2 ^ 53) with false by (symmetry; apply Z.eqb_neq; lia).
    reflexivity.
  - rewrite Heq. reflexivity.
Qed.

Lemma bounded_spec (m : positive) (e : Z) :
  bounded prec emax m e = true <->
  e = Z.max (Zpos (digits2_pos m) + e - 53) (-1074) /\ e <= 971.
Proof.
  unfold bounded, canonical_mantissa. rewrite andb_true_iff, Z.eqb_eq, Z.leb_le.
  rewrite fexp_eq. change (emax - prec) with 971. intuition lia.
Qed.

Lemma canon_sign (s : bool) (m2 e1 : Z) : 0 <= m2 -> has_sign s (canon s m2 e1) = true.
Proof.
  intros H. unfold canon. destruct m2 as [ | p | p]; [ | | lia].
  - apply eqb_reflx.
  - destruct (Z.pos p =? 2 ^ 53); [destruct (e1 + 1 <=? 971) | destruct (e1 <=? 971)];
      apply eqb_reflx.
Qed.

(** Shape of a positive [canon]: finite with the expected value, or overflow. *)

Lemma canon_finite (s : bool) (m2 e1 : Z) :
  0 < m2 <= 2 ^ 53 -> 2 ^ 52 <= m2 \/ e1 = -1074 -> -1074 <= e1 ->
  (exists m' e', canon s m2 e1 = S754_finite s m' e' /\
                 bounded prec emax m' e' = true /\
                 e1 <= e' <= e1 + 1 /\ Zpos m' * 2 ^ (e' - e1) = m2) \/
  (canon s m2 e1 = S754_infinity s /\ (971 < e1 \/ (m2 = 2 ^ 53 /\ 971 <= e1))).
Proof.
  intros [Hpos Hhi] Hnorm He. unfold canon.
  destruct m2 as [ | p | p]; try lia.
  destruct (Z.eqb_spec (Z.pos p) (2 ^ 53)) as [Heq | Hne].
  - destruct (Z.leb_spec (e1 + 1) 971).
    + left. exists (2 ^ 52)%positive, (e1 + 1). split; [reflexivity | ].
      split; [ | split; [lia | ] ].
      * apply bounded_spec. change (Z.pos (digits2_pos (2 ^ 52))) with 53. lia.
      * replace (e1 + 1 - e1) with 1 by lia. rewrite Heq. reflexivity.
    + right. split; [reflexivity | ]. right. lia.
  - destruct (Z.leb_spec e1 971).
    + left. exists p, e1. split; [reflexivity | ].
      split; [ | split; [lia | ] ].
      * apply bounded_spec.
        pose proof (Zdigits2_le (Z.pos p) 53 ltac:(lia) ltac:(lia) ltac:(lia)) as Hd.
        simpl Zdigits2 in Hd.
        destruct Hnorm as [Hn | Hn].
        -- pose proof (Zdigits2_ge (Z.pos p) 52 ltac:(lia) ltac:(lia) Hn) as Hd'.
           simpl Zdigits2 in Hd'. lia.
        -- lia.
      * rewrite Z.sub_diag. simpl. lia.
    + right. split; [reflexivity | ]. left. lia.
Qed.

Lemma binary_round_aux_sign (s : bool) (m e : Z) (l : location) :
  0 <= m -> has_sign s (binary_round_aux prec emax s m e l) = true.
Proof.
  intros Hm. unfold binary_round_aux, shr_fexp.
  assert (Hshr : forall mrs e0 n, 0 <= shr_m mrs -> 0 <= shr_m (fst (shr mrs e0 n))).
  { intros mrs e0 n H. destruct (Z.le_gt_cases 0 n) as [Hn | Hn].
    - destruct (shr_spec mrs e0 n H Hn) as (mrs' & E & E1 & _). rewrite E. simpl.
      rewrite E1. apply Z.div_pos; [assumption | apply Z.pow_pos_nonneg; lia].
    - destruct n; try lia. simpl. assumption. }
  pose proof (Hshr (shr_record_of_loc m l) e (fexp prec emax (Zdigits2 m + e) - e)
                ltac:(rewrite shr_m_of_loc; lia)) as H1.
  destruct (shr (shr_record_of_loc m l) e _) as [mrs' e'].
  simpl in H1.
  pose proof (round_nearest_even_bounds (shr_m mrs') (loc_of_shr_record mrs')) as [Hb _].
  set (m2 := round_nearest_even (shr_m mrs') (loc_of_shr_record mrs')) in *.
  pose proof (Hshr (shr_record_of_loc m2 loc_Exact) e'
                (fexp prec emax (Zdigits2 m2 + e') - e')
                ltac:(rewrite shr_m_of_loc; lia)) as H2.
  destruct (shr (shr_record_of_loc m2 loc_Exact) e' _) as [mrs'' e''].
  simpl in H2. destruct (shr_m mrs'') as [ | p | p]; [ | | lia]; simpl.
  - apply eqb_reflx.
  - destruct (e'' <=? 971); simpl; apply eqb_reflx.
Qed.

Lemma pow2_pos (k : Z) : 0 <= k -> 0 < 2 ^ k.
Proof. intros. apply Z.pow_pos_nonneg; lia. Qed.

Lemma pow2_le_inv (a b : Z) : 0 <= b -> 2 ^ a <= 2 ^ b -> a <= b.
Proof.
  intros Hb H. destruct (Z.le_gt_cases a b) as [ | Hgt]; [assumption | exfalso].
  assert (2 ^ b < 2 ^ a) by (apply Z.pow_lt_mono_r; lia). lia.
Qed.

Lemma pow2_lt_inv (a b : Z) : 0 <= b -> 2 ^ a < 2 ^ b -> a < b.
Proof.
  intros Hb H. destruct (Z.lt_ge_cases a b) as [ | Hge]; [assumption | exfalso].
  assert (2 ^ b <= 2 ^ a) by (apply Z.pow_le_mono_r; lia). lia.
Qed.

(** The rounding of a value at most one stays at most one. *)

Lemma binary_round_aux_unit (m e : Z) (l : location) :
  0 < m ->
  0 <= fexp prec emax (Zdigits2 m + e) - e ->
  e <= 0 ->
  m <= 2 ^ (- e) ->
  (m = 2 ^ (- e) -> l = loc_Exact) ->
  unitb (binary_round_aux prec emax false m e l) = true.
Proof.
  intros Hm Hn He Hle Hex.
  destruct (binary_round_aux_spec false m e l Hm Hn)
    as (m2 & Hb & Hexact & Hhi & Hnorm & ->).
  set (e1 := fexp prec emax (Zdigits2 m + e)) in *.
  set (n := e1 - e) in *.
  assert (He1 : e1 = Z.max (Zdigits2 m + e - 53) (-1074)) by reflexivity.
  destruct (Zdigits2_bounds m Hm) as [Hdlo Hdhi].
  assert (Hde : Zdigits2 m - 1 <= - e) by (apply pow2_le_inv; lia).
  assert (He1' : e1 <= -52) by lia.
  assert (Hpn : 0 < 2 ^ n) by (apply pow2_pos; lia).
  assert (Hsplit : 2 ^ (- e) = 2 ^ (- e1) * 2 ^ n).
  { rewrite <- Z.pow_add_r by lia. f_equal. lia. }
  assert (Hm2 : m2 <= 2 ^ (- e1)).
  { assert (Hm1 : m / 2 ^ n <= 2 ^ (- e1)).
    { apply Z.div_le_upper_bound; [lia | ]. rewrite Z.mul_comm. lia. }
    destruct (Z.eq_dec (m / 2 ^ n) (2 ^ (- e1))) as [Heq | Hne]; [ | lia].
    pose proof (Z.mul_div_le m (2 ^ n) Hpn) as Hmd.
    rewrite Heq in Hmd.
    assert (Hmeq : m = 2 ^ (- e)) by lia.
    rewrite Hexact; [lia | apply Hex; exact Hmeq | ].
    rewrite Hmeq, Hsplit. apply Z.mod_mul. lia. }
  assert (Hm2lo : 0 <= m2).
  { assert (0 <= m / 2 ^ n) by (apply Z.div_pos; lia). lia. }
  destruct (Z.eq_dec m2 0) as [-> | Hnz]; [reflexivity | ].
  destruct (canon_finite false m2 e1 ltac:(lia) Hnorm ltac:(lia))
    as [(m' & e' & -> & Hbd & He' & Hval) | (_ & Hov)]; [ | lia].
  unfold unitb. rewrite Hbd. simpl.
  apply andb_true_iff. split; [apply Z.leb_le; lia | apply Z.leb_le].
  destruct (Z.eq_dec e' e1) as [-> | Hne].
  - rewrite Z.sub_diag in Hval. simpl in Hval. lia.
  - replace (e' - e1) with 1 in Hval by lia.
    replace (- e1) with (Z.succ (- e')) in Hm2 by lia.
    rewrite Z.pow_succ_r in Hm2 by lia. simpl in Hval. lia.
Qed.

Lemma iter_xO_spec (m d : positive) : Zpos (Pos.iter xO m d) = Zpos m * 2 ^ Zpos d.
Proof.
  induction d as [ | d IH] using Pos.peano_ind.
  - simpl. lia.
  - rewrite Pos.iter_succ, Pos2Z.inj_xO, IH, Pos2Z.inj_succ, Z.pow_succ_r by lia. lia.
Qed.

Lemma shl_align_spec (m : positive) (e e' : Z) :
  e' <= e ->
  Zpos (fst (shl_align m e e')) = Zpos m * 2 ^ (e - e') /\ snd (shl_align m e e') = e'.
Proof.
  intros H. unfold shl_align. destruct (e' - e) as [ | p | p] eqn:E; try lia.
  - simpl. replace (e - e') with 0 by lia. simpl. lia.
  - simpl. rewrite iter_xO_spec. replace (e - e') with (Z.pos p) by lia. auto.
Qed.

Lemma shl_align_id (m : positive) (e e' : Z) : e <= e' -> shl_align m e e' = (m, e).
Proof.
  intros H. unfold shl_align. destruct (e' - e) as [ | p | p] eqn:E; try lia; reflexivity.
Qed.

Lemma Zdigits2_shift (m j : Z) : 0 < m -> 0 <= j -> Zdigits2 (m * 2 ^ j) = Zdigits2 m + j.
Proof.
  intros Hm Hj.
  destruct (Zdigits2_bounds m Hm) as [Hlo Hhi].
  pose proof (Zdigits2_pos m Hm) as Hd.
  pose proof (pow2_pos j Hj) as Hp.
  assert (Hm' : 0 < m * 2 ^ j) by lia.
  apply Z.le_antisymm.
  - apply Zdigits2_le; [lia | lia | ]. rewrite Z.pow_add_r by lia. nia.
  - replace (Zdigits2 m + j) with (Zdigits2 m - 1 + j + 1) by lia.
    apply Zdigits2_ge; [lia | lia | ]. rewrite Z.pow_add_r by lia. nia.
Qed.

Lemma Zdigits2_mul_ge (a b : Z) :
  0 < a -> 0 < b -> Zdigits2 a + Zdigits2 b - 1 <= Zdigits2 (a * b).
Proof.
  intros Ha Hb.
  destruct (Zdigits2_bounds a Ha) as [Ha1 _]. destruct (Zdigits2_bounds b Hb) as [Hb1 _].
  pose proof (Zdigits2_pos a Ha). pose proof (Zdigits2_pos b Hb).
  replace (Zdigits2 a + Zdigits2 b - 1) with (Zdigits2 a - 1 + (Zdigits2 b - 1) + 1) by lia.
  apply Zdigits2_ge; [nia | lia | ].
  rewrite Z.pow_add_r by lia.
  pose proof (pow2_pos (Zdigits2 a - 1) ltac:(lia)).
  pose proof (pow2_pos (Zdigits2 b - 1) ltac:(lia)). nia.
Qed.

Lemma binary_round_unit (k : positive) (e : Z) :
  e <= 0 -> Zpos k <= 2 ^ (- e) ->
  unitb (binary_round prec emax false k e) = true.
Proof.
  intros He Hle. unfold binary_round.
  set (e' := fexp prec emax (Z.pos (digits2_pos k) + e)).
  destruct (Z.le_gt_cases e e') as [Hcase | Hcase].
  - rewrite shl_align_id by assumption.
    apply binary_round_aux_unit; try assumption; try lia.
    + fold e'. simpl Zdigits2. lia.
    + reflexivity.
  - destruct (shl_align_spec k e e' ltac:(lia)) as [Hm He'].
    destruct (shl_align k e e') as [mz ez]. cbn [fst snd] in Hm, He'. subst ez.
    assert (He'0 : e' = Z.max (Z.pos (digits2_pos k) + e - 53) (-1074)) by reflexivity.
    pose proof (pow2_pos (e - e') ltac:(lia)) as Hp.
    assert (Hdig : Zdigits2 (Z.pos mz) + e' = Z.pos (digits2_pos k) + e).
    { rewrite Hm, Zdigits2_shift by lia. simpl Zdigits2. lia. }
    apply binary_round_aux_unit; try lia.
    + rewrite Hdig. fold e'. lia.
    + rewrite Hm. replace (- e') with (- e + (e - e')) by lia.
      rewrite Z.pow_add_r by lia. nia.
    + reflexivity.
Qed.

Lemma unitb_finite (m : positive) (e : Z) :
  unitb (S754_finite false m e) = true ->
  bounded prec emax m e = true /\ e <= -52 /\ Zpos m <= 2 ^ (- e).
Proof.
  unfold unitb. rewrite !andb_true_iff, !Z.leb_le. intros [[Hb He] Hm].
  split; [assumption | ]. split; [ | assumption].
  apply bounded_spec in Hb. destruct Hb as [Hc _].
  destruct (Z.eq_dec e (-1074)); [lia | ].
  assert (Hd : Z.pos (digits2_pos m) = 53) by lia.
  pose proof (digits2_pos_bounds m) as [Hlo _]. rewrite Hd in Hlo.
  assert (52 <= - e) by (apply pow2_le_inv; lia). lia.
Qed.

Lemma fmul_unit (p c : float) (mc : positive) (ec : Z) :
  c = S754_finite false mc ec ->
  Zpos (digits2_pos mc) = 53 ->
  unitb p = true -> unitb c = true -> unitb (fmul p c) = true.
Proof.
  intros -> Hdc Hp Hc.
  destruct p as [ [ | ] | | | [ | ] mp ep]; try discriminate; [reflexivity | ].
  apply unitb_finite in Hp. destruct Hp as (Hbp & Hep & Hmp).
  apply unitb_finite in Hc. destruct Hc as (Hbc & Hec & Hmc).
  unfold fmul, SFmul. change (xorb false false) with false.
  apply binary_round_aux_unit.
  - lia.
  - pose proof (Zdigits2_mul_ge (Z.pos mp) (Z.pos mc) ltac:(lia) ltac:(lia)) as Hd.
    change (Z.pos mp * Z.pos mc) with (Z.pos (mp * mc)) in Hd.
    unfold Zdigits2 in *. rewrite fexp_eq. lia.
  - lia.
  - rewrite Pos2Z.inj_mul. replace (- (ep + ec)) with (- ep + - ec) by lia.
    rewrite Z.pow_add_r by lia.
    apply Z.mul_le_mono_nonneg; lia.
  - reflexivity.
Qed.

Lemma fsub_one_unit (q : float) : unitb q = true -> unitb (fsub f1_0 q) = true.
Proof.
  intros Hq.
  destruct q as [ [ | ] | | | [ | ] mq eq]; try discriminate; [reflexivity | ].
  apply unitb_finite in Hq. destruct Hq as (Hbq & Heq & Hmq).
  unfold fsub, f1_0, SFsub.
  rewrite Z.min_r by lia.
  destruct (shl_align_spec 4503599627370496 (-52) eq ltac:(lia)) as [H1 _].
  rewrite (shl_align_id mq eq eq) by lia.
  unfold cond_Zopp. simpl fst at 2.
  rewrite H1.
  change (Z.pos 4503599627370496) with (2 ^ 52).
  rewrite <- Z.pow_add_r by lia. replace (52 + (-52 - eq)) with (- eq) by lia.
  unfold binary_normalize.
  destruct (2 ^ (- eq) - Z.pos mq) as [ | k | k] eqn:E; try lia.
  - reflexivity.
  - apply binary_round_unit; lia.
Qed.

Lemma compare_cont_le (m q : positive) :
  Z.pos m <= Z.pos q -> Pos.compare_cont Eq m q <> Gt.
Proof.
  intros H E. change ((m ?= q)%positive = Gt) in E.
  apply Pos.compare_gt_iff in E. lia.
Qed.

Lemma unitb_fleb (f : float) :
  unitb f = true -> fleb zero f = true /\ fleb f f1_0 = true.
Proof.
  intros H.
  destruct f as [ [ | ] | | | [ | ] m e]; try discriminate; [split; reflexivity | ].
  apply unitb_finite in H. destruct H as (Hb & He & Hm).
  split; [reflexivity | ].
  unfold fleb, SFleb, f1_0, SFcompare.
  change (IntDef.Z.compare e (-52)) with (e ?= -52).
  destruct (Z.compare_spec e (-52)) as [Heq | Hlt | Hgt]; [ | reflexivity | lia].
  subst e. change (2 ^ (- (-52))) with (Z.pos 4503599627370496) in Hm.
  pose proof (compare_cont_le m _ Hm) as Hc.
  destruct (Pos.compare_cont Eq m 4503599627370496); [reflexivity | reflexivity | ].
  exfalso. apply Hc. reflexivity.
Qed.

Lemma nonnegb_fleb (f : float) : nonnegb f = true -> fleb zero f = true.
Proof. destruct f as [ [ | ] | [ | ] | | [ | ] m e]; try discriminate; reflexivity. Qed.

Lemma unitb_nonnegb (f : float) : unitb f = true -> nonnegb f = true.
Proof. destruct f as [ [ | ] | [ | ] | | [ | ] m e]; try discriminate; reflexivity. Qed.

Lemma fmul_nonneg (x y : float) :
  nonnegb x = true -> nonnegb y = true ->
  nonnegb (fmul x y) = true \/ fmul x y = S754_nan.
Proof.
  destruct x as [ [ | ] | [ | ] | | [ | ] mx ex]; try discriminate;
  destruct y as [ [ | ] | [ | ] | | [ | ] my ey]; try discriminate; intros _ _;
    try (left; apply binary_round_aux_sign; lia);
    try (left; reflexivity); try (right; reflexivity).
Qed.

Lemma fmul_finite_nonneg (x y : float) (mx my : positive) (ex ey : Z) :
  x = S754_finite false mx ex \/ x = S754_zero false ->
  y = S754_finite false my ey ->
  nonnegb (fmul x y) = true.
Proof.
  intros [-> | ->] ->; [ | reflexivity].
  apply binary_round_aux_sign. lia.
Qed.

Lemma fadd_finite_nonneg (c y : float) (mc : positive) (ec : Z) :
  c = S754_finite false mc ec -> nonnegb y = true -> nonnegb (fadd c y) = true.
Proof.
  intros -> Hy.
  destruct y as [ [ | ] | [ | ] | | [ | ] my ey]; try discriminate; try reflexivity.
  unfold fadd, SFadd, cond_Zopp, binary_normalize.
  set (z := Z.pos (fst (shl_align mc ec (Z.min ec ey))) +
            Z.pos (fst (shl_align my ey (Z.min ec ey)))).
  assert (0 < z) by (unfold z; lia).
  destruct z as [ | k | k]; try lia.
  unfold binary_round. destruct (shl_align k _ _) as [mz ez].
  apply binary_round_aux_sign. lia.
Qed.

(** [binary_round]: the mantissa is first aligned to the target exponent. *)

Lemma binary_round_spec (s : bool) (k : positive) (e : Z) :
  exists m2,
    binary_round prec emax s k e
      = canon s m2 (fexp prec emax (Z.pos (digits2_pos k) + e)) /\
    0 <= m2 <= 2 ^ 53 /\
    (2 ^ 52 <= m2 \/ fexp prec emax (Z.pos (digits2_pos k) + e) = -1074) /\
    (fexp prec emax (Z.pos (digits2_pos k) + e) <= e ->
     m2 = Z.pos k * 2 ^ (e - fexp prec emax (Z.pos (digits2_pos k) + e))) /\
    (e <= fexp prec emax (Z.pos (digits2_pos k) + e) ->
     Z.pos k / 2 ^ (fexp prec emax (Z.pos (digits2_pos k) + e) - e) <= m2
       <= Z.pos k / 2 ^ (fexp prec emax (Z.pos (digits2_pos k) + e) - e) + 1 /\
     (Z.pos k mod 2 ^ (fexp prec emax (Z.pos (digits2_pos k) + e) - e) = 0 ->
      m2 = Z.pos k / 2 ^ (fexp prec emax (Z.pos (digits2_pos k) + e) - e))).
Proof.
  unfold binary_round.
  set (e1 := fexp prec emax (Z.pos (digits2_pos k) + e)).
  assert (He1 : e1 = Z.max (Z.pos (digits2_pos k) + e - 53) (-1074)) by reflexivity.
  destruct (Z.le_gt_cases e e1) as [Hcase | Hcase].
  - rewrite shl_align_id by assumption.
    destruct (binary_round_aux_spec s (Z.pos k) e loc_Exact ltac:(lia))
      as (m2 & Hb & Hex & Hhi & Hnorm & E).
    { simpl Zdigits2. fold e1. lia. }
    simpl Zdigits2 in *. fold e1 in Hb, Hex, Hnorm, E.
    exists m2. split; [exact E | ].
    assert (0 <= Z.pos k / 2 ^ (e1 - e)).
    { apply Z.div_pos; [lia | apply pow2_pos; lia]. }
    split; [lia | ]. split; [exact Hnorm | ]. split.
    + intros Hle. assert (e1 = e) by lia.
      replace (e - e1) with 0 by lia. rewrite Z.mul_1_r.
      rewrite Hex; [ | reflexivity | ].
      * replace (e1 - e) with 0 by lia. apply Z.div_1_r.
      * replace (e1 - e) with 0 by lia. apply Z.mod_1_r.
    + intros _. split; [exact Hb | ]. intros Hmod. apply Hex; [reflexivity | exact Hmod].
  - destruct (shl_align_spec k e e1 ltac:(lia)) as [Hm He'].
    destruct (shl_align k e e1) as [mz ez]. cbn [fst snd] in Hm, He'. subst ez.
    pose proof (pow2_pos (e - e1) ltac:(lia)) as Hp.
    assert (Hdig : Zdigits2 (Z.pos mz) + e1 = Z.pos (digits2_pos k) + e).
    { rewrite Hm, Zdigits2_shift by lia. simpl Zdigits2. lia. }
    destruct (binary_round_aux_spec s (Z.pos mz) e1 loc_Exact ltac:(lia))
      as (m2 & Hb & Hex & Hhi & Hnorm & E).
    { rewrite Hdig. fold e1. lia. }
    rewrite Hdig in *. fold e1 in Hb, Hex, Hnorm, E.
    rewrite Z.sub_diag in Hb, Hex. change (2 ^ 0) with 1 in Hb, Hex.
    rewrite Z.div_1_r in Hb, Hex.
    specialize (Hex eq_refl (Z.mod_1_r _)).
    exists m2. split; [exact E | ]. split; [lia | ]. split; [exact Hnorm | ]. split.
    + intros _. lia.
    + intros Hle. lia.
Qed.

(** Scaling both sides of a comparison of dyadic numbers. *)

Lemma pow2_le_shift (a b p q c : Z) :
  0 <= p -> 0 <= q -> 0 <= p + c -> 0 <= q + c ->
  a * 2 ^ p <= b * 2 ^ q -> a * 2 ^ (p + c) <= b * 2 ^ (q + c).
Proof.
  intros Hp Hq Hpc Hqc H.
  destruct (Z.le_gt_cases 0 c) as [Hc | Hc].
  - rewrite !Z.pow_add_r by lia. pose proof (pow2_pos c Hc). nia.
  - pose proof (pow2_pos (- c) ltac:(lia)) as Hpos.
    replace p with (p + c + - c) in H by lia.
    replace q with (q + c + - c) in H by lia.
    rewrite (Z.pow_add_r 2 (p + c)), (Z.pow_add_r 2 (q + c)) in H by lia.
    nia.
Qed.

Lemma pow2_lt_shift (a b p q c : Z) :
  0 <= p -> 0 <= q -> 0 <= p + c -> 0 <= q + c ->
  a * 2 ^ p < b * 2 ^ q -> a * 2 ^ (p + c) < b * 2 ^ (q + c).
Proof.
  intros Hp Hq Hpc Hqc H.
  destruct (Z.le_gt_cases 0 c) as [Hc | Hc].
  - rewrite !Z.pow_add_r by lia. pose proof (pow2_pos c Hc). nia.
  - pose proof (pow2_pos (- c) ltac:(lia)) as Hpos.
    replace p with (p + c + - c) in H by lia.
    replace q with (q + c + - c) in H by lia.
    rewrite (Z.pow_add_r 2 (p + c)), (Z.pow_add_r 2 (q + c)) in H by lia.
    nia.
Qed.

Lemma bounded_facts (m : positive) (e : Z) :
  bounded prec emax m e = true ->
  -1074 <= e <= 971 /\ Z.pos m < 2 ^ 53 /\ Z.pos (digits2_pos m) <= 53.
Proof.
  intros H. apply bounded_spec in H. destruct H as [Hc He].
  assert (Hd : Z.pos (digits2_pos m) <= 53) by lia.
  split; [lia | ]. split; [ | exact Hd].
  pose proof (digits2_pos_bounds m) as [_ Hhi].
  assert (2 ^ Z.pos (digits2_pos m) <= 2 ^ 53) by (apply Z.pow_le_mono_r; lia). lia.
Qed.

(** [float(n)] stays below any double that is at least [n]. *)

Lemma of_int_le (k my : positive) (ey : Z) :
  bounded prec emax my ey = true ->
  Z.pos k * 2 ^ 1074 <= Z.pos my * 2 ^ (ey + 1074) ->
  exists mx ex,
    of_int (Z.pos k) = Return (S754_finite false mx ex) /\
    bounded prec emax mx ex = true /\
    Z.pos mx * 2 ^ (ex + 1074) <= Z.pos my * 2 ^ (ey + 1074) /\
    1 <= Z.pos (digits2_pos mx) + ex.
Proof.
  intros Hby Hle.
  destruct (bounded_facts my ey Hby) as (Hey & Hmy & Hdy).
  unfold of_int, binary_normalize.
  destruct (binary_round_spec false k 0) as (m2 & -> & Hm2 & Hnorm & Hsmall & Hbig).
  set (d := Z.pos (digits2_pos k)) in *.
  pose proof (digits2_pos_bounds k) as [Hklo Hkhi]. fold d in Hklo, Hkhi.
  assert (Hd : 1 <= d) by (unfold d; lia).
  rewrite fexp_eq in *. rewrite Z.add_0_r in *.
  replace (Z.max (d - 53) (-1074)) with (d - 53) in * by lia.
  assert (Hm2pos : 2 ^ 52 <= m2) by (destruct Hnorm; lia).
  assert (Hgoal : m2 * 2 ^ (d - 53 + 1074) <= Z.pos my * 2 ^ (ey + 1074)).
  { destruct (Z.le_gt_cases (d - 53) 0) as [Hc | Hc].
    - rewrite (Hsmall Hc). rewrite <- Z.mul_assoc, <- Z.pow_add_r by lia.
      replace (0 - (d - 53) + (d - 53 + 1074)) with 1074 by lia. exact Hle.
    - destruct (Hbig ltac:(lia)) as [Hb Hex].
      rewrite Z.sub_0_r in Hb, Hex.
      pose proof (pow2_pos (d - 53) ltac:(lia)) as Hpn.
      assert (Hey1 : d - 53 <= ey).
      { assert (Hlt : 2 ^ (d - 1 + 1074) < 2 ^ (53 + (ey + 1074))).
        { rewrite (Z.pow_add_r 2 53) by lia. rewrite (Z.pow_add_r 2 (d - 1)) by lia.
          pose proof (pow2_pos 1074 ltac:(lia)). pose proof (pow2_pos (ey + 1074) ltac:(lia)).
          nia. }
        apply pow2_lt_inv in Hlt; lia. }
      set (kk := Z.pos my * 2 ^ (ey - (d - 53))).
      assert (Hkk : Z.pos my * 2 ^ (ey + 1074) = kk * 2 ^ (d - 53 + 1074)).
      { unfold kk. rewrite <- Z.mul_assoc, <- Z.pow_add_r by lia. f_equal. f_equal. lia. }
      assert (Hkle : Z.pos k <= kk * 2 ^ (d - 53)).
      { rewrite Hkk in Hle. rewrite (Z.pow_add_r 2 (d - 53)) in Hle by lia.
        pose proof (pow2_pos 1074 ltac:(lia)). nia. }
      assert (Hm1 : Z.pos k / 2 ^ (d - 53) <= kk).
      { apply Z.div_le_upper_bound; [lia | ]. rewrite Z.mul_comm. exact Hkle. }
      assert (Hm2k : m2 <= kk).
      { destruct (Z.eq_dec (Z.pos k / 2 ^ (d - 53)) kk) as [Heq | Hne]; [ | lia].
        pose proof (Z.mul_div_le (Z.pos k) (2 ^ (d - 53)) Hpn) as Hmd.
        rewrite Heq in Hmd.
        assert (Hkeq : Z.pos k = kk * 2 ^ (d - 53)) by lia.
        rewrite Hex; [lia | ]. rewrite Hkeq. apply Z.mod_mul. lia. }
      rewrite Hkk. apply Z.mul_le_mono_nonneg_r; [ | exact Hm2k].
      apply Z.lt_le_incl, pow2_pos. lia. }
  destruct (canon_finite false m2 (d - 53) ltac:(lia) Hnorm ltac:(lia))
    as [(m' & e' & -> & Hbd & He' & Hval) | (_ & Hov)].
  - exists m', e'. split; [reflexivity | ]. split; [exact Hbd | ].
    assert (Hscaled : Z.pos m' * 2 ^ (e' + 1074) = m2 * 2 ^ (d - 53 + 1074)).
    { rewrite <- Hval. rewrite <- Z.mul_assoc, <- Z.pow_add_r by lia.
      f_equal. f_equal. lia. }
    split; [lia | ].
    apply bounded_spec in Hbd. destruct Hbd as [Hc _]. lia.
  - exfalso.
    pose proof (pow2_pos (ey + 1074) ltac:(lia)) as HA.
    assert (HAB : 2 ^ (ey + 1074) <= 2 ^ (d - 53 + 1074))
      by (apply Z.pow_le_mono_r; lia).
    assert (HAB2 : 971 < d - 53 -> 2 * 2 ^ (ey + 1074) <= 2 ^ (d - 53 + 1074)).
    { intros Hlt. rewrite <- Z.pow_succ_r by lia. apply Z.pow_le_mono_r; lia. }
    set (A := 2 ^ (ey + 1074)) in *. set (B := 2 ^ (d - 53 + 1074)) in *.
    clearbody A B.
    assert (H52 : 2 ^ 53 = 2 * 2 ^ 52) by reflexivity.
    set (P := 2 ^ 52) in *. clearbody P. rewrite H52 in *.
    destruct Hov as [Hov | [Hov1 Hov2]].
    + specialize (HAB2 Hov).
      assert (P * (2 * A) <= m2 * B) by (apply Z.mul_le_mono_nonneg; lia).
      assert (Z.pos my * A < 2 * P * A) by (apply Z.mul_lt_mono_pos_r; lia).
      lia.
    + assert (2 * P * A <= m2 * B) by (rewrite Hov1; apply Z.mul_le_mono_nonneg; lia).
      assert (Z.pos my * A < 2 * P * A) by (apply Z.mul_lt_mono_pos_r; lia).
      lia.
Qed.

(** A double that overflows the conversion is at least [2^1024 - 2^970]. *)

Lemma of_int_overflow (k : positive) :
  2 ^ 1024 <= Z.pos k -> of_int (Z.pos k) = Raise OverflowError.
Proof.
  intros Hk. unfold of_int, binary_normalize.
  destruct (binary_round_spec false k 0) as (m2 & -> & Hm2 & Hnorm & Hsmall & Hbig).
  set (d := Z.pos (digits2_pos k)) in *.
  pose proof (digits2_pos_bounds k) as [Hklo Hkhi]. fold d in Hklo, Hkhi.
  assert (Hd : 1025 <= d).
  { assert (1024 < d); [ | lia]. apply pow2_lt_inv; [unfold d | ]; lia. }
  rewrite fexp_eq in *. rewrite Z.add_0_r in *.
  replace (Z.max (d - 53) (-1074)) with (d - 53) in * by lia.
  assert (Hm2pos : 2 ^ 52 <= m2) by (destruct Hnorm; lia).
  destruct (canon_finite false m2 (d - 53) ltac:(lia) Hnorm ltac:(lia))
    as [(m' & e' & E & Hbd & He' & Hval) | (-> & Hov)].
  - apply bounded_spec in Hbd. lia.
  - reflexivity.
Qed.

Lemma new_location_exact (nb : Z) : new_location nb 0 = loc_Exact.
Proof. unfold new_location. destruct (Z.even nb); reflexivity. Qed.

Lemma shifted_dividend (m s : Z) :
  0 <= s ->
  match s with
  | 0 => m
  | Z.pos _ => Z.shiftl m s
  | Z.neg _ => 0
  end = m * 2 ^ s.
Proof.
  intros Hs. destruct s as [ | p | p]; [ | | lia].
  - rewrite Z.pow_0_r. lia.
  - apply Z.shiftl_mul_pow2. lia.
Qed.

(** The quotient of two positive doubles, the first at least one and at most the
    second, lies in the unit interval. *)

Lemma fdiv_unit (mx my : positive) (ex ey : Z) :
  bounded prec emax mx ex = true ->
  bounded prec emax my ey = true ->
  Z.pos mx * 2 ^ (ex + 1074) <= Z.pos my * 2 ^ (ey + 1074) ->
  1 <= Z.pos (digits2_pos mx) + ex ->
  unitb (fdiv (S754_finite false mx ex) (S754_finite false my ey)) = true.
Proof.
  intros Hbx Hby Hle Hx1.
  destruct (bounded_facts mx ex Hbx) as (Hex & Hmx & Hdx).
  destruct (bounded_facts my ey Hby) as (Hey & Hmy & Hdy).
  pose proof (digits2_pos_bounds mx) as [Hxlo Hxhi].
  pose proof (digits2_pos_bounds my) as [Hylo Hyhi].
  set (d1 := Z.pos (digits2_pos mx)) in *.
  set (d2 := Z.pos (digits2_pos my)) in *.
  assert (Hd1 : 1 <= d1) by (unfold d1; lia).
  assert (Hd2 : 1 <= d2) by (unfold d2; lia).
  unfold fdiv, SFdiv. change (xorb false false) with false.
  unfold SFdiv_core_binary. simpl Zdigits2. fold d1 d2.
  rewrite fexp_eq.
  set (D := d1 + ex - (d2 + ey)).
  set (e' := Z.min (Z.max (D - 53) (-1074)) (ex - ey)).
  set (s := ex - ey - e').
  assert (Hs : 0 <= s) by (unfold s, e'; lia).
  (* magnitudes: x <= y gives D <= 0 *)
  assert (HD : D <= 0).
  { assert (Hlt : 2 ^ (d1 - 1 + (ex + 1074)) < 2 ^ (d2 + (ey + 1074))).
    { rewrite (Z.pow_add_r 2 (d1 - 1)), (Z.pow_add_r 2 d2) by lia.
      pose proof (pow2_pos (ex + 1074) ltac:(lia)) as HA.
      pose proof (pow2_pos (ey + 1074) ltac:(lia)) as HB.
      set (A := 2 ^ (ex + 1074)) in *. set (B := 2 ^ (ey + 1074)) in *.
      clearbody A B.
      assert (2 ^ (d1 - 1) * A <= Z.pos mx * A) by (apply Z.mul_le_mono_nonneg_r; lia).
      assert (Z.pos my * B < 2 ^ d2 * B) by (apply Z.mul_lt_mono_pos_r; lia).
      lia. }
    apply pow2_lt_inv in Hlt; [unfold D; lia | lia]. }
  assert (HDlo : -1073 <= D) by (unfold D; lia).
  assert (He'D : e' <= D - 1) by (unfold e'; lia).
  assert (He'0 : e' <= 0) by lia.
  (* the shifted dividend *)
  set (m' := match s with
             | 0 => Z.pos mx
             | Z.pos _ => Z.shiftl (Z.pos mx) s
             | Z.neg _ => 0
             end).
  assert (Hm' : m' = Z.pos mx * 2 ^ s) by (apply shifted_dividend; exact Hs).
  clearbody m'.
  pose proof (pow2_pos s Hs) as Hps.
  pose proof (pow2_pos (- e') ltac:(lia)) as Hpe.
  (* x <= y, rescaled: m' <= my * 2^(-e') *)
  assert (Hm'le : m' <= Z.pos my * 2 ^ (- e')).
  { rewrite Hm'.
    pose proof (pow2_le_shift (Z.pos mx) (Z.pos my) (ex + 1074) (ey + 1074)
                  (- 1074 - ey - e') ltac:(lia) ltac:(lia)) as Hsh.
    replace (ex + 1074 + (-1074 - ey - e')) with s in Hsh by (unfold s; lia).
    replace (ey + 1074 + (-1074 - ey - e')) with (- e') in Hsh by lia.
    apply Hsh; [lia | lia | exact Hle]. }
  (* the quotient is at least 2^(d1 - 1 + s - d2) *)
  assert (Hk : 0 <= d1 - 1 + s - d2) by (unfold s; lia).
  assert (Hm'ge : Z.pos my * 2 ^ (d1 - 1 + s - d2) <= m').
  { rewrite Hm'.
    assert (Hsplit : 2 ^ (d1 - 1) * 2 ^ s = 2 ^ d2 * 2 ^ (d1 - 1 + s - d2)).
    { rewrite <- !Z.pow_add_r by lia. f_equal. lia. }
    pose proof (pow2_pos (d1 - 1 + s - d2) Hk) as Hpk.
    set (K := 2 ^ (d1 - 1 + s - d2)) in *. set (S := 2 ^ s) in *.
    clearbody K S.
    assert (Z.pos my * K <= 2 ^ d2 * K) by (apply Z.mul_le_mono_nonneg_r; lia).
    assert (2 ^ (d1 - 1) * S <= Z.pos mx * S) by (apply Z.mul_le_mono_nonneg_r; lia).
    lia. }
  pose proof (Z.div_eucl_eq m' (Z.pos my) ltac:(lia)) as Hdiv.
  pose proof (Z.mod_pos_bound m' (Z.pos my) ltac:(lia)) as Hmod.
  unfold Z.modulo in Hmod.
  destruct (Z.div_eucl m' (Z.pos my)) as [q r].
  pose proof (pow2_pos (d1 - 1 + s - d2) Hk) as Hpk.
  assert (Hqlo : 2 ^ (d1 - 1 + s - d2) <= q).
  { set (K := 2 ^ (d1 - 1 + s - d2)) in *. clearbody K.
    destruct (Z.le_gt_cases K q) as [ | Hlt]; [assumption | exfalso].
    assert (Z.pos my * (q + 1) <= Z.pos my * K) by (apply Z.mul_le_mono_nonneg_l; lia).
    lia. }
  assert (Hqhi : q <= 2 ^ (- e')).
  { set (E := 2 ^ (- e')) in *. clearbody E.
    destruct (Z.le_gt_cases q E) as [ | Hlt]; [assumption | exfalso].
    assert (Z.pos my * (E + 1) <= Z.pos my * q) by (apply Z.mul_le_mono_nonneg_l; lia).
    lia. }
  assert (Hqpos : 0 < q) by lia.
  apply binary_round_aux_unit.
  - exact Hqpos.
  - pose proof (Zdigits2_ge q (d1 - 1 + s - d2) Hqpos Hk Hqlo) as Hdq.
    rewrite fexp_eq. unfold s in Hdq. unfold e' at 2. unfold D in *. lia.
  - exact He'0.
  - exact Hqhi.
  - intros Heq. subst q.
    assert (Hr : r = 0).
    { set (E := 2 ^ (- e')) in *. clearbody E. lia. }
    rewrite Hr. apply new_location_exact.
Qed.

(** Python's [int < float] on a positive double, as an inequality of scaled
    integers. *)

Lemma Zltb_scaled (z : Z) (m : positive) (e : Z) :
  -1074 <= e ->
  Float64.Zltb z (S754_finite false m e) = true ->
  z * 2 ^ 1074 < Z.pos m * 2 ^ (e + 1074).
Proof.
  intros He. unfold Float64.Zltb, Float64.Zcompare, cond_Zopp.
  destruct (Z.leb_spec 0 e) as [Hpos | Hneg].
  - destruct (Z.compare_spec z (Z.pos m * 2 ^ e)) as [ | Hlt | ]; try discriminate.
    intros _. rewrite Z.pow_add_r by lia.
    pose proof (pow2_pos 1074 ltac:(lia)) as HS.
    set (S := 2 ^ 1074) in *. clearbody S.
    rewrite Z.mul_assoc. apply Z.mul_lt_mono_pos_r; assumption.
  - destruct (Z.compare_spec (z * 2 ^ (- e)) (Z.pos m)) as [ | Hlt | ]; try discriminate.
    intros _.
    pose proof (pow2_lt_shift z (Z.pos m) (- e) 0 (e + 1074)
                  ltac:(lia) ltac:(lia) ltac:(lia) ltac:(lia)) as Hsh.
    replace (- e + (e + 1074)) with 1074 in Hsh by lia.
    replace (0 + (e + 1074)) with (e + 1074) in Hsh by lia.
    apply Hsh. rewrite Z.pow_0_r, Z.mul_1_r. exact Hlt.
Qed.

(** ** Decimal length *)

Lemma digits_fuel_spec (fuel : nat) (n : Z) :
  0 <= n -> Z.log2 n <= Z.of_nat fuel ->
  1 <= Py.digits_fuel fuel n /\
  n < 10 ^ Py.digits_fuel fuel n /\
  (0 < n -> 10 ^ (Py.digits_fuel fuel n - 1) <= n).
Proof.
  revert n. induction fuel as [ | fuel IH]; intros n Hn Hlog.
  - simpl. assert (n < 2).
    { destruct (Z.lt_ge_cases n 2) as [ | Hge]; [assumption | ].
      pose proof (Z.log2_le_mono 2 n Hge) as H. change (Z.log2 2) with 1 in H. lia. }
    lia.
  - cbn [Py.digits_fuel]. destruct (Z.ltb_spec n 10) as [Hlt | Hge].
    + simpl. lia.
    + assert (Hq : 0 <= n / 10) by (apply Z.div_pos; lia).
      assert (Hlog' : Z.log2 (n / 10) <= Z.of_nat fuel).
      { assert (n / 10 <= n / 2).
        { apply Z.div_le_compat_l; lia. }
        pose proof (Z.log2_le_mono _ _ H) as H1.
        rewrite <- (Z.pow_1_r 2), <- Z.shiftr_div_pow2, Z.log2_shiftr in H1 by lia.
        assert (1 <= Z.log2 n).
        { pose proof (Z.log2_le_mono 2 n ltac:(lia)) as H2.
          change (Z.log2 2) with 1 in H2. exact H2. }
        lia. }
      destruct (IH (n / 10) Hq Hlog') as (Hd & Hhi & Hlo).
      set (d := Py.digits_fuel fuel (n / 10)) in *.
      assert (Hq1 : 0 < n / 10) by (apply Z.div_str_pos; lia).
      specialize (Hlo Hq1).
      pose proof (Z.div_mod n 10 ltac:(lia)) as Hdm.
      pose proof (Z.mod_pos_bound n 10 ltac:(lia)) as Hmod.
      replace (1 + d - 1) with (Z.succ (d - 1)) by lia.
      replace (1 + d) with (Z.succ d) by lia.
      rewrite !Z.pow_succ_r by lia.
      split; [lia | ]. split; [lia | ]. intros _. lia.
Qed.

Lemma len_str_spec (n : Z) :
  0 <= n ->
  1 <= Py.len_str n /\ n < 10 ^ Py.len_str n /\ (0 < n -> 10 ^ (Py.len_str n - 1) <= n).
Proof.
  intros Hn. unfold Py.len_str. apply digits_fuel_spec; [assumption | ].
  rewrite Z2Nat.id; [lia | apply Z.log2_nonneg].
Qed.

Lemma str_len_inv (n k : Z) :
  Py.str_len n = Return k -> k = Py.len_str n /\ Py.len_str n <= 4300.
Proof.
  unfold Py.str_len, Py.max_str_digits.
  destruct (Z.ltb_spec 4300 (Py.len_str n)) as [Hgt | Hle]; [discriminate | ].
  intros E. split; [congruence | exact Hle].
Qed.

Lemma str_len_small (n : Z) :
  Py.len_str n <= 4300 -> Py.str_len n = Return (Py.len_str n).
Proof.
  intros Hle. unfold Py.str_len, Py.max_str_digits.
  destruct (Z.ltb_spec 4300 (Py.len_str n)) as [Hgt | _]; [lia | reflexivity].
Qed.

Lemma len_str_le (n k : Z) : 0 <= n -> 1 <= k -> n < 10 ^ k -> Py.len_str n <= k.
Proof.
  intros Hn Hk Hlt. destruct (len_str_spec n Hn) as (Hd & _ & Hlo).
  destruct (Z.eq_dec n 0) as [-> | Hnz]; [change (Py.len_str 0) with 1; lia | ].
  specialize (Hlo ltac:(lia)).
  destruct (Z.le_gt_cases (Py.len_str n) k) as [ | Hgt]; [assumption | exfalso].
  assert (10 ^ k <= 10 ^ (Py.len_str n - 1)) by (apply Z.pow_le_mono_r; lia). lia.
Qed.

(** ** Conversions of non-negative integers *)

Lemma of_int_nonneg (z : Z) (x : float) :
  0 <= z -> of_int z = Return x ->
  x = S754_zero false \/ exists m e, x = S754_finite false m e.
Proof.
  intros Hz. unfold of_int, binary_normalize.
  destruct z as [ | k | k]; [ | | lia].
  - intros H. injection H as <-. left. reflexivity.
  - unfold binary_round. destruct (shl_align k 0 _) as [mz ez].
    pose proof (binary_round_aux_sign false (Z.pos mz) ez loc_Exact ltac:(lia)) as Hs.
    destruct (binary_round_aux prec emax false (Z.pos mz) ez loc_Exact)
      as [ [ | ] | [ | ] | | [ | ] m e]; try discriminate; intros H; injection H as <-.
    + left. reflexivity.
    + right. eauto.
Qed.

Lemma of_int_small (z : Z) :
  0 <= z <= 2 ^ 52 ->
  exists x, of_int z = Return x /\
            (x = S754_zero false \/ exists m e, x = S754_finite false m e).
Proof.
  intros [Hlo Hhi]. destruct z as [ | k | k]; [ | | lia].
  - exists (S754_zero false). split; [reflexivity | left; reflexivity].
  - destruct (of_int_le k (2 ^ 52) 0 eq_refl) as (mx & ex & E & _).
    { rewrite Z.add_0_l. apply Z.mul_le_mono_nonneg_r; [ | exact Hhi].
      apply Z.lt_le_incl, pow2_pos. lia. }
    exists (S754_finite false mx ex). split; [exact E | right; eauto].
Qed.

(** [min(x, 0.8)] of a non-negative double lies in the unit interval. *)

Lemma fmin_unit (x : float) :
  nonnegb x = true ->
  fleb zero (fmin x f0_8) = true /\ fleb (fmin x f0_8) f1_0 = true.
Proof.
  intros Hx. unfold fmin.
  destruct (fltb f0_8 x) eqn:E; [split; reflexivity | ].
  split; [apply nonnegb_fleb; exact Hx | ].
  destruct x as [ [ | ] | [ | ] | | [ | ] m e]; try discriminate; try reflexivity.
  unfold fltb, SFltb, f0_8, SFcompare in E.
  unfold fleb, SFleb, f1_0, SFcompare.
  change (IntDef.Z.compare (-53) e) with (-53 ?= e) in E.
  change (IntDef.Z.compare e (-52)) with (e ?= -52).
  destruct (Z.compare_spec (-53) e) as [H1 | H1 | H1]; try discriminate;
    destruct (Z.compare_spec e (-52)) as [H2 | H2 | H2]; try reflexivity; lia.
Qed.

Lemma nikhilam_table : forallb nikhilam_table_ok (map Z.of_nat (seq 1 307)) = true.
Proof. vm_compute. reflexivity. Qed.

Lemma nikhilam_table_at (k : Z) : 1 <= k <= 307 -> nikhilam_table_ok k = true.
Proof.
  intros Hk. pose proof nikhilam_table as H. rewrite forallb_forall in H.
  apply H. apply in_map_iff. exists (Z.to_nat k). split; [lia | ].
  apply in_seq. lia.
Qed.

Lemma nikhilam_quotient (k da db : Z) (thr : float) :
  1 <= k <= 307 ->
  int_mul (10 ^ k) f0_2 = Return thr ->
  1 <= da -> 0 <= db ->
  Float64.Zltb da thr = true -> Float64.Zltb db thr = true ->
  exists den quo,
    int_mul (2 * 10 ^ k) f0_2 = Return den /\
    int_div (da + db) den = Return quo /\
    unitb quo = true.
Proof.
  intros Hk Hthr Hda Hdb Ha Hb.
  pose proof (nikhilam_table_at k Hk) as Ht. unfold nikhilam_table_ok in Ht.
  rewrite Hthr in Ht.
  destruct thr as [ | | | [ | ] mt et]; try discriminate.
  destruct (int_mul (2 * 10 ^ k) f0_2) as [ [ | | | [ | ] my ey] | ]; try discriminate.
  rewrite !andb_true_iff in Ht. destruct Ht as [[[Hbd Het] Hy] Hint].
  apply Z.leb_le in Het. apply Z.eqb_eq in Hy. apply Z.eqb_eq in Hint.
  apply (Zltb_scaled _ _ _ Het) in Ha. apply (Zltb_scaled _ _ _ Het) in Hb.
  assert (Hle : (da + db) * 2 ^ 1074 <= Z.pos my * 2 ^ (ey + 1074)).
  { assert (HS : 0 < 2 ^ 1074) by (apply pow2_pos; lia).
    set (S := 2 ^ 1074) in *.
    set (T := Z.pos mt * 2 ^ (et + 1074)) in *.
    set (Y := Z.pos my * 2 ^ (ey + 1074)) in *.
    clearbody S T Y.
    apply Z.mod_divide in Hint; [ | lia]. destruct Hint as [t Ht].
    rewrite Hy, Ht in *.
    assert (da < t) by (apply (Z.mul_lt_mono_pos_r S); lia).
    assert (db < t) by (apply (Z.mul_lt_mono_pos_r S); lia).
    assert ((da + db) * S <= (2 * t - 2) * S)
      by (apply Z.mul_le_mono_nonneg_r; lia).
    lia. }
  destruct (da + db) as [ | kk | kk] eqn:Ek; try lia.
  exists (S754_finite false my ey).
  destruct (of_int_le kk my ey Hbd Hle) as (mx & ex & E & Hbx & Hxy & Hx1).
  exists (fdiv (S754_finite false mx ex) (S754_finite false my ey)).
  split; [reflexivity | ]. split.
  - unfold int_div. rewrite E. reflexivity.
  - apply fdiv_unit; assumption.
Qed.

Lemma of_int_double_pow10 (k : Z) (x : float) :
  0 <= k -> of_int (2 * 10 ^ k) = Return x -> k <= 307.
Proof.
  intros Hk E. destruct (Z.le_gt_cases k 307) as [ | Hgt]; [assumption | exfalso].
  assert (H308 : 10 ^ 308 <= 10 ^ k) by (apply Z.pow_le_mono_r; lia).
  assert (Hc : 2 ^ 1024 <= 2 * 10 ^ 308) by (apply Z.leb_le; vm_compute; reflexivity).
  assert (Hbig : 2 ^ 1024 <= 2 * 10 ^ k).
  { set (A := 2 ^ 1024) in *. set (B := 10 ^ 308) in *. clearbody A B. lia. }
  clear H308 Hc.
  destruct (2 * 10 ^ k) as [ | p | p] eqn:Ep.
  - assert (0 < 2 ^ 1024) by (apply pow2_pos; lia). lia.
  - rewrite (of_int_overflow p Hbig) in E. discriminate.
  - assert (0 < 2 ^ 1024) by (apply pow2_pos; lia). lia.
Qed.

Lemma int_mul_inv (z : Z) (c r : float) :
  int_mul z c = Return r -> exists x, of_int z = Return x /\ r = fmul x c.
Proof.
  unfold int_mul. destruct (of_int z) as [x | e]; simpl; [ | discriminate].
  intros H. injection H as <-. eauto.
Qed.

Lemma int_mul_nonneg (z : Z) (r : float) (c : float) (mc : positive) (ec : Z) :
  c = S754_finite false mc ec ->
  0 <= z -> int_mul z c = Return r -> nonnegb r = true.
Proof.
  intros Hc Hz H. apply int_mul_inv in H. destruct H as (x & Ex & ->).
  destruct (of_int_nonneg z x Hz Ex) as [-> | (m & e & ->)].
  - apply (fmul_finite_nonneg _ _ 1%positive mc 0 ec); [right; reflexivity | exact Hc].
  - apply (fmul_finite_nonneg _ _ m mc e ec); [left; reflexivity | exact Hc].
Qed.

(** The confidence and speedup of the Nikhilam branch, from its quotient. *)
Lemma nikhilam_scores (quo : float) :
  unitb quo = true ->
  unitb (fmul (fsub f1_0 quo) f0_85) = true /\
  nonnegb (fadd f1_8 (fmul (fsub f1_0 quo) f0_8)) = true.
Proof.
  intros Hq. pose proof (fsub_one_unit quo Hq) as Hp. split.
  - eapply fmul_unit; [reflexivity | reflexivity | exact Hp | reflexivity].
  - eapply fadd_finite_nonneg; [reflexivity | ].
    apply unitb_nonnegb. eapply fmul_unit; [reflexivity | reflexivity | exact Hp | reflexivity].
Qed.

Lemma base_gap (a_int : Z) : 1 <= Z.abs (a_int - 10 ^ Py.len_str (Z.abs a_int)).
Proof.
  destruct (len_str_spec (Z.abs a_int) (Z.abs_nonneg _)) as (_ & H & _). lia.
Qed.

(** Every tuple [_analyze_pattern] returns has its confidence in [0, 1] and a
    non-negative predicted speedup. *)
Lemma analyze_pattern_bounds (a b : pynum) (sutra why : string) (c p : float) :
  _analyze_pattern a b = Return (sutra, c, p, why) ->
  in_unit c /\ fleb zero p = true.
Proof.
  unfold _analyze_pattern.
  destruct (Py.int a) as [a_int | ]; [ | discriminate].
  destruct (Py.int b) as [b_int | ]; [ | discriminate].
  cbn [bind].
  fold (rule1 a b a_int). fold (rule2 a_int b_int).
  destruct (rule1 a b a_int).
  { intros H. injection H as <- <- <- <-. repeat split; reflexivity. }
  destruct (rule2 a_int b_int).
  { intros H. injection H as <- <- <- <-. repeat split; reflexivity. }
  destruct (Py.str_len (Z.abs a_int)) as [ka | ] eqn:Eka; [ | discriminate].
  apply str_len_inv in Eka. destruct Eka as [-> Hka4300].
  cbn [bind].
  assert (Htail :
    (digits_b <- Py.str_len (Z.abs b_int) ;;
     let max_digits := Z.max (Py.len_str (Z.abs a_int)) digits_b in
     if 3 <=? max_digits
     then
       c0 <- int_mul (max_digits - 3) f0_05 ;;
       (let confidence := fmin (fadd f0_6 c0) f0_8 in
        s <- int_mul (max_digits - 3) f0_1 ;;
        Return (Urdhva_Tiryagbhyam, confidence, fadd f1_4 s,
                "Multi-digit crosswise multiplication"%string))
     else
       Return (Standard_Arithmetic, f1_0, f1_0,
               "No optimal Vedic pattern detected"%string))
    = Return (sutra, c, p, why) ->
    in_unit c /\ fleb zero p = true).
  { destruct (Py.str_len (Z.abs b_int)) as [kb | ] eqn:Ekb; [ | discriminate].
    apply str_len_inv in Ekb. destruct Ekb as [-> Hkb4300].
    cbn [bind]. cbv zeta. set (md := Z.max _ _).
    destruct (Z.leb_spec 3 md) as [Hmd | Hmd].
    - destruct (int_mul (md - 3) f0_05) as [c0 | ] eqn:Ec; [ | discriminate].
      destruct (int_mul (md - 3) f0_1) as [s0 | ] eqn:Es; [ | discriminate].
      cbn [bind]. intros H.
      assert (Hcp : c = fmin (fadd f0_6 c0) f0_8 /\ p = fadd f1_4 s0)
        by (split; congruence).
      destruct Hcp as [-> ->]. clear H.
      pose proof (int_mul_nonneg (md - 3) _ _ _ _ eq_refl ltac:(lia) Ec) as Hc0.
      pose proof (int_mul_nonneg (md - 3) _ _ _ _ eq_refl ltac:(lia) Es) as Hs0.
      split.
      + apply fmin_unit. eapply fadd_finite_nonneg; [reflexivity | exact Hc0].
      + apply nonnegb_fleb. eapply fadd_finite_nonneg; [reflexivity | exact Hs0].
    - intros H. injection H as <- <- <- <-. repeat split; reflexivity. }
  pose proof (base_gap a_int) as Hgap.
  destruct (len_str_spec (Z.abs a_int) (Z.abs_nonneg _)) as (Hk1 & _ & _).
  set (k := Py.len_str (Z.abs a_int)) in *.
  destruct (int_mul (10 ^ k) f0_2) as [thr | ] eqn:Ethr; [ | discriminate].
  cbn [bind].
  destruct (Float64.Zltb (Z.abs (a_int - 10 ^ k)) thr) eqn:Ea; [ | exact Htail].
  cbn [bind].
  destruct (Float64.Zltb (Z.abs (b_int - 10 ^ k)) thr) eqn:Eb; [ | exact Htail].
  clear Htail.
  destruct (int_mul (2 * 10 ^ k) f0_2) as [den | ] eqn:Eden; [ | discriminate].
  cbn [bind].
  assert (Hk : k <= 307).
  { apply int_mul_inv in Eden. destruct Eden as (x & Ex & _).
    apply (of_int_double_pow10 k x); [lia | exact Ex]. }
  destruct (nikhilam_quotient k _ _ thr ltac:(lia) Ethr Hgap (Z.abs_nonneg _) Ea Eb)
    as (den' & quo & Eden' & Equo & Hquo).
  rewrite Eden in Eden'. injection Eden' as <-.
  rewrite Equo. cbn [bind].
  intros H.
  assert (Hcp : c = fmul (fsub f1_0 quo) f0_85 /\
                p = fadd f1_8 (fmul (fsub f1_0 quo) f0_8)) by (split; congruence).
  destruct Hcp as [-> ->]. clear H.
  destruct (nikhilam_scores quo Hquo) as [Hc Hp].
  split; [ | apply nonnegb_fleb; exact Hp].
  destruct (unitb_fleb _ Hc). split; assumption.
Qed.

Lemma threshold_returns (k : Z) :
  1 <= k <= 307 -> exists thr, int_mul (10 ^ k) f0_2 = Return thr.
Proof.
  intros Hk. pose proof (nikhilam_table_at k Hk) as Ht. unfold nikhilam_table_ok in Ht.
  destruct (int_mul (10 ^ k) f0_2) as [thr | ]; [eauto | discriminate].
Qed.

Lemma int_mul_small (z : Z) (c : float) :
  0 <= z <= 2 ^ 52 -> exists r, int_mul z c = Return r.
Proof.
  intros Hz. destruct (of_int_small z Hz) as (x & E & _).
  unfold int_mul. rewrite E. simpl. eauto.
Qed.

Lemma in_range_inv (x : pynum) :
  in_range x = true -> exists z, Py.int x = Return z /\ Z.abs z < 10 ^ 307.
Proof.
  unfold in_range. destruct (Py.int x) as [z | ]; [ | discriminate].
  intros H. apply Z.ltb_lt in H. eauto.
Qed.

Lemma analyze_pattern_total (a b : pynum) :
  in_range a = true -> in_range b = true ->
  exists r, _analyze_pattern a b = Return r.
Proof.
  intros Ha Hb.
  destruct (in_range_inv a Ha) as (a_int & Ea & Hai).
  destruct (in_range_inv b Hb) as (b_int & Eb & Hbi).
  unfold _analyze_pattern. rewrite Ea, Eb. cbn [bind].
  destruct (_ && _ && _); [eauto | ].
  destruct (_ && _); [eauto | ].
  pose proof (base_gap a_int) as Hgap.
  destruct (len_str_spec (Z.abs a_int) (Z.abs_nonneg _)) as (Hk1 & _ & _).
  pose proof (len_str_le (Z.abs a_int) 307 (Z.abs_nonneg _) ltac:(lia) Hai) as Hk.
  destruct (len_str_spec (Z.abs b_int) (Z.abs_nonneg _)) as (Hkb1 & _ & _).
  pose proof (len_str_le (Z.abs b_int) 307 (Z.abs_nonneg _) ltac:(lia) Hbi) as Hkb.
  rewrite !(str_len_small (Z.abs a_int)) by lia.
  rewrite (str_len_small (Z.abs b_int)) by lia.
  cbn [bind].
  assert (Htail : exists r,
    (let max_digits :=
       Z.max (Py.len_str (Z.abs a_int)) (Py.len_str (Z.abs b_int)) in
     if 3 <=? max_digits
     then
       c0 <- int_mul (max_digits - 3) f0_05 ;;
       (let confidence := fmin (fadd f0_6 c0) f0_8 in
        s <- int_mul (max_digits - 3) f0_1 ;;
        Return (Urdhva_Tiryagbhyam, confidence, fadd f1_4 s,
                "Multi-digit crosswise multiplication"%string))
     else
       Return (Standard_Arithmetic, f1_0, f1_0,
               "No optimal Vedic pattern detected"%string)) = Return r).
  { cbv zeta. set (md := Z.max _ _).
    assert (Hmd52 : 304 <= 2 ^ 52) by (apply Z.leb_le; reflexivity).
    destruct (Z.leb_spec 3 md) as [Hmd | Hmd]; [ | eauto].
    destruct (int_mul_small (md - 3) f0_05 ltac:(lia)) as (c0 & ->).
    destruct (int_mul_small (md - 3) f0_1 ltac:(lia)) as (s0 & ->).
    cbn [bind]. eauto. }
  set (k := Py.len_str (Z.abs a_int)) in *.
  destruct (threshold_returns k ltac:(lia)) as (thr & Ethr).
  rewrite Ethr. cbn [bind].
  destruct (Float64.Zltb (Z.abs (a_int - 10 ^ k)) thr) eqn:Eat; [ | exact Htail].
  cbn [bind].
  destruct (Float64.Zltb (Z.abs (b_int - 10 ^ k)) thr) eqn:Ebt; [ | exact Htail].
  destruct (nikhilam_quotient k _ _ thr ltac:(lia) Ethr Hgap (Z.abs_nonneg _) Eat Ebt)
    as (den & quo & Eden & Equo & _).
  rewrite Eden. cbn [bind]. rewrite Equo. cbn [bind]. eauto.
Qed.

(** ** The classifier *)
(** C4: for every integer [n > 0] with [n mod 10 = 5], [_analyze_pattern n n]
    returns Ekadhikena Purvena (SquaringEndingInFive) with confidence [0.95] and
    predicted speedup [3.2].  Nothing is assumed about the later rules, so the
    first rule wins whenever it matches. *)
Theorem C4_squaring_ending_in_five (n : Z) :
  0 < n -> n mod 10 = 5 ->
  _analyze_pattern (PyInt n) (PyInt n)
  = Return (Ekadhikena_Purvena, f0_95, f3_2,
            "Perfect squaring pattern: number ending in 5"%string).
Proof.
  intros Hpos Hmod. unfold _analyze_pattern, Py.int. cbn [bind].
  unfold Py.eqb, Py.gtb, Py.ltb.
  rewrite Z.eqb_refl, Hmod.
  replace (0 <? n) with true by (symmetry; apply Z.ltb_lt; exact Hpos).
  reflexivity.
Qed.

Lemma C4_witness :
  0 < 25 /\ 25 mod 10 = 5 /\
  _analyze_pattern (PyInt 25) (PyInt 25)
  = Return (Ekadhikena_Purvena, f0_95, f3_2,
            "Perfect squaring pattern: number ending in 5"%string).
Proof.
  split; [lia | ]. split; [reflexivity | ].
  apply (C4_squaring_ending_in_five 25); [lia | reflexivity].
Defined.

(** The first rule also wins where the third and the fourth would match:
    995 is within 20% of 1000 and has three digits. *)
Example squaring_wins_over_later_rules :
  Float64.Zltb (Z.abs (995 - 1000)) (fmul (S754_finite false 1000 0) f0_2) = true /\
  (3 <=? Py.len_str 995) = true /\
  _analyze_pattern (PyInt 995) (PyInt 995)
  = Return (Ekadhikena_Purvena, f0_95, f3_2,
            "Perfect squaring pattern: number ending in 5"%string).
Proof. repeat split; vm_compute; reflexivity. Qed.

(** C9, as the code has it: on operands whose integer part has at most 307
    digits [_analyze_pattern] returns a tuple, with confidence in [0, 1] and a
    non-negative predicted speedup. *)
Theorem C9_classify_in_range (a b : pynum) :
  in_range a = true -> in_range b = true ->
  exists sutra c p why,
    _analyze_pattern a b = Return (sutra, c, p, why) /\
    fleb zero c = true /\ fleb c f1_0 = true /\ fleb zero p = true.
Proof.
  intros Ha Hb. destruct (analyze_pattern_total a b Ha Hb) as ([[[sutra c] p] why] & E).
  exists sutra, c, p, why. split; [exact E | ].
  destruct (analyze_pattern_bounds a b sutra why c p E) as [[H1 H2] H3]. auto.
Qed.

Lemma C9_witness :
  in_range (PyInt 1234) = true /\ in_range (PyFloat f2_5) = true /\
  exists sutra c p why,
    _analyze_pattern (PyInt 1234) (PyFloat f2_5) = Return (sutra, c, p, why) /\
    fleb zero c = true /\ fleb c f1_0 = true /\ fleb zero p = true.
Proof.
  split; [reflexivity | ]. split; [reflexivity | ].
  apply (C9_classify_in_range (PyInt 1234) (PyFloat f2_5)); reflexivity.
Defined.

(** C9 as stated fails: a 309-digit integer makes [base_a * 0.2] overflow. *)
Lemma C9_counterexample :
  _analyze_pattern (PyInt (10 ^ 308)) (PyInt (10 ^ 308)) = Raise OverflowError.
Proof. vm_compute. reflexivity. Qed.

(** Non-finite floats fail too, in [int(a)]. *)
Example classify_nan_inf :
  _analyze_pattern (PyFloat S754_nan) (PyInt 1) = Raise ValueError /\
  _analyze_pattern (PyFloat inf) (PyInt 1) = Raise OverflowError.
Proof. split; reflexivity. Qed.

(** ** The dispatcher *)
Lemma simulate_eq (self : VedicMathEngine) (variance : float) (a b : pynum)
    (operation : string) :
  _simulate_vedic_operation self variance a b operation =
  ('(sutra, c, p, why) <- _analyze_pattern a b ;;
   res <- calculate_result a b operation ;;
   Return {| result := res;
             selected_algorithm := sutra;
             pattern_confidence := c;
             predicted_speedup := p;
             actual_speedup := _calculate_expected_speedup variance sutra a b;
             decision_reasoning := why;
             correctness_verified := true;
             operation_id := operation_counter self |}).
Proof. reflexivity. Qed.

Lemma simulate_inv (self : VedicMathEngine) (variance : float) (a b : pynum)
    (operation : string) (r : OperationRecord) :
  _simulate_vedic_operation self variance a b operation = Return r ->
  exists sutra c p why res,
    _analyze_pattern a b = Return (sutra, c, p, why) /\
    calculate_result a b operation = Return res /\
    r = {| result := res;
           selected_algorithm := sutra;
           pattern_confidence := c;
           predicted_speedup := p;
           actual_speedup := _calculate_expected_speedup variance sutra a b;
           decision_reasoning := why;
           correctness_verified := true;
           operation_id := operation_counter self |}.
Proof.
  rewrite simulate_eq.
  destruct (_analyze_pattern a b) as [[[[sutra c] p] why] | ]; [ | discriminate].
  cbn [bind].
  destruct (calculate_result a b operation) as [res | ]; [ | discriminate].
  cbn [bind]. intros H. injection H as <-.
  exists sutra, c, p, why, res. auto.
Qed.

Lemma simulate_returns (self : VedicMathEngine) (variance : float) (a b : pynum)
    (operation : string) (res : pynum) :
  in_range a = true -> in_range b = true ->
  calculate_result a b operation = Return res ->
  exists r,
    _simulate_vedic_operation self variance a b operation = Return r /\
    result r = res /\
    correctness_verified r = true /\
    operation_id r = operation_counter self.
Proof.
  intros Ha Hb Hres. rewrite simulate_eq.
  destruct (analyze_pattern_total a b Ha Hb) as ([[[sutra c] p] why] & ->).
  cbn [bind]. rewrite Hres. cbn [bind].
  eexists. split; [reflexivity | ]. auto.
Qed.

Lemma in_range_int (a : Z) : Z.abs a < 10 ^ 307 -> in_range (PyInt a) = true.
Proof. intros H. unfold in_range, Py.int. apply Z.ltb_lt. exact H. Qed.

Lemma unsupported_is_multiply (a b : pynum) (operation : string) :
  operation <> "multiply"%string -> operation <> "divide"%string ->
  operation <> "add"%string -> operation <> "subtract"%string ->
  calculate_result a b operation = Py.mul a b.
Proof.
  intros H1 H2 H3 H4. unfold calculate_result.
  apply String.eqb_neq in H1, H2, H3, H4. rewrite H1, H2, H3, H4. reflexivity.
Qed.

(** C3, as the code has it: an operation token outside
    {multiply, divide, add, subtract} is not rejected; the call behaves exactly
    like multiply, and on integers of at most 307 digits it returns a record
    whose result is the product. *)
Theorem C3_unsupported_operation_multiplies (self : VedicMathEngine)
    (variance : float) (a b : Z) (operation : string) :
  operation <> "multiply"%string -> operation <> "divide"%string ->
  operation <> "add"%string -> operation <> "subtract"%string ->
  Z.abs a < 10 ^ 307 -> Z.abs b < 10 ^ 307 ->
  _simulate_vedic_operation self variance (PyInt a) (PyInt b) operation
  = _simulate_vedic_operation self variance (PyInt a) (PyInt b) "multiply" /\
  exists r,
    _simulate_vedic_operation self variance (PyInt a) (PyInt b) operation = Return r /\
    result r = PyInt (a * b).
Proof.
  intros H1 H2 H3 H4 Ha Hb.
  pose proof (unsupported_is_multiply (PyInt a) (PyInt b) operation H1 H2 H3 H4) as E.
  split.
  - rewrite !simulate_eq, E. reflexivity.
  - destruct (simulate_returns self variance (PyInt a) (PyInt b) operation
                (PyInt (a * b)) (in_range_int a Ha) (in_range_int b Hb) E)
      as (r & Er & Hr & _).
    exists r. auto.
Qed.

Lemma C3_witness :
  _simulate_vedic_operation engine0 f1_0 (PyInt 3) (PyInt 4) "modulo"
  = _simulate_vedic_operation engine0 f1_0 (PyInt 3) (PyInt 4) "multiply" /\
  exists r,
    _simulate_vedic_operation engine0 f1_0 (PyInt 3) (PyInt 4) "modulo" = Return r /\
    result r = PyInt (3 * 4).
Proof.
  apply (C3_unsupported_operation_multiplies engine0 f1_0 3 4 "modulo");
    try discriminate; reflexivity.
Defined.

(** C3 as stated fails: ["modulo"] yields a record, with the product as result. *)
Lemma C3_counterexample :
  exists r,
    _simulate_vedic_operation engine0 f1_0 (PyInt 3) (PyInt 4) "modulo" = Return r /\
    result r = PyInt 12.
Proof. eexists. split; [vm_compute; reflexivity | reflexivity]. Qed.

(** C2, as the code has it: dividing an integer of at most 307 digits by zero
    raises nothing; the record's result is the float [inf]. *)
Theorem C2_division_by_zero_returns_inf (self : VedicMathEngine)
    (variance : float) (a : Z) :
  Z.abs a < 10 ^ 307 ->
  exists r,
    _simulate_vedic_operation self variance (PyInt a) (PyInt 0) "divide" = Return r /\
    result r = PyFloat inf.
Proof.
  intros Ha.
  destruct (simulate_returns self variance (PyInt a) (PyInt 0) "divide"
              (PyFloat inf) (in_range_int a Ha) eq_refl eq_refl)
    as (r & Er & Hr & _).
  exists r. auto.
Qed.

Lemma C2_witness :
  exists r,
    _simulate_vedic_operation engine0 f1_0 (PyInt 10) (PyInt 0) "divide" = Return r /\
    result r = PyFloat inf.
Proof.
  apply (C2_division_by_zero_returns_inf engine0 f1_0 10). reflexivity.
Defined.

(** C2 as stated fails: [(10, 0, "divide")] yields a record, not an error. *)
Lemma C2_counterexample :
  exists r,
    _simulate_vedic_operation engine0 f1_0 (PyInt 10) (PyInt 0) "divide" = Return r /\
    result r = PyFloat inf /\ selected_algorithm r = Standard_Arithmetic.
Proof. eexists. split; [vm_compute; reflexivity | split; reflexivity]. Qed.

(** ** The counters *)
Lemma simulate_operation_id (self : VedicMathEngine) (variance : float)
    (a b : pynum) (operation : string) (r : OperationRecord) :
  _simulate_vedic_operation self variance a b operation = Return r ->
  operation_id r = operation_counter self /\ correctness_verified r = true.
Proof.
  intros H. apply simulate_inv in H.
  destruct H as (sutra & c & p & why & res & _ & _ & ->). split; reflexivity.
Qed.

Lemma calculate_counters (validates : OperationRecord -> SystemStatus -> bool)
    (self : VedicMathEngine) (variance : float)
    (system_status : outcome SystemStatus) (request : OperationRequest) :
  operation_counter (snd (calculate validates self variance system_status request))
    = operation_counter self + 1 /\
  (forall r, fst (calculate validates self variance system_status request) = Return r ->
             operation_id r = operation_counter self + 1 /\
             active_operations
               (snd (calculate validates self variance system_status request))
             = active_operations self) /\
  (forall e, fst (calculate validates self variance system_status request) = Raise e ->
             e = HTTPException 500).
Proof.
  unfold calculate. cbn [operation_counter active_operations].
  destruct (_simulate_vedic_operation _ variance (operand_a request)
              (operand_b request) (operation request)) as [r | e] eqn:E;
    cbn [bind fst snd operation_counter active_operations].
  - destruct system_status as [status | e]; cbn [bind].
    + destruct (validates r status);
        cbn [fst snd operation_counter active_operations].
      * split; [reflexivity | ]. split; [ | discriminate].
        intros r' H. injection H as <-.
        apply simulate_operation_id in E. destruct E as [E _].
        cbn [operation_counter] in E. split; [exact E | lia].
      * split; [reflexivity | ]. split; [discriminate | ].
        intros e' H. injection H as <-. reflexivity.
    + cbn [fst snd operation_counter]. split; [reflexivity | ].
      split; [discriminate | ]. intros e' H. injection H as <-. reflexivity.
  - split; [reflexivity | ]. split; [discriminate | ].
    intros e' H. injection H as <-. reflexivity.
Qed.

Lemma calculate_all_ids (validates : OperationRecord -> SystemStatus -> bool)
    (requests : list (float * outcome SystemStatus * OperationRequest))
    (self : VedicMathEngine) :
  operation_counter (snd (calculate_all validates self requests))
    = operation_counter self + Z.of_nat (List.length requests) /\
  StronglySorted Z.lt (returned_ids (fst (calculate_all validates self requests))) /\
  Forall (fun i => operation_counter self < i)
         (returned_ids (fst (calculate_all validates self requests))).
Proof.
  revert self.
  induction requests as [ | [[variance system_status] request] rest IH]; intros self.
  - cbn. split; [lia | ]. split; constructor.
  - cbn [calculate_all].
    destruct (calculate_counters validates self variance system_status request)
      as (Hc & Hid & _).
    destruct (calculate validates self variance system_status request) as [r self'].
    cbn [fst snd] in Hc, Hid.
    specialize (IH self'). destruct (calculate_all validates self' rest) as [rs self''].
    cbn [fst snd] in IH |- *. destruct IH as (IHc & IHs & IHf).
    split; [rewrite IHc, Hc; cbn [List.length]; lia | ].
    assert (Hmono : Forall (fun i => operation_counter self < i) (returned_ids rs)).
    { eapply Forall_impl; [ | exact IHf]. cbv beta. intros i Hi. lia. }
    destruct r as [r | e]; cbn [returned_ids].
    + destruct (Hid r eq_refl) as [Hr _]. split.
      * constructor; [exact IHs | ].
        eapply Forall_impl; [ | exact IHf]. cbv beta. intros i Hi. lia.
      * constructor; [lia | exact Hmono].
    + split; assumption.
Qed.

Lemma run_benchmark_loop_ids (draws : list (pynum * pynum * float))
    (self : VedicMathEngine) (results : list OperationRecord) :
  run_benchmark_loop self draws = Return results ->
  List.length results = List.length draws /\
  Forall (fun r => operation_id r = operation_counter self) results.
Proof.
  revert results. induction draws as [ | [[a b] variance] rest IH]; intros results.
  - cbn. intros H. injection H as <-. split; [reflexivity | constructor].
  - cbn [run_benchmark_loop].
    destruct (_simulate_vedic_operation self variance a b "multiply") as [r | ] eqn:E;
      [ | discriminate].
    cbn [bind]. destruct (run_benchmark_loop self rest) as [rs | ]; [ | discriminate].
    cbn [bind]. intros H. injection H as <-.
    destruct (IH rs eq_refl) as [Hl Hf]. split; [cbn [List.length]; lia | ].
    constructor; [ | exact Hf]. apply simulate_operation_id in E. tauto.
Qed.

(** C6, as the code has it: the counter is incremented by [calculate] -- once per
    request, before the record is built, also when the request fails -- so the
    records of successive requests carry strictly increasing [operation_id]s;
    [_simulate_vedic_operation] itself only reads the counter, so
    [run_benchmark] leaves the engine unchanged and every record of a run
    carries the same [operation_id]. *)
Theorem C6_counter_increments_in_calculate :
  (forall validates self variance system_status request,
     operation_counter (snd (calculate validates self variance system_status request))
       = operation_counter self + 1 /\
     forall r, fst (calculate validates self variance system_status request) = Return r ->
               operation_id r = operation_counter self + 1) /\
  (forall validates self requests,
     operation_counter (snd (calculate_all validates self requests))
       = operation_counter self + Z.of_nat (List.length requests) /\
     StronglySorted Z.lt
       (returned_ids (fst (calculate_all validates self requests)))) /\
  (forall self draws,
     snd (run_benchmark self draws) = self /\
     forall results, fst (run_benchmark self draws) = Return results ->
       Forall (fun r => operation_id r = operation_counter self) results).
Proof.
  split; [ | split].
  - intros validates self variance system_status request.
    destruct (calculate_counters validates self variance system_status request)
      as (H1 & H2 & _).
    split; [exact H1 | ]. intros r Hr. apply (H2 r Hr).
  - intros validates self requests.
    destruct (calculate_all_ids validates requests self) as (H1 & H2 & _). auto.
  - intros self draws. unfold run_benchmark.
    destruct (run_benchmark_loop self draws) as [rs | ] eqn:E; cbn [fst snd].
    + split; [reflexivity | ]. intros results H. injection H as <-.
      apply (run_benchmark_loop_ids draws self rs E).
    + split; [reflexivity | discriminate].
Qed.

(** C6 as stated fails: two calls made for the benchmark leave the counter where
    it was, and both records carry the same [operation_id]. *)
Lemma C6_counterexample :
  exists r1 r2,
    run_benchmark engine0 [(PyInt 25, PyInt 25, f1_0); (PyInt 98, PyInt 97, f1_0)]
    = (Return [r1; r2], engine0) /\
    operation_id r1 = 0 /\ operation_id r2 = 0.
Proof. eexists _, _. split; [vm_compute; reflexivity | split; reflexivity]. Qed.

(** ** Products and quotients of normal doubles *)
Lemma normalb_inv (lo hi : Z) (f : float) :
  normalb lo hi f = true ->
  exists m e, f = S754_finite false m e /\ bounded prec emax m e = true /\
              Z.pos (digits2_pos m) = 53 /\ lo <= e <= hi /\
              2 ^ 52 <= Z.pos m < 2 ^ 53.
Proof.
  destruct f as [ | | | [ | ] m e]; try discriminate. unfold normalb.
  rewrite !andb_true_iff, Z.eqb_eq, !Z.leb_le. intros [[[Hb Hd] Hlo] Hhi].
  exists m, e. repeat split; try assumption.
  - pose proof (digits2_pos_bounds m) as [H _]. rewrite Hd in H. exact H.
  - pose proof (digits2_pos_bounds m) as [_ H]. rewrite Hd in H. exact H.
Qed.

Lemma canon_normal (m2 e1 lo hi : Z) :
  2 ^ 52 <= m2 <= 2 ^ 53 -> -1074 < e1 -> lo <= e1 -> e1 + 1 <= hi -> hi <= 971 ->
  normalb lo hi (canon false m2 e1) = true.
Proof.
  intros Hm He Hlo Hhi Hmax.
  assert (H52 : 0 < 2 ^ 52) by (apply pow2_pos; lia).
  destruct (canon_finite false m2 e1 ltac:(lia) ltac:(left; lia) ltac:(lia))
    as [(m' & e' & -> & Hbd & He' & Hval) | (_ & Hov)]; [ | lia].
  unfold normalb. rewrite Hbd.
  apply bounded_spec in Hbd. destruct Hbd as [Hc _].
  replace (Z.pos (digits2_pos m') =? 53) with true by (symmetry; apply Z.eqb_eq; lia).
  replace (lo <=? e') with true by (symmetry; apply Z.leb_le; lia).
  replace (e' <=? hi) with true by (symmetry; apply Z.leb_le; lia).
  reflexivity.
Qed.

Lemma fmul_normal (l1 h1 l2 h2 : Z) (x y : float) :
  normalb l1 h1 x = true -> normalb l2 h2 y = true ->
  -1074 < l1 + l2 + 52 -> h1 + h2 + 54 <= 971 ->
  normalb (l1 + l2 + 52) (h1 + h2 + 54) (fmul x y) = true.
Proof.
  intros Hx Hy Hlo Hhi.
  destruct (normalb_inv _ _ _ Hx) as (mx & ex & -> & Hbx & Hdx & Hex & Hmx).
  destruct (normalb_inv _ _ _ Hy) as (my & ey & -> & Hby & Hdy & Hey & Hmy).
  unfold fmul, SFmul. change (xorb false false) with false.
  assert (Hd : 105 <= Zdigits2 (Z.pos (mx * my)) <= 106).
  { rewrite Pos2Z.inj_mul. split.
    - pose proof (Zdigits2_mul_ge (Z.pos mx) (Z.pos my) ltac:(lia) ltac:(lia)) as H.
      unfold Zdigits2 at 1 2 in H. lia.
    - apply Zdigits2_le; [lia | lia | ].
      change (2 ^ 106) with (2 ^ 53 * 2 ^ 53).
      set (P := 2 ^ 53) in *. clearbody P.
      apply Z.mul_lt_mono_nonneg; lia. }
  set (m := Z.pos (mx * my)) in *.
  destruct (binary_round_aux_spec false m (ex + ey) loc_Exact ltac:(unfold m; lia))
    as (m2 & Hb & _ & Hm2 & Hnorm & ->).
  { rewrite fexp_eq. lia. }
  rewrite fexp_eq in *.
  replace (Z.max (Zdigits2 m + (ex + ey) - 53) (-1074))
    with (Zdigits2 m + (ex + ey) - 53) in * by lia.
  apply canon_normal; try lia; destruct Hnorm; lia.
Qed.

Lemma fdiv_normal (l1 h1 l2 h2 : Z) (x y : float) :
  normalb l1 h1 x = true -> normalb l2 h2 y = true ->
  -1074 < l1 - h2 - 53 -> h1 - l2 - 51 <= 971 ->
  normalb (l1 - h2 - 53) (h1 - l2 - 51) (fdiv x y) = true.
Proof.
  intros Hx Hy Hlo Hhi.
  destruct (normalb_inv _ _ _ Hx) as (mx & ex & -> & Hbx & Hdx & Hex & Hmx).
  destruct (normalb_inv _ _ _ Hy) as (my & ey & -> & Hby & Hdy & Hey & Hmy).
  unfold fdiv, SFdiv. change (xorb false false) with false.
  unfold SFdiv_core_binary. simpl Zdigits2. rewrite Hdx, Hdy, fexp_eq.
  set (e' := Z.min (Z.max (53 + ex - (53 + ey) - 53) (-1074)) (ex - ey)).
  assert (He' : e' = ex - ey - 53) by (unfold e'; lia).
  set (s := ex - ey - e').
  assert (Hs : s = 53) by (unfold s; lia).
  set (m' := match s with
             | 0 => Z.pos mx
             | Z.pos _ => Z.shiftl (Z.pos mx) s
             | Z.neg _ => 0
             end).
  assert (Hm' : m' = Z.pos mx * 2 ^ 53).
  { unfold m'. rewrite shifted_dividend by lia. rewrite Hs. reflexivity. }
  clearbody m' e'. subst m' e'. clear s Hs.
  pose proof (Z.div_eucl_eq (Z.pos mx * 2 ^ 53) (Z.pos my) ltac:(lia)) as Hdiv.
  pose proof (Z.mod_pos_bound (Z.pos mx * 2 ^ 53) (Z.pos my) ltac:(lia)) as Hmod.
  unfold Z.modulo in Hmod.
  destruct (Z.div_eucl (Z.pos mx * 2 ^ 53) (Z.pos my)) as [q r].
  assert (Hq : 2 ^ 52 <= q < 2 ^ 54).
  { change (2 ^ 54) with (2 * 2 ^ 53) in *.
    set (P := 2 ^ 53) in *. assert (HP : P = 2 * 2 ^ 52) by reflexivity.
    set (Q := 2 ^ 52) in *. clearbody P Q. subst P.
    split.
    - destruct (Z.le_gt_cases Q q) as [ | Hlt]; [assumption | exfalso].
      assert (Z.pos my * (q + 1) <= Z.pos my * Q) by (apply Z.mul_le_mono_nonneg_l; lia).
      assert (Q * (2 * Q) <= Z.pos mx * (2 * Q)) by (apply Z.mul_le_mono_nonneg_r; lia).
      assert (Z.pos my * Q < 2 * Q * Q) by (apply Z.mul_lt_mono_pos_r; lia).
      lia.
    - destruct (Z.lt_ge_cases q (2 * (2 * Q))) as [ | Hge]; [assumption | exfalso].
      assert (Z.pos my * (2 * (2 * Q)) <= Z.pos my * q)
        by (apply Z.mul_le_mono_nonneg_l; lia).
      assert (Q * (2 * (2 * Q)) <= Z.pos my * (2 * (2 * Q)))
        by (apply Z.mul_le_mono_nonneg_r; lia).
      assert (Z.pos mx * (2 * Q) < 2 * Q * (2 * Q)) by (apply Z.mul_lt_mono_pos_r; lia).
      lia. }
  assert (H52 : 0 < 2 ^ 52) by (apply pow2_pos; lia).
  assert (Hdq : 53 <= Zdigits2 q <= 54).
  { split.
    - apply (Zdigits2_ge q 52); lia.
    - apply Zdigits2_le; lia. }
  destruct (binary_round_aux_spec false q (ex - ey - 53) (new_location (Z.pos my) r)
              ltac:(lia)) as (m2 & Hb & _ & Hm2 & Hnorm & ->).
  { rewrite fexp_eq. lia. }
  rewrite fexp_eq in *.
  replace (Z.max (Zdigits2 q + (ex - ey - 53) - 53) (-1074))
    with (Zdigits2 q + (ex - ey - 53) - 53) in * by lia.
  apply canon_normal; try lia; destruct Hnorm; lia.
Qed.

(** ** The matrix estimate *)
Lemma ratio_table : forallb ratio_ok (map Z.of_nat (seq 2 199)) = true.
Proof. vm_compute. reflexivity. Qed.

Lemma ratio_table_at (size : Z) : 2 <= size <= 200 -> ratio_ok size = true.
Proof.
  intros Hs. pose proof ratio_table as H. rewrite forallb_forall in H.
  apply H. apply in_map_iff. exists (Z.to_nat size). split; [lia | ].
  apply in_seq. lia.
Qed.

Lemma power_law_normal (float_pow : float -> float -> outcome float)
    (coefficient : float) (size : Z) :
  pow_sane float_pow -> 2 <= size <= 200 ->
  normalb (-57) (-45) coefficient = true ->
  exists t, power_law float_pow coefficient size (matrix_reference size) = Return t /\
            normalb (-75) (-31) t = true.
Proof.
  intros Hpow Hs Hc. pose proof (ratio_table_at size Hs) as Hr.
  unfold ratio_ok in Hr. unfold power_law.
  destruct (int_true_div size (matrix_reference size)) as [x | ]; [ | discriminate].
  cbn [bind]. specialize (Hpow x Hr). unfold pow_res_ok in Hpow.
  destruct (float_pow x f2_5) as [p | ]; [ | discriminate].
  cbn [bind]. eexists. split; [reflexivity | ].
  apply (fmul_normal (-57) (-45) (-70) (-40)); try assumption; lia.
Qed.

Lemma Zltb_zero_normal (lo hi : Z) (t : float) :
  normalb lo hi t = true -> Float64.Zltb 0 t = true.
Proof.
  intros H. destruct (normalb_inv _ _ _ H) as (m & e & -> & _).
  unfold Float64.Zltb, Float64.Zcompare, cond_Zopp.
  destruct (Z.leb_spec 0 e) as [He | He].
  - pose proof (pow2_pos e He).
    destruct (Z.compare_spec 0 (Z.pos m * 2 ^ e)); try reflexivity; lia.
  - rewrite Z.mul_0_l. reflexivity.
Qed.

(** The throughput line: [operations / (execution_time / 1000)] for a positive
    normal time. *)
Lemma ops_per_sec_returns (operations : Z) (t : float) :
  0 <= operations <= 2 ^ 52 -> normalb (-75) (-31) t = true ->
  exists q,
    (if Float64.Zltb 0 t then
       thousand <- of_int 1000 ;;
       q <- int_div operations (fdiv t thousand) ;;
       Return (PyFloat q)
     else Return (PyInt 0)) = Return (PyFloat q).
Proof.
  intros Hops Ht. rewrite (Zltb_zero_normal _ _ t Ht).
  change (of_int 1000) with (Return (S754_finite false 8796093022208000 (-43))).
  cbn [bind].
  pose proof (fdiv_normal (-75) (-31) (-43) (-43) t
                (S754_finite false 8796093022208000 (-43)) Ht eq_refl
                ltac:(lia) ltac:(lia)) as Hden.
  destruct (normalb_inv _ _ _ Hden) as (md & ed & Eden & _).
  rewrite Eden. unfold int_div.
  destruct (of_int_small operations Hops) as (x & -> & _).
  cbn [bind is_zero]. eauto.
Qed.

Lemma float_same_eq (x y : float) : float_same x y = true -> x = y.
Proof.
  destruct x as [s | s | | s m e], y as [s' | s' | | s' m' e']; try discriminate;
    cbn [float_same]; intros H.
  - apply eqb_prop in H. congruence.
  - apply eqb_prop in H. congruence.
  - reflexivity.
  - apply andb_true_iff in H. destruct H as [H He].
    apply andb_true_iff in H. destruct H as [Hs Hm].
    apply eqb_prop in Hs. apply Pos.eqb_eq in Hm. apply Z.eqb_eq in He. congruence.
Qed.

Lemma pow_model_sane : pow_sane pow_model.
Proof.
  intros x _. unfold pow_model.
  destruct (pow_res_ok (Return (fmul (fmul x x) (SFsqrt prec emax x)))) eqn:E.
  - exact E.
  - reflexivity.
Qed.

Lemma cube_small (size : Z) : 2 <= size <= 200 -> 0 <= size ^ 3 <= 2 ^ 52.
Proof.
  intros Hs. assert (H : size ^ 3 <= 200 ^ 3) by (apply Z.pow_le_mono_l; lia).
  assert (0 <= size ^ 3) by (apply Z.pow_nonneg; lia).
  change (200 ^ 3) with 8000000 in H.
  assert (8000000 <= 2 ^ 52) by (apply Z.leb_le; reflexivity). lia.
Qed.

Lemma matrix_vedic_returns (float_pow : float -> float -> outcome float) (size : Z) :
  pow_sane float_pow -> 2 <= size <= 200 ->
  exists r,
    simulate_matrix_operation float_pow size true = Return r /\
    speedup_factor r = f0_002 /\
    m_correctness_verified r = true /\
    method_used r = "Vedic Enhanced"%string /\
    m_size r = size.
Proof.
  intros Hpow Hs. unfold simulate_matrix_operation.
  assert (Ht : exists t vedic_ops,
    (if size <=? 25 then
       t <- power_law float_pow f0_06 size 10 ;; Return (t, size ^ 2)
     else if size <=? 50 then
       t <- power_law float_pow f0_90 size 25 ;; Return (t, size ^ 2 * 15)
     else if size <=? 100 then
       t <- power_law float_pow f8_27 size 50 ;; Return (t, size ^ 2 * 200)
     else
       t <- power_law float_pow f189_84 size 100 ;; Return (t, size ^ 2 * 1980))
    = Return (t, vedic_ops) /\ normalb (-75) (-31) t = true).
  { pose proof (power_law_normal float_pow f0_06 size Hpow Hs eq_refl) as H1.
    pose proof (power_law_normal float_pow f0_90 size Hpow Hs eq_refl) as H2.
    pose proof (power_law_normal float_pow f8_27 size Hpow Hs eq_refl) as H3.
    pose proof (power_law_normal float_pow f189_84 size Hpow Hs eq_refl) as H4.
    unfold matrix_reference in H1, H2, H3, H4.
    destruct (size <=? 25).
    { destruct H1 as (t & -> & Hn). cbn [bind]. eauto. }
    destruct (size <=? 50).
    { destruct H2 as (t & -> & Hn). cbn [bind]. eauto. }
    destruct (size <=? 100).
    { destruct H3 as (t & -> & Hn). cbn [bind]. eauto. }
    destruct H4 as (t & -> & Hn). cbn [bind]. eauto. }
  destruct Ht as (t & vedic_ops & -> & Hn).
  cbn [bind].
  destruct (ops_per_sec_returns (size ^ 3) t (cube_small size Hs) Hn) as (q & ->).
  cbn [bind]. eexists. split; [reflexivity | ]. cbn. auto.
Qed.

Lemma standard_table (float_pow : float -> float -> outcome float) :
  forallb (standard_ok float_pow) (map Z.of_nat (seq 2 199)) = true.
Proof. vm_compute. reflexivity. Qed.

Lemma matrix_standard_returns (float_pow : float -> float -> outcome float) (size : Z) :
  2 <= size <= 200 ->
  exists r,
    simulate_matrix_operation float_pow size false = Return r /\
    speedup_factor r = f1_0 /\
    m_correctness_verified r = true /\
    vedic_operations_used r = 0.
Proof.
  intros Hs. pose proof (standard_table float_pow) as H. rewrite forallb_forall in H.
  assert (Hin : In size (map Z.of_nat (seq 2 199))).
  { apply in_map_iff. exists (Z.to_nat size). split; [lia | ]. apply in_seq. lia. }
  specialize (H size Hin). unfold standard_ok in H.
  destruct (simulate_matrix_operation float_pow size false) as [r | ]; [ | discriminate].
  exists r. split; [reflexivity | ].
  rewrite !andb_true_iff in H. destruct H as [[H1 H2] H3].
  apply float_same_eq in H1. apply Z.eqb_eq in H3. auto.
Qed.

Lemma post_matrix_valid (float_pow : float -> float -> outcome float)
    (n : Z) (vedic : bool) (r : MatrixResponse) :
  2 <= n <= 200 ->
  simulate_matrix_operation float_pow n vedic = Return r ->
  post_matrix float_pow n vedic = Return r.
Proof.
  intros Hs E. unfold post_matrix, MatrixRequest_new.
  replace (2 <=? n) with true by (symmetry; apply Z.leb_le; lia).
  replace (n <=? 200) with true by (symmetry; apply Z.leb_le; lia).
  cbn [andb bind]. unfold matrix_multiply, matrix_multiply_try. cbn [size use_vedic].
  replace (n >? 200) with false by (symmetry; rewrite Z.gtb_ltb; apply Z.ltb_ge; lia).
  rewrite E. reflexivity.
Qed.

(** C7: for every size in [2, 200] the estimate reports the fixed speedup
    factor [0.002] (below [1]) on the Vedic path and exactly [1.0] on the
    standard path.  The Vedic time goes through the C library's [pow], of which
    [pow_sane] is assumed. *)
Theorem C7_matrix_speedup_factor (float_pow : float -> float -> outcome float)
    (size : Z) :
  pow_sane float_pow -> 2 <= size <= 200 ->
  (exists r, post_matrix float_pow size true = Return r /\
             speedup_factor r = f0_002) /\
  (exists r, post_matrix float_pow size false = Return r /\
             speedup_factor r = f1_0) /\
  fltb f0_002 f1_0 = true.
Proof.
  intros Hpow Hs. split; [ | split; [ | reflexivity]].
  - destruct (matrix_vedic_returns float_pow size Hpow Hs) as (r & E & H & _).
    exists r. split; [apply post_matrix_valid; assumption | exact H].
  - destruct (matrix_standard_returns float_pow size Hs) as (r & E & H & _).
    exists r. split; [apply post_matrix_valid; assumption | exact H].
Qed.

Lemma C7_witness :
  (exists r, post_matrix pow_model 10 true = Return r /\ speedup_factor r = f0_002) /\
  (exists r, post_matrix pow_model 10 false = Return r /\ speedup_factor r = f1_0) /\
  fltb f0_002 f1_0 = true.
Proof.
  apply (C7_matrix_speedup_factor pow_model 10); [exact pow_model_sane | lia].
Defined.

(** C8: outside [2, 200] the request model is rejected: the endpoint fails with
    the validation error of [Field(ge=2, le=200)] (the spec's InvalidSize),
    whatever the strategy. *)
Theorem C8_invalid_size (float_pow : float -> float -> outcome float)
    (size : Z) (use_vedic : bool) :
  size < 2 \/ 200 < size ->
  post_matrix float_pow size use_vedic = Raise ValidationError.
Proof.
  intros Hs. unfold post_matrix, MatrixRequest_new.
  replace ((2 <=? size) && (size <=? 200)) with false; [reflexivity | ].
  symmetry. apply andb_false_iff. destruct Hs; [left | right]; apply Z.leb_gt; lia.
Qed.

Lemma C8_witness :
  post_matrix pow_model 1 true = Raise ValidationError /\
  post_matrix pow_model 201 true = Raise ValidationError.
Proof.
  split.
  - apply (C8_invalid_size pow_model 1 true). left. lia.
  - apply (C8_invalid_size pow_model 201 true). right. lia.
Defined.

(** C10: [correctness_verified] is the constant [True] -- on every record
    [_simulate_vedic_operation] returns, whatever the operands and the token
    (an unrecognized token, a zero divisor and an inexact quotient included), and
    on the matrix estimate of every valid size with either strategy. *)
Theorem C10_verified_is_constant (float_pow : float -> float -> outcome float) :
  pow_sane float_pow ->
  (forall self variance a b operation r,
     _simulate_vedic_operation self variance a b operation = Return r ->
     correctness_verified r = true) /\
  (exists r, _simulate_vedic_operation engine0 f1_0 (PyInt 3) (PyInt 4) "modulo"
             = Return r /\ correctness_verified r = true) /\
  (exists r, _simulate_vedic_operation engine0 f1_0 (PyInt 10) (PyInt 0) "divide"
             = Return r /\ correctness_verified r = true) /\
  (exists r, _simulate_vedic_operation engine0 f1_0 (PyInt 1) (PyInt 3) "divide"
             = Return r /\ correctness_verified r = true) /\
  (forall size use_vedic, 2 <= size <= 200 ->
     exists r, post_matrix float_pow size use_vedic = Return r /\
               m_correctness_verified r = true).
Proof.
  intros Hpow. split; [ | split; [ | split; [ | split]]].
  - intros self variance a b operation r H.
    apply simulate_operation_id in H. tauto.
  - eexists. split; [vm_compute; reflexivity | reflexivity].
  - eexists. split; [vm_compute; reflexivity | reflexivity].
  - eexists. split; [vm_compute; reflexivity | reflexivity].
  - intros size [ | ] Hs.
    + destruct (matrix_vedic_returns float_pow size Hpow Hs) as (r & E & _ & H & _).
      exists r. split; [apply post_matrix_valid; assumption | exact H].
    + destruct (matrix_standard_returns float_pow size Hs) as (r & E & _ & H & _).
      exists r. split; [apply post_matrix_valid; assumption | exact H].
Qed.

Lemma C10_witness :
  (forall self variance a b operation r,
     _simulate_vedic_operation self variance a b operation = Return r ->
     correctness_verified r = true) /\
  (exists r, _simulate_vedic_operation engine0 f1_0 (PyInt 3) (PyInt 4) "modulo"
             = Return r /\ correctness_verified r = true) /\
  (exists r, _simulate_vedic_operation engine0 f1_0 (PyInt 10) (PyInt 0) "divide"
             = Return r /\ correctness_verified r = true) /\
  (exists r, _simulate_vedic_operation engine0 f1_0 (PyInt 1) (PyInt 3) "divide"
             = Return r /\ correctness_verified r = true) /\
  (forall size use_vedic, 2 <= size <= 200 ->
     exists r, post_matrix pow_model size use_vedic = Return r /\
               m_correctness_verified r = true).
Proof. apply (C10_verified_is_constant pow_model). exact pow_model_sane. Defined.

(** ** NearPowerOfTen against the spec's formula *)
Lemma fmul_comm (x y : float) : fmul x y = fmul y x.
Proof.
  unfold fmul, SFmul.
  destruct x as [sx | sx | | sx mx ex], y as [sy | sy | | sy my ey];
    try reflexivity; try (rewrite (xorb_comm sx sy); reflexivity).
  rewrite (xorb_comm sx sy), (Pos.mul_comm mx my), (Z.add_comm ex ey). reflexivity.
Qed.

Lemma compare_cont_ge (m q : positive) :
  Z.pos q <= Z.pos m -> Pos.compare_cont Eq m q <> Lt.
Proof.
  intros H E. change ((m ?= q)%positive = Lt) in E.
  assert (Hlt : (m < q)%positive) by exact E. lia.
Qed.

Lemma clamp01_unit (x : float) : unitb x = true -> clamp01 x = x.
Proof.
  intros H. unfold clamp01.
  destruct x as [ [ | ] | | | [ | ] m e]; try discriminate; [reflexivity | ].
  apply unitb_finite in H. destruct H as (Hb & He & Hm).
  change (fltb (S754_finite false m e) zero) with false. cbv iota.
  unfold fltb, SFltb, f1_0, SFcompare.
  change (IntDef.Z.compare (-52) e) with (-52 ?= e).
  destruct (Z.compare_spec (-52) e) as [Heq | Hlt | Hgt]; [ | lia | reflexivity].
  subst e. change (2 ^ (- (-52))) with (Z.pos 4503599627370496) in Hm.
  pose proof (compare_cont_ge _ _ Hm) as Hc.
  destruct (Pos.compare_cont Eq 4503599627370496 m); [reflexivity | | reflexivity].
  exfalso. apply Hc. reflexivity.
Qed.

Lemma threshold_exact_table :
  forallb threshold_exact_ok (map Z.of_nat (seq 1 23)) = true.
Proof. vm_compute. reflexivity. Qed.

Lemma spec_denominator_table :
  forallb spec_denominator_ok (map Z.of_nat (seq 1 307)) = true.
Proof. vm_compute. reflexivity. Qed.

Lemma Zltb_scaled_conv (z : Z) (m : positive) (e : Z) :
  -1074 <= e ->
  z * 2 ^ 1074 < Z.pos m * 2 ^ (e + 1074) ->
  Float64.Zltb z (S754_finite false m e) = true.
Proof.
  intros He H. unfold Float64.Zltb, Float64.Zcompare, cond_Zopp.
  destruct (Z.leb_spec 0 e) as [Hpos | Hneg].
  - assert (Hlt : z < Z.pos m * 2 ^ e).
    { rewrite Z.pow_add_r, Z.mul_assoc in H by lia.
      pose proof (pow2_pos 1074 ltac:(lia)) as HS.
      set (S := 2 ^ 1074) in *. clearbody S.
      apply (Z.mul_lt_mono_pos_r S); assumption. }
    destruct (Z.compare_spec z (Z.pos m * 2 ^ e)); try reflexivity; lia.
  - assert (Hlt : z * 2 ^ (- e) < Z.pos m).
    { pose proof (pow2_lt_shift z (Z.pos m) 1074 (e + 1074) (- e - 1074)
                    ltac:(lia) ltac:(lia) ltac:(lia) ltac:(lia) H) as Hsh.
      replace (1074 + (- e - 1074)) with (- e) in Hsh by lia.
      replace (e + 1074 + (- e - 1074)) with 0 in Hsh by lia.
      rewrite Z.pow_0_r, Z.mul_1_r in Hsh. exact Hsh. }
    destruct (Z.compare_spec (z * 2 ^ (- e)) (Z.pos m)); try reflexivity; lia.
Qed.

(** Up to 23 digits, [x < base_a * 0.2] is [5 * x < base_a]. *)
Lemma threshold_exact (k : Z) :
  1 <= k <= 23 ->
  exists thr, int_mul (10 ^ k) f0_2 = Return thr /\
              forall z, Float64.Zltb z thr = true <-> 5 * z < 10 ^ k.
Proof.
  intros Hk. pose proof threshold_exact_table as H. rewrite forallb_forall in H.
  assert (Hin : In k (map Z.of_nat (seq 1 23))).
  { apply in_map_iff. exists (Z.to_nat k). split; [lia | ]. apply in_seq. lia. }
  specialize (H k Hin). unfold threshold_exact_ok in H.
  destruct (int_mul (10 ^ k) f0_2) as [ [ | | | [ | ] m e] | ]; try discriminate.
  apply andb_true_iff in H. destruct H as [He Hv].
  apply Z.leb_le in He. apply Z.eqb_eq in Hv.
  eexists. split; [reflexivity | ]. intros z.
  assert (H10 : 10 ^ k = 10 * 10 ^ (k - 1)).
  { rewrite <- Z.pow_succ_r by lia. f_equal. lia. }
  pose proof (pow2_pos 1074 ltac:(lia)) as HS.
  split.
  - intros Hz. apply (Zltb_scaled _ _ _ He) in Hz. rewrite Hv in Hz.
    set (S := 2 ^ 1074) in *. set (B := 10 ^ (k - 1)) in *. clearbody S B.
    assert (z < 2 * B) by (apply (Z.mul_lt_mono_pos_r S); lia). lia.
  - intros Hz. apply Zltb_scaled_conv; [exact He | ]. rewrite Hv.
    set (S := 2 ^ 1074) in *. set (B := 10 ^ (k - 1)) in *. clearbody S B.
    apply Z.mul_lt_mono_pos_r; lia.
Qed.

Lemma threshold_lower_table :
  forallb threshold_lower_ok (map Z.of_nat (seq 1 28)) = true.
Proof. vm_compute. reflexivity. Qed.

(** Up to 28 digits, [5 * x < base_a] gives [x < base_a * 0.2]. *)
Lemma threshold_lower (k z : Z) (thr : float) :
  1 <= k <= 28 ->
  int_mul (10 ^ k) f0_2 = Return thr ->
  5 * z < 10 ^ k ->
  Float64.Zltb z thr = true.
Proof.
  intros Hk Ethr Hz.
  pose proof threshold_lower_table as Ht. rewrite forallb_forall in Ht.
  assert (Hin : In k (map Z.of_nat (seq 1 28))).
  { apply in_map_iff. exists (Z.to_nat k). split; [lia | ]. apply in_seq. lia. }
  specialize (Ht k Hin). unfold threshold_lower_ok in Ht. rewrite Ethr in Ht.
  destruct thr as [ | | | [ | ] m e]; try discriminate.
  apply andb_true_iff in Ht. destruct Ht as [He Hle].
  apply Z.leb_le in He, Hle.
  apply Zltb_scaled_conv; [exact He | ].
  set (P := 2 ^ 1074) in *.
  assert (HP : 0 < P) by (apply Z.pow_pos_nonneg; lia).
  clearbody P.
  set (T := Z.pos m * 2 ^ (e + 1074)) in *. clearbody T.
  set (B := 10 ^ k) in *. clearbody B.
  assert (H5 : 5 * z * P < B * P) by (apply Z.mul_lt_mono_pos_r; [exact HP | exact Hz]).
  lia.
Qed.

(** The Nikhilam branch for integers of at most 307 digits, with the threshold
    the code compares against (the double [base_a * 0.2]): the confidence is the
    spec's formula, and clamping leaves it unchanged. *)
Lemma nikhilam_classification (a b : Z) (thr : float) :
  rule1 (PyInt a) (PyInt b) a = false -> rule2 a b = false ->
  Py.len_str (Z.abs a) <= 307 ->
  int_mul (10 ^ Py.len_str (Z.abs a)) f0_2 = Return thr ->
  Float64.Zltb (Z.abs (a - 10 ^ Py.len_str (Z.abs a))) thr = true ->
  Float64.Zltb (Z.abs (b - 10 ^ Py.len_str (Z.abs a))) thr = true ->
  exists c p,
    _analyze_pattern (PyInt a) (PyInt b)
    = Return (Nikhilam, c, p, "Numbers close to same power of 10"%string) /\
    spec_nikhilam_confidence a b (10 ^ Py.len_str (Z.abs a)) = Return c /\
    fleb zero c = true /\ fleb c f1_0 = true /\ fleb zero p = true.
Proof.
  intros H1 H2 Hk Ethr Ea Eb.
  pose proof (base_gap a) as Hgap.
  destruct (len_str_spec (Z.abs a) (Z.abs_nonneg _)) as (Hk1 & _ & _).
  set (k := Py.len_str (Z.abs a)) in *.
  destruct (nikhilam_quotient k _ _ thr ltac:(lia) Ethr Hgap (Z.abs_nonneg _) Ea Eb)
    as (den & quo & Eden & Equo & Hquo).
  destruct (nikhilam_scores quo Hquo) as [Hc Hp].
  exists (fmul (fsub f1_0 quo) f0_85), (fadd f1_8 (fmul (fsub f1_0 quo) f0_8)).
  split; [ | split].
  - unfold _analyze_pattern, Py.int. cbn [bind].
    fold (rule1 (PyInt a) (PyInt b) a). fold (rule2 a b). rewrite H1, H2.
    rewrite !(str_len_small (Z.abs a)) by (subst k; lia). cbn [bind].
    fold k. rewrite Ethr. cbn [bind]. rewrite Ea. cbn [bind]. rewrite Eb.
    rewrite Eden. cbn [bind]. rewrite Equo. cbn [bind]. reflexivity.
  - unfold spec_nikhilam_confidence.
    pose proof spec_denominator_table as Ht. rewrite forallb_forall in Ht.
    assert (Hin : In k (map Z.of_nat (seq 1 307))).
    { apply in_map_iff. exists (Z.to_nat k). split; [lia | ]. apply in_seq. lia. }
    specialize (Ht k Hin). unfold spec_denominator_ok in Ht. rewrite Eden in Ht.
    destruct (int_mul 2 f0_2) as [c04 | ]; [ | discriminate].
    destruct (of_int (10 ^ k)) as [fbase | ]; [ | discriminate].
    apply float_same_eq in Ht. cbn [bind]. rewrite Ht, Equo. cbn [bind].
    change (of_int 1) with (Return f1_0). cbn [bind].
    rewrite fmul_comm, clamp01_unit by exact Hc. reflexivity.
  - destruct (unitb_fleb _ Hc) as [Hc0 Hc1].
    split; [exact Hc0 | ]. split; [exact Hc1 | apply nonnegb_fleb; exact Hp].
Qed.

(** C5, as the code has it: when neither of the first two rules matches, [a]
    has at most 28 digits and both distances to [base = 10 ^ digits(a)] are
    strictly below a fifth of [base], [_analyze_pattern] returns Nikhilam
    (NearPowerOfTen) with the spec's confidence formula as its confidence, which
    lies in [0, 1]; and [(98, 97, "multiply")] gives 9506 with Nikhilam. *)
Theorem C5_near_power_of_ten (a b : Z) :
  rule1 (PyInt a) (PyInt b) a = false -> rule2 a b = false ->
  Py.len_str (Z.abs a) <= 28 ->
  5 * Z.abs (a - 10 ^ Py.len_str (Z.abs a)) < 10 ^ Py.len_str (Z.abs a) ->
  5 * Z.abs (b - 10 ^ Py.len_str (Z.abs a)) < 10 ^ Py.len_str (Z.abs a) ->
  (exists c p,
     _analyze_pattern (PyInt a) (PyInt b)
     = Return (Nikhilam, c, p, "Numbers close to same power of 10"%string) /\
     spec_nikhilam_confidence a b (10 ^ Py.len_str (Z.abs a)) = Return c /\
     fleb zero c = true /\ fleb c f1_0 = true) /\
  (exists r,
     _simulate_vedic_operation engine0 f1_0 (PyInt 98) (PyInt 97) "multiply"
     = Return r /\
     result r = PyInt 9506 /\ selected_algorithm r = Nikhilam).
Proof.
  intros H1 H2 Hk Ha Hb. split.
  - destruct (len_str_spec (Z.abs a) (Z.abs_nonneg _)) as (Hk1 & _ & _).
    destruct (threshold_returns (Py.len_str (Z.abs a)) ltac:(lia)) as (thr & Ethr).
    pose proof (threshold_lower _ _ thr (conj Hk1 Hk) Ethr Ha) as Hta.
    pose proof (threshold_lower _ _ thr (conj Hk1 Hk) Ethr Hb) as Htb.
    destruct (nikhilam_classification a b thr H1 H2 ltac:(lia) Ethr Hta Htb)
      as (c & p & E & Es & Hc0 & Hc1 & _).
    exists c, p. auto.
  - eexists. split; [vm_compute; reflexivity | split; reflexivity].
Qed.

Lemma C5_witness :
  (exists c p,
     _analyze_pattern (PyInt 98) (PyInt 97)
     = Return (Nikhilam, c, p, "Numbers close to same power of 10"%string) /\
     spec_nikhilam_confidence 98 97 (10 ^ Py.len_str (Z.abs 98)) = Return c /\
     fleb zero c = true /\ fleb c f1_0 = true) /\
  (exists r,
     _simulate_vedic_operation engine0 f1_0 (PyInt 98) (PyInt 97) "multiply"
     = Return r /\
     result r = PyInt 9506 /\ selected_algorithm r = Nikhilam).
Proof.
  apply (C5_near_power_of_ten 98 97).
  - reflexivity.
  - reflexivity.
  - apply Z.leb_le. reflexivity.
  - reflexivity.
  - reflexivity.
Defined.

(** C5 as stated fails.  With [a = b = 8 * 10^28 + 1] neither of the first two
    rules matches and [|a - base| = 2 * 10^28 - 1] is strictly within 20% of
    [base = 10^29], but the double [base * 0.2] is below that distance and the
    pair is classified Urdhva-Tiryagbhyam. *)
Lemma C5_counterexample :
  rule1 (PyInt (8 * 10 ^ 28 + 1)) (PyInt (8 * 10 ^ 28 + 1)) (8 * 10 ^ 28 + 1) = false /\
  rule2 (8 * 10 ^ 28 + 1) (8 * 10 ^ 28 + 1) = false /\
  10 ^ Py.len_str (Z.abs (8 * 10 ^ 28 + 1)) = 10 ^ 29 /\
  5 * Z.abs (8 * 10 ^ 28 + 1 - 10 ^ 29) < 10 ^ 29 /\
  exists c p why,
    _analyze_pattern (PyInt (8 * 10 ^ 28 + 1)) (PyInt (8 * 10 ^ 28 + 1))
    = Return (Urdhva_Tiryagbhyam, c, p, why).
Proof.
  split; [vm_compute; reflexivity | ]. split; [vm_compute; reflexivity | ].
  split; [vm_compute; reflexivity | ]. split; [vm_compute; reflexivity | ].
  eexists _, _, _. vm_compute. reflexivity.
Qed.

(** The comparison is the strict [<] on doubles.  With two digits the threshold
    is exactly a fifth of the base, and a distance of exactly 20% does not
    match. *)
Example nikhilam_boundary_is_standard :
  5 * Z.abs (80 - 100) = 100 /\
  _analyze_pattern (PyInt 80) (PyInt 85)
  = Return (Standard_Arithmetic, f1_0, f1_0,
            "No optimal Vedic pattern detected"%string).
Proof. split; vm_compute; reflexivity. Qed.

(** With 24 digits the threshold is rounded above a fifth of the base, and a
    distance of exactly 20% does match. *)
Example nikhilam_boundary_at_24_digits :
  5 * Z.abs (8 * 10 ^ 23 - 10 ^ Py.len_str (Z.abs (8 * 10 ^ 23)))
  = 10 ^ Py.len_str (Z.abs (8 * 10 ^ 23)) /\
  exists c p why,
    _analyze_pattern (PyInt (8 * 10 ^ 23)) (PyInt (8 * 10 ^ 23))
    = Return (Nikhilam, c, p, why).
Proof. split; [vm_compute; reflexivity | ]. eexists _, _, _. vm_compute. reflexivity. Qed.

(** ** True division of integers *)
(** On non-zero integers of at most 307 digits [a / b] neither overflows nor
    underflows: it is a finite non-zero double carrying the sign of the
    quotient. *)
Lemma int_true_div_returns (a b : Z) :
  a <> 0 -> b <> 0 -> Z.abs a < 10 ^ 307 -> Z.abs b < 10 ^ 307 ->
  exists m e,
    int_true_div a b = Return (S754_finite (xorb (a <? 0) (b <? 0)) m e) /\
    bounded prec emax m e = true.
Proof.
  intros Ha0 Hb0 Ha Hb. unfold int_true_div.
  replace (b =? 0) with false by (symmetry; apply Z.eqb_neq; exact Hb0).
  replace (a =? 0) with false by (symmetry; apply Z.eqb_neq; exact Ha0).
  set (sgn := xorb (a <? 0) (b <? 0)). clearbody sgn.
  assert (HA : 0 < Z.abs a) by lia. assert (HB : 0 < Z.abs b) by lia.
  assert (H1020 : 10 ^ 307 < 2 ^ 1020) by (apply Z.ltb_lt; vm_compute; reflexivity).
  assert (Hda : Zdigits2 (Z.abs a) <= 1020).
  { apply Zdigits2_le; [exact HA | lia | ].
    set (P := 2 ^ 1020) in *. set (T := 10 ^ 307) in *. clearbody P T. lia. }
  assert (Hdb : Zdigits2 (Z.abs b) <= 1020).
  { apply Zdigits2_le; [exact HB | lia | ].
    set (P := 2 ^ 1020) in *. set (T := 10 ^ 307) in *. clearbody P T. lia. }
  clear H1020 Ha Hb.
  set (A := Z.abs a) in *. set (B := Z.abs b) in *. clearbody A B.
  pose proof (Zdigits2_bounds A HA) as [HAlo HAhi].
  pose proof (Zdigits2_bounds B HB) as [HBlo HBhi].
  pose proof (Zdigits2_pos A HA) as Hd1. pose proof (Zdigits2_pos B HB) as Hd2.
  unfold SFdiv_core_binary.
  set (d1 := Zdigits2 A) in *. set (d2 := Zdigits2 B) in *.
  rewrite fexp_eq.
  set (e' := Z.min (Z.max (d1 + 0 - (d2 + 0) - 53) (-1074)) (0 - 0)).
  assert (He' : e' = Z.min (d1 - d2 - 53) 0) by (unfold e'; lia).
  set (s := 0 - 0 - e').
  assert (Hs : s = - e') by (unfold s; lia).
  set (m' := match s with
             | 0 => A
             | Z.pos _ => Z.shiftl A s
             | Z.neg _ => 0
             end).
  assert (Hm' : m' = A * 2 ^ s) by (apply shifted_dividend; lia).
  clearbody m' e' s. subst m' s.
  assert (Hk : 0 <= d1 - 1 + - e' - d2) by lia.
  pose proof (pow2_pos (- e') ltac:(lia)) as Hps.
  pose proof (pow2_pos (d1 - 1 + - e' - d2) Hk) as Hpk.
  assert (Hm'ge : B * 2 ^ (d1 - 1 + - e' - d2) <= A * 2 ^ (- e')).
  { assert (Hsplit : 2 ^ (d1 - 1) * 2 ^ (- e') = 2 ^ d2 * 2 ^ (d1 - 1 + - e' - d2)).
    { rewrite <- !Z.pow_add_r by lia. f_equal. lia. }
    set (K := 2 ^ (d1 - 1 + - e' - d2)) in *. set (S := 2 ^ (- e')) in *.
    clearbody K S.
    assert (B * K <= 2 ^ d2 * K) by (apply Z.mul_le_mono_nonneg_r; lia).
    assert (2 ^ (d1 - 1) * S <= A * S) by (apply Z.mul_le_mono_nonneg_r; lia).
    lia. }
  pose proof (Z.div_eucl_eq (A * 2 ^ (- e')) B ltac:(lia)) as Hdiv.
  pose proof (Z.mod_pos_bound (A * 2 ^ (- e')) B ltac:(lia)) as Hmod.
  unfold Z.modulo in Hmod.
  destruct (Z.div_eucl (A * 2 ^ (- e')) B) as [q r].
  assert (Hqlo : 2 ^ (d1 - 1 + - e' - d2) <= q).
  { set (K := 2 ^ (d1 - 1 + - e' - d2)) in *. clearbody K.
    destruct (Z.le_gt_cases K q) as [ | Hlt]; [assumption | exfalso].
    assert (B * (q + 1) <= B * K) by (apply Z.mul_le_mono_nonneg_l; lia).
    lia. }
  assert (Hqpos : 0 < q) by lia.
  assert (Hqhi : q < 2 ^ (d1 + - e')).
  { rewrite Z.pow_add_r by lia.
    set (S := 2 ^ (- e')) in *. clearbody S.
    assert (q <= B * q) by nia.
    assert (A * S < 2 ^ d1 * S) by (apply Z.mul_lt_mono_pos_r; lia). lia. }
  pose proof (Zdigits2_ge q _ Hqpos Hk Hqlo) as Hdq1.
  pose proof (Zdigits2_le q (d1 + - e') Hqpos ltac:(lia) Hqhi) as Hdq2.
  destruct (binary_round_aux_spec sgn q e' (new_location B r) Hqpos)
    as (m2 & Hb2 & _ & Hm2 & Hnorm & ->).
  { rewrite fexp_eq. lia. }
  rewrite fexp_eq in *.
  set (e1 := Z.max (Zdigits2 q + e' - 53) (-1074)) in *.
  assert (He1 : -1074 < e1 <= 967) by (unfold e1; lia).
  assert (H52 : 0 < 2 ^ 52) by (apply pow2_pos; lia).
  destruct (canon_finite sgn m2 e1 ltac:(destruct Hnorm; lia) Hnorm ltac:(lia))
    as [(m & e & -> & Hbd & _) | (_ & Hov)]; [ | lia].
  exists m, e. split; [reflexivity | exact Hbd].
Qed.

Lemma feqb_refl (s : bool) (m : positive) (e : Z) :
  feqb (S754_finite s m e) (S754_finite s m e) = true.
Proof.
  unfold feqb, SFeqb, SFcompare.
  change (IntDef.Z.compare e e) with (e ?= e). rewrite Z.compare_refl.
  change (PosDef.Pos.compare_cont Eq m m) with (m ?= m)%positive.
  rewrite Pos.compare_refl. destruct s; reflexivity.
Qed.

(** C1, as the code has it.  On integers of at most 307 digits each of the four
    operations returns a record; add, subtract and multiply give the exact
    integer, divide (by a non-zero divisor) gives the double nearest to the
    quotient, as Python's [/] does; [correctness_verified] is the constant
    [True], which is also what comparing the result with a recomputation by
    the same plain arithmetic gives. *)
Theorem C1_results_of_plain_arithmetic (self : VedicMathEngine) (variance : float)
    (a b : Z) (operation : string) :
  Z.abs a < 10 ^ 307 -> Z.abs b < 10 ^ 307 ->
  In operation ["multiply"; "divide"; "add"; "subtract"]%string ->
  (operation = "divide"%string -> b <> 0) ->
  exists r recomputed,
    _simulate_vedic_operation self variance (PyInt a) (PyInt b) operation = Return r /\
    calculate_result (PyInt a) (PyInt b) operation = Return recomputed /\
    correctness_verified r = true /\
    correctness_verified r = Py.eqb (result r) recomputed /\
    (operation = "multiply"%string -> result r = PyInt (a * b)) /\
    (operation = "add"%string -> result r = PyInt (a + b)) /\
    (operation = "subtract"%string -> result r = PyInt (a - b)) /\
    (operation = "divide"%string ->
     exists f, result r = PyFloat f /\ int_true_div a b = Return f).
Proof.
  intros Ha Hb Hop Hdiv.
  assert (Hres : exists res,
    calculate_result (PyInt a) (PyInt b) operation = Return res /\
    Py.eqb res res = true /\
    (operation = "multiply"%string -> res = PyInt (a * b)) /\
    (operation = "add"%string -> res = PyInt (a + b)) /\
    (operation = "subtract"%string -> res = PyInt (a - b)) /\
    (operation = "divide"%string ->
     exists f, res = PyFloat f /\ int_true_div a b = Return f)).
  { destruct Hop as [<- | [<- | [<- | [<- | []]]]].
    - exists (PyInt (a * b)). split; [reflexivity | ].
      split; [apply Z.eqb_refl | ]. repeat split; try discriminate; auto.
    - specialize (Hdiv eq_refl).
      assert (Hf : exists f, int_true_div a b = Return f /\ feqb f f = true).
      { destruct (Z.eq_dec a 0) as [-> | Ha0].
        - unfold int_true_div.
          replace (b =? 0) with false by (symmetry; apply Z.eqb_neq; exact Hdiv).
          cbn [Z.eqb]. eexists. split; [reflexivity | reflexivity].
        - destruct (int_true_div_returns a b Ha0 Hdiv Ha Hb) as (m & e & E & _).
          eexists. split; [exact E | apply feqb_refl]. }
      destruct Hf as (f & Ef & Hff).
      exists (PyFloat f). split.
      + unfold calculate_result. cbn [String.eqb Ascii.eqb Bool.eqb].
        unfold Py.neqb, Py.eqb.
        replace (b =? 0) with false by (symmetry; apply Z.eqb_neq; exact Hdiv).
        cbn [negb]. unfold Py.truediv. rewrite Ef. reflexivity.
      + split; [exact Hff | ]. repeat split; try discriminate. eauto.
    - exists (PyInt (a + b)). split; [reflexivity | ].
      split; [apply Z.eqb_refl | ]. repeat split; try discriminate; auto.
    - exists (PyInt (a - b)). split; [reflexivity | ].
      split; [apply Z.eqb_refl | ]. repeat split; try discriminate; auto. }
  destruct Hres as (res & Eres & Heq & Hm & Hadd & Hsub & Hd).
  destruct (simulate_returns self variance (PyInt a) (PyInt b) operation res
              (in_range_int a Ha) (in_range_int b Hb) Eres) as (r & Er & Hr & Hv & _).
  exists r, res. rewrite Hr, Hv, Heq. repeat split; auto.
Qed.

Lemma C1_witness :
  exists r recomputed,
    _simulate_vedic_operation engine0 f1_0 (PyInt 7) (PyInt 2) "divide" = Return r /\
    calculate_result (PyInt 7) (PyInt 2) "divide" = Return recomputed /\
    correctness_verified r = true /\
    correctness_verified r = Py.eqb (result r) recomputed /\
    ("divide"%string = "multiply"%string -> result r = PyInt (7 * 2)) /\
    ("divide"%string = "add"%string -> result r = PyInt (7 + 2)) /\
    ("divide"%string = "subtract"%string -> result r = PyInt (7 - 2)) /\
    ("divide"%string = "divide"%string ->
     exists f, result r = PyFloat f /\ int_true_div 7 2 = Return f).
Proof.
  apply (C1_results_of_plain_arithmetic engine0 f1_0 7 2 "divide").
  - reflexivity.
  - reflexivity.
  - simpl. auto.
  - intros _. discriminate.
Defined.

(** C1 as stated fails: [1 / 3] is a double, and no double is one third. *)
Lemma C1_counterexample :
  exists r,
    _simulate_vedic_operation engine0 f1_0 (PyInt 1) (PyInt 3) "divide" = Return r /\
    is_exactly (result r) 1 3 = false /\
    correctness_verified r = true.
Proof. eexists. split; [vm_compute; reflexivity | split; vm_compute; reflexivity]. Qed.

(** Where the quotient is a double the division is exact. *)
Example divide_seven_by_two :
  exists r,
    _simulate_vedic_operation engine0 f1_0 (PyInt 7) (PyInt 2) "divide" = Return r /\
    is_exactly (result r) 7 2 = true.
Proof. eexists. split; [vm_compute; reflexivity | vm_compute; reflexivity]. Qed.

(** ** The classifier, rule by rule *)

(** X1.  Whatever the operands -- beyond any range, floats included -- a tuple that
    [_analyze_pattern] returns has its confidence in [0, 1] and a non-negative
    predicted speedup: the bounds need no assumption on the input. *)
Theorem classifier_bounds_whenever_returned (a b : pynum) (sutra why : string)
    (c p : float) :
  _analyze_pattern a b = Return (sutra, c, p, why) ->
  fleb zero c = true /\ fleb c f1_0 = true /\ fleb zero p = true.
Proof.
  intros E. destruct (analyze_pattern_bounds a b sutra why c p E) as [[H1 H2] H3]. auto.
Qed.

Lemma classifier_bounds_whenever_returned_witness :
  exists c p,
    _analyze_pattern (PyInt 5) (PyInt (10 ^ 400))
    = Return (Urdhva_Tiryagbhyam, c, p, "Multi-digit crosswise multiplication"%string) /\
    fleb zero c = true /\ fleb c f1_0 = true /\ fleb zero p = true.
Proof.
  eexists _, _. split; [vm_compute; reflexivity | ].
  apply (classifier_bounds_whenever_returned (PyInt 5) (PyInt (10 ^ 400))
           Urdhva_Tiryagbhyam "Multi-digit crosswise multiplication"%string).
  vm_compute. reflexivity.
Defined.

Lemma analyze_pattern_inv (a b : pynum) (sutra why : string) (c p : float) :
  _analyze_pattern a b = Return (sutra, c, p, why) ->
  exists a_int b_int,
    Py.int a = Return a_int /\ Py.int b = Return b_int /\
    ((rule1 a b a_int = true /\ sutra = Ekadhikena_Purvena /\ c = f0_95 /\ p = f3_2) \/
     (rule1 a b a_int = false /\ rule2 a_int b_int = true /\
      sutra = Antyayordasake /\ c = f0_88 /\ p = f2_4) \/
     (rule1 a b a_int = false /\ rule2 a_int b_int = false /\
      sutra = Nikhilam /\
      Py.len_str (Z.abs a_int) <= 307 /\
      exists thr,
        int_mul (10 ^ Py.len_str (Z.abs a_int)) f0_2 = Return thr /\
        Float64.Zltb (Z.abs (a_int - 10 ^ Py.len_str (Z.abs a_int))) thr = true /\
        Float64.Zltb (Z.abs (b_int - 10 ^ Py.len_str (Z.abs a_int))) thr = true) \/
     (rule1 a b a_int = false /\ rule2 a_int b_int = false /\
      sutra = Urdhva_Tiryagbhyam /\
      3 <= Z.max (Py.len_str (Z.abs a_int)) (Py.len_str (Z.abs b_int)) /\
      exists c0 s0,
        int_mul (Z.max (Py.len_str (Z.abs a_int)) (Py.len_str (Z.abs b_int)) - 3) f0_05
        = Return c0 /\
        int_mul (Z.max (Py.len_str (Z.abs a_int)) (Py.len_str (Z.abs b_int)) - 3) f0_1
        = Return s0 /\
        c = fmin (fadd f0_6 c0) f0_8 /\ p = fadd f1_4 s0) \/
     (rule1 a b a_int = false /\ rule2 a_int b_int = false /\
      sutra = Standard_Arithmetic /\ c = f1_0 /\ p = f1_0 /\
      Z.max (Py.len_str (Z.abs a_int)) (Py.len_str (Z.abs b_int)) < 3)).
Proof.
  unfold _analyze_pattern.
  destruct (Py.int a) as [a_int | ]; [ | discriminate].
  destruct (Py.int b) as [b_int | ]; [ | discriminate].
  cbn [bind]. intros H. exists a_int, b_int. split; [reflexivity | ].
  split; [reflexivity | ]. revert H.
  fold (rule1 a b a_int). fold (rule2 a_int b_int).
  destruct (rule1 a b a_int).
  { intros H. left. repeat split; congruence. }
  destruct (rule2 a_int b_int).
  { intros H. right. left. repeat split; congruence. }
  destruct (Py.str_len (Z.abs a_int)) as [ka | ] eqn:Eka; [ | discriminate].
  apply str_len_inv in Eka. destruct Eka as [-> Hka4300].
  cbn [bind].
  assert (Htail :
    (digits_b <- Py.str_len (Z.abs b_int) ;;
     let max_digits := Z.max (Py.len_str (Z.abs a_int)) digits_b in
     if 3 <=? max_digits
     then
       c0 <- int_mul (max_digits - 3) f0_05 ;;
       (let confidence := fmin (fadd f0_6 c0) f0_8 in
        s <- int_mul (max_digits - 3) f0_1 ;;
        Return (Urdhva_Tiryagbhyam, confidence, fadd f1_4 s,
                "Multi-digit crosswise multiplication"%string))
     else
       Return (Standard_Arithmetic, f1_0, f1_0,
               "No optimal Vedic pattern detected"%string))
    = Return (sutra, c, p, why) ->
    (false = true /\ sutra = Ekadhikena_Purvena /\ c = f0_95 /\ p = f3_2) \/
    (false = false /\ false = true /\ sutra = Antyayordasake /\ c = f0_88 /\ p = f2_4) \/
    (false = false /\ false = false /\
      sutra = Nikhilam /\
      Py.len_str (Z.abs a_int) <= 307 /\
      exists thr,
        int_mul (10 ^ Py.len_str (Z.abs a_int)) f0_2 = Return thr /\
        Float64.Zltb (Z.abs (a_int - 10 ^ Py.len_str (Z.abs a_int))) thr = true /\
        Float64.Zltb (Z.abs (b_int - 10 ^ Py.len_str (Z.abs a_int))) thr = true) \/
     (false = false /\ false = false /\
      sutra = Urdhva_Tiryagbhyam /\
      3 <= Z.max (Py.len_str (Z.abs a_int)) (Py.len_str (Z.abs b_int)) /\
      exists c0 s0,
        int_mul (Z.max (Py.len_str (Z.abs a_int)) (Py.len_str (Z.abs b_int)) - 3) f0_05
        = Return c0 /\
        int_mul (Z.max (Py.len_str (Z.abs a_int)) (Py.len_str (Z.abs b_int)) - 3) f0_1
        = Return s0 /\
        c = fmin (fadd f0_6 c0) f0_8 /\ p = fadd f1_4 s0) \/
     (false = false /\ false = false /\
      sutra = Standard_Arithmetic /\ c = f1_0 /\ p = f1_0 /\
      Z.max (Py.len_str (Z.abs a_int)) (Py.len_str (Z.abs b_int)) < 3)).
  { destruct (Py.str_len (Z.abs b_int)) as [kb | ] eqn:Ekb; [ | discriminate].
    apply str_len_inv in Ekb. destruct Ekb as [-> Hkb4300].
    cbn [bind]. cbv zeta. set (md := Z.max _ _).
    destruct (Z.leb_spec 3 md) as [Hmd | Hmd].
    - destruct (int_mul (md - 3) f0_05) as [c0 | ] eqn:Ec; [ | discriminate].
      destruct (int_mul (md - 3) f0_1) as [s0 | ] eqn:Es; [ | discriminate].
      cbn [bind]. intros H. right. right. right. left.
      split; [reflexivity | ]. split; [reflexivity | ].
      split; [congruence | ]. split; [exact Hmd | ].
      exists c0, s0. repeat split; congruence.
    - intros H. right. right. right. right.
      split; [reflexivity | ]. split; [reflexivity | ].
      split; [congruence | ]. split; [congruence | ]. split; [congruence | exact Hmd]. }
  set (k := Py.len_str (Z.abs a_int)) in *.
  destruct (int_mul (10 ^ k) f0_2) as [thr | ] eqn:Ethr; [ | discriminate].
  cbn [bind].
  destruct (Float64.Zltb (Z.abs (a_int - 10 ^ k)) thr) eqn:Ea; [ | exact Htail].
  cbn [bind].
  destruct (Float64.Zltb (Z.abs (b_int - 10 ^ k)) thr) eqn:Eb; [ | exact Htail].
  clear Htail.
  destruct (len_str_spec (Z.abs a_int) (Z.abs_nonneg _)) as (Hk1 & _ & _). fold k in Hk1.
  destruct (int_mul (2 * 10 ^ k) f0_2) as [den | ] eqn:Eden; [ | discriminate].
  cbn [bind].
  assert (Hk : k <= 307).
  { apply int_mul_inv in Eden. destruct Eden as (x & Ex & _).
    apply (of_int_double_pow10 k x); [lia | exact Ex]. }
  destruct (int_div _ den) as [quo | ]; [ | discriminate].
  cbn [bind]. intros H. right. right. left.
  split; [reflexivity | ]. split; [reflexivity | ]. split; [congruence | ].
  split; [exact Hk | ]. exists thr. auto.
Qed.

(** X2.  The sutra [_analyze_pattern] selects is always a key of the speedup table and
    of the Sanskrit-name table: on the engine's path neither [.get] default
    (1.0, the empty string) is ever used. *)
Theorem selected_sutra_is_known (a b : pynum) (sutra why : string) (c p : float) :
  _analyze_pattern a b = Return (sutra, c, p, why) ->
  In sutra (map fst speedup_map) /\
  In sutra (map fst sanskrit_map) /\
  _get_sanskrit_name sutra <> EmptyString /\
  forall variance default,
    _calculate_expected_speedup variance sutra a b
    = fmul (dict_get speedup_map sutra default) variance.
Proof.
  intros E. apply analyze_pattern_inv in E.
  destruct E as (a_int & b_int & _ & _ & H).
  destruct H as [H | [H | [H | [H | H]]]];
    [destruct H as (_ & -> & _) | destruct H as (_ & _ & -> & _) ..];
    (split; [cbn; tauto | ]); (split; [cbn; tauto | ]);
    (split; [vm_compute; discriminate | ]); intros variance default; reflexivity.
Qed.

Lemma selected_sutra_is_known_witness :
  In Ekadhikena_Purvena (map fst speedup_map) /\
  In Ekadhikena_Purvena (map fst sanskrit_map) /\
  _get_sanskrit_name Ekadhikena_Purvena <> EmptyString /\
  forall variance default,
    _calculate_expected_speedup variance Ekadhikena_Purvena (PyInt 25) (PyInt 25)
    = fmul (dict_get speedup_map Ekadhikena_Purvena default) variance.
Proof.
  apply (selected_sutra_is_known (PyInt 25) (PyInt 25) Ekadhikena_Purvena
           "Perfect squaring pattern: number ending in 5"%string f0_95 f3_2).
  reflexivity.
Defined.

Lemma threshold_upper_table :
  forallb threshold_upper_ok (map Z.of_nat (seq 1 307)) = true.
Proof. vm_compute. reflexivity. Qed.

Lemma urdhva_table : forallb urdhva_ok (map Z.of_nat (seq 3 305)) = true.
Proof. vm_compute. reflexivity. Qed.

Lemma threshold_upper (k z : Z) (thr : float) :
  1 <= k <= 307 ->
  int_mul (10 ^ k) f0_2 = Return thr ->
  Float64.Zltb z thr = true ->
  5 * z < 10 ^ k + 10 ^ k / 10 ^ 15.
Proof.
  intros Hk Ethr Hz.
  pose proof threshold_upper_table as Ht. rewrite forallb_forall in Ht.
  assert (Hin : In k (map Z.of_nat (seq 1 307))).
  { apply in_map_iff. exists (Z.to_nat k). split; [lia | ]. apply in_seq. lia. }
  specialize (Ht k Hin). unfold threshold_upper_ok in Ht. rewrite Ethr in Ht.
  destruct thr as [ | | | [ | ] m e]; try discriminate.
  apply andb_true_iff in Ht. destruct Ht as [He Hle].
  apply Z.leb_le in He, Hle.
  pose proof (Zltb_scaled z m e He Hz) as Hlt.
  set (P := 2 ^ 1074) in *.
  assert (HP : 0 < P) by (apply Z.pow_pos_nonneg; lia).
  clearbody P.
  set (T := Z.pos m * 2 ^ (e + 1074)) in *. clearbody T.
  set (B := 10 ^ k + 10 ^ k / 10 ^ 15) in *. clearbody B.
  assert (H5 : 5 * z * P < B * P) by lia.
  apply Z.mul_lt_mono_pos_r in H5; [exact H5 | exact HP].
Qed.

Lemma nikhilam_inv (a b : pynum) (c p : float) (why : string) :
  _analyze_pattern a b = Return (Nikhilam, c, p, why) ->
  exists a_int b_int,
    Py.int a = Return a_int /\ Py.int b = Return b_int /\
    0 < a_int < 10 ^ Py.len_str (Z.abs a_int) /\
    5 * (10 ^ Py.len_str (Z.abs a_int) - a_int)
      < 10 ^ Py.len_str (Z.abs a_int) + 10 ^ Py.len_str (Z.abs a_int) / 10 ^ 15 /\
    5 * Z.abs (b_int - 10 ^ Py.len_str (Z.abs a_int))
      < 10 ^ Py.len_str (Z.abs a_int) + 10 ^ Py.len_str (Z.abs a_int) / 10 ^ 15.
Proof.
  intros E. apply analyze_pattern_inv in E.
  destruct E as (a_int & b_int & Ea & Eb & H).
  exists a_int, b_int. split; [exact Ea | ]. split; [exact Eb | ].
  destruct H as [H | [H | [H | [H | H]]]];
    [destruct H as (_ & Hs & _) | destruct H as (_ & _ & Hs & H) ..];
    try (sutra_names; discriminate Hs).
  destruct H as (Hk & thr & Ethr & Ha & Hb).
  destruct (len_str_spec (Z.abs a_int) (Z.abs_nonneg _)) as (Hk1 & Hlt & _).
  pose proof (threshold_upper _ _ thr (conj Hk1 Hk) Ethr Ha) as Ha5.
  pose proof (threshold_upper _ _ thr (conj Hk1 Hk) Ethr Hb) as Hb5.
  set (base := 10 ^ Py.len_str (Z.abs a_int)) in *.
  assert (Hd : 0 <= base / 10 ^ 15 <= base).
  { assert (Hb0 : 0 <= base) by lia. split.
    - apply Z.div_pos; [exact Hb0 | reflexivity].
    - apply Z.div_le_upper_bound; [reflexivity | ].
      assert (H1 : 1 <= 10 ^ 15) by (apply Z.leb_le; reflexivity).
      set (D := 10 ^ 15) in *. clearbody D.
      rewrite <- (Z.mul_1_l base) at 1. apply Z.mul_le_mono_nonneg_r; assumption. }
  set (slack := base / 10 ^ 15) in *. clearbody slack. clearbody base.
  split; [lia | ]. split; [lia | exact Hb5].
Qed.



(** The order of the operands matters to the classifier: the base is taken from
    the first one alone. *)
Example classification_is_not_symmetric :
  (exists c p why, _analyze_pattern (PyInt 98) (PyInt 103) = Return (Nikhilam, c, p, why)) /\
  (exists c p why,
     _analyze_pattern (PyInt 103) (PyInt 98) = Return (Urdhva_Tiryagbhyam, c, p, why)).
Proof. split; eexists _, _, _; vm_compute; reflexivity. Qed.

Lemma standard_inv (a b : pynum) (c p : float) (why : string) :
  _analyze_pattern a b = Return (Standard_Arithmetic, c, p, why) ->
  exists a_int b_int,
    Py.int a = Return a_int /\ Py.int b = Return b_int /\
    Z.abs a_int < 100 /\ Z.abs b_int < 100 /\ c = f1_0 /\ p = f1_0.
Proof.
  intros E. apply analyze_pattern_inv in E.
  destruct E as (a_int & b_int & Ea & Eb & H).
  exists a_int, b_int. split; [exact Ea | ]. split; [exact Eb | ].
  destruct H as [H | [H | [H | [H | H]]]];
    [destruct H as (_ & Hs & _) | destruct H as (_ & _ & Hs & H) ..];
    try (sutra_names; discriminate Hs).
  destruct H as (-> & -> & Hmd).
  destruct (len_str_spec (Z.abs a_int) (Z.abs_nonneg _)) as (Ha1 & Halt & _).
  destruct (len_str_spec (Z.abs b_int) (Z.abs_nonneg _)) as (Hb1 & Hblt & _).
  assert (Hpa : 10 ^ Py.len_str (Z.abs a_int) <= 10 ^ 2)
    by (apply Z.pow_le_mono_r; lia).
  assert (Hpb : 10 ^ Py.len_str (Z.abs b_int) <= 10 ^ 2)
    by (apply Z.pow_le_mono_r; lia).
  change (10 ^ 2) with 100 in Hpa, Hpb.
  repeat split; try reflexivity; lia.
Qed.

(** X4.  Standard Arithmetic is the classification of small operands only: it is
    returned, with confidence and speedup [1.0], only when both integer parts
    have at most two digits. *)
Theorem standard_only_below_three_digits (a b : pynum) (c p : float) (why : string) :
  _analyze_pattern a b = Return (Standard_Arithmetic, c, p, why) ->
  exists a_int b_int,
    Py.int a = Return a_int /\ Py.int b = Return b_int /\
    Z.abs a_int < 100 /\ Z.abs b_int < 100 /\ c = f1_0 /\ p = f1_0.
Proof.
  intros E. destruct (standard_inv a b c p why E) as (a_int & b_int & Ea & Eb & H).
  exists a_int, b_int. split; [exact Ea | ]. split; [exact Eb | exact H].
Qed.

Lemma standard_only_below_three_digits_witness :
  exists a_int b_int,
    Py.int (PyInt 12) = Return a_int /\ Py.int (PyFloat f2_5) = Return b_int /\
    Z.abs a_int < 100 /\ Z.abs b_int < 100 /\ f1_0 = f1_0 /\ f1_0 = f1_0.
Proof.
  apply (standard_only_below_three_digits (PyInt 12) (PyFloat f2_5) f1_0 f1_0
           "No optimal Vedic pattern detected"%string).
  vm_compute. reflexivity.
Defined.

(** X5.  The confidence of Urdhva-Tiryagbhyam lies between [0.6] and the cap [0.80]:
    it is below the cap up to six digits and exactly [0.80] from seven digits on,
    while the predicted speedup is at least [1.4].  (Operands of at most 307
    digits.) *)
Theorem urdhva_confidence_capped (a b : pynum) (c p : float) (why : string) :
  in_range a = true -> in_range b = true ->
  _analyze_pattern a b = Return (Urdhva_Tiryagbhyam, c, p, why) ->
  exists a_int b_int,
    Py.int a = Return a_int /\ Py.int b = Return b_int /\
    3 <= Z.max (Py.len_str (Z.abs a_int)) (Py.len_str (Z.abs b_int)) /\
    fleb f0_6 c = true /\ fleb c f0_8 = true /\ fleb f1_4 p = true /\
    (7 <= Z.max (Py.len_str (Z.abs a_int)) (Py.len_str (Z.abs b_int)) -> c = f0_8) /\
    (Z.max (Py.len_str (Z.abs a_int)) (Py.len_str (Z.abs b_int)) < 7 ->
     fltb c f0_8 = true).
Proof.
  intros Ra Rb E. apply analyze_pattern_inv in E.
  destruct E as (a_int & b_int & Ea & Eb & H).
  exists a_int, b_int. split; [exact Ea | ]. split; [exact Eb | ].
  destruct (in_range_inv a Ra) as (a' & Ea' & Hai).
  destruct (in_range_inv b Rb) as (b' & Eb' & Hbi).
  assert (a' = a_int) by congruence. assert (b' = b_int) by congruence. subst a' b'.
  pose proof (len_str_le (Z.abs a_int) 307 (Z.abs_nonneg _) ltac:(lia) Hai) as Hka.
  pose proof (len_str_le (Z.abs b_int) 307 (Z.abs_nonneg _) ltac:(lia) Hbi) as Hkb.
  destruct H as [H | [H | [H | [H | H]]]];
    [destruct H as (_ & Hs & _) | destruct H as (_ & _ & Hs & H) ..];
    try (sutra_names; discriminate Hs).
  destruct H as (Hmd & c0 & s0 & Ec & Es & -> & ->).
  set (md := Z.max _ _) in *.
  pose proof urdhva_table as Ht. rewrite forallb_forall in Ht.
  assert (Hin : In md (map Z.of_nat (seq 3 305))).
  { apply in_map_iff. exists (Z.to_nat md). split; [lia | ]. apply in_seq. lia. }
  specialize (Ht md Hin). unfold urdhva_ok in Ht. rewrite Ec, Es in Ht.
  cbv zeta in Ht. rewrite !andb_true_iff in Ht.
  destruct Ht as [[[H1 H2] H3] H4].
  split; [exact Hmd | ]. split; [exact H1 | ]. split; [exact H2 | ].
  split; [exact H4 | ]. split.
  - intros H7. replace (7 <=? md) with true in H3 by (symmetry; apply Z.leb_le; exact H7).
    apply float_same_eq in H3. exact H3.
  - intros H7. replace (7 <=? md) with false in H3 by (symmetry; apply Z.leb_gt; exact H7).
    exact H3.
Qed.

Lemma urdhva_confidence_capped_witness :
  exists a_int b_int,
    Py.int (PyInt 1234567) = Return a_int /\ Py.int (PyInt 12) = Return b_int /\
    3 <= Z.max (Py.len_str (Z.abs a_int)) (Py.len_str (Z.abs b_int)) /\
    fleb f0_6 f0_8 = true /\ fleb f0_8 f0_8 = true /\
    fleb f1_4 (S754_finite false 8106479329266892 (-52)) = true /\
    (7 <= Z.max (Py.len_str (Z.abs a_int)) (Py.len_str (Z.abs b_int)) -> f0_8 = f0_8) /\
    (Z.max (Py.len_str (Z.abs a_int)) (Py.len_str (Z.abs b_int)) < 7 ->
     fltb f0_8 f0_8 = true).
Proof.
  apply (urdhva_confidence_capped (PyInt 1234567) (PyInt 12) f0_8
           (S754_finite false 8106479329266892 (-52))
           "Multi-digit crosswise multiplication"%string).
  - reflexivity.
  - reflexivity.
  - vm_compute. reflexivity.
Defined.

(** ** The test-case generators *)

Lemma randint_range (lo hi r : Z) : lo <= hi -> lo <= randint lo hi r <= hi.
Proof.
  intros H. unfold randint.
  pose proof (Z.mod_pos_bound r (hi - lo + 1) ltac:(lia)). lia.
Qed.

Lemma mod10_last_digit (prefix d : Z) : 0 <= d < 10 -> (prefix * 10 + d) mod 10 = d.
Proof.
  intros H. rewrite Z.add_comm, Z.mod_add by lia. apply Z.mod_small. exact H.
Qed.

Lemma div10_prefix (prefix d : Z) : 0 <= d < 10 -> (prefix * 10 + d) / 10 = prefix.
Proof.
  intros H. rewrite Z.add_comm, Z.div_add by lia. rewrite Z.div_small by exact H. lia.
Qed.

(** X6.  Every test case of the ["ekadhikena"] generator is classified Ekadhikena
    Purvena with confidence [0.95], whatever the generator draws. *)
Theorem ekadhikena_test_cases_classified (r1 r2 r3 : Z) :
  _analyze_pattern (PyInt (fst (test_case "ekadhikena" r1 r2 r3)))
                   (PyInt (snd (test_case "ekadhikena" r1 r2 r3)))
  = Return (Ekadhikena_Purvena, f0_95, f3_2,
            "Perfect squaring pattern: number ending in 5"%string).
Proof.
  cbn [test_case String.eqb Ascii.eqb Bool.eqb fst snd].
  pose proof (randint_range 1 50 r1 ltac:(lia)) as Hr.
  set (n := randint 1 50 r1) in *. clearbody n.
  unfold _analyze_pattern, Py.int. cbn [bind].
  unfold Py.eqb, Py.gtb, Py.ltb.
  rewrite Z.eqb_refl, (mod10_last_digit n 5) by lia.
  replace (0 <? n * 10 + 5) with true by (symmetry; apply Z.ltb_lt; lia).
  reflexivity.
Qed.

(** X7.  A test case of the ["antyayordasake"] generator is classified
    Antyayordasake with confidence [0.88] -- except when the last digit drawn
    is 5: then both operands are equal and end in 5, and the first rule takes
    the pair as Ekadhikena Purvena. *)
Theorem antyayordasake_test_cases_classified (r1 r2 r3 : Z) :
  _analyze_pattern (PyInt (fst (test_case "antyayordasake" r1 r2 r3)))
                   (PyInt (snd (test_case "antyayordasake" r1 r2 r3)))
  = if randint 1 9 r2 =? 5
    then Return (Ekadhikena_Purvena, f0_95, f3_2,
                 "Perfect squaring pattern: number ending in 5"%string)
    else Return (Antyayordasake, f0_88, f2_4,
                 "Same prefix, last digits sum to 10"%string).
Proof.
  cbn [test_case String.eqb Ascii.eqb Bool.eqb fst snd].
  pose proof (randint_range 1 99 r1 ltac:(lia)) as Hp.
  pose proof (randint_range 1 9 r2 ltac:(lia)) as Hl.
  set (prefix := randint 1 99 r1) in *. clearbody prefix.
  set (last_a := randint 1 9 r2) in *. clearbody last_a.
  unfold _analyze_pattern, Py.int. cbn [bind].
  unfold Py.eqb, Py.gtb, Py.ltb.
  rewrite (mod10_last_digit prefix last_a), (mod10_last_digit prefix (10 - last_a)) by lia.
  rewrite (div10_prefix prefix last_a), (div10_prefix prefix (10 - last_a)) by lia.
  replace (0 <? prefix * 10 + last_a) with true by (symmetry; apply Z.ltb_lt; lia).
  replace (last_a + (10 - last_a) =? 10) with true by (symmetry; apply Z.eqb_eq; lia).
  rewrite Z.eqb_refl. cbn [andb].
  destruct (Z.eqb_spec last_a 5) as [-> | Hne].
  - rewrite Z.eqb_refl. reflexivity.
  - rewrite andb_false_r. reflexivity.
Qed.

Lemma three_digits_not_standard (a b : Z) :
  Z.abs a < 10 ^ 307 -> Z.abs b < 10 ^ 307 ->
  100 <= Z.abs a \/ 100 <= Z.abs b ->
  exists sutra c p why,
    _analyze_pattern (PyInt a) (PyInt b) = Return (sutra, c, p, why) /\
    sutra <> Standard_Arithmetic.
Proof.
  intros Ha Hb Hbig.
  destruct (analyze_pattern_total (PyInt a) (PyInt b) (in_range_int a Ha)
              (in_range_int b Hb)) as ([[[sutra c] p] why] & E).
  exists sutra, c, p, why. split; [exact E | ].
  intros ->. apply standard_inv in E.
  destruct E as (a_int & b_int & Ea & Eb & Hsa & Hsb & _).
  cbn [Py.int] in Ea, Eb.
  assert (a_int = a) by congruence. assert (b_int = b) by congruence. subst. lia.
Qed.

Lemma small_range (z : Z) : 0 <= z <= 10000 -> Z.abs z < 10 ^ 307.
Proof.
  intros H. assert (H4 : 10 ^ 4 <= 10 ^ 307) by (apply Z.pow_le_mono_r; lia).
  change (10 ^ 4) with 10000 in H4. lia.
Qed.

(** X8.  A test case of the ["urdhva"] generator (two four-digit operands) is never
    classified Standard Arithmetic: every such case counts as a Vedic method. *)
Theorem urdhva_test_cases_never_standard (r1 r2 r3 : Z) :
  exists sutra c p why,
    _analyze_pattern (PyInt (fst (test_case "urdhva" r1 r2 r3)))
                     (PyInt (snd (test_case "urdhva" r1 r2 r3)))
    = Return (sutra, c, p, why) /\
    sutra <> Standard_Arithmetic.
Proof.
  cbn [test_case String.eqb Ascii.eqb Bool.eqb fst snd].
  pose proof (randint_range 1000 9999 r1 ltac:(lia)) as Ha.
  pose proof (randint_range 1000 9999 r2 ltac:(lia)) as Hb.
  apply three_digits_not_standard.
  - apply small_range. lia.
  - apply small_range. lia.
  - left. lia.
Qed.

Lemma len_str_unique (n k : Z) :
  1 <= k -> 10 ^ (k - 1) <= n < 10 ^ k -> Py.len_str n = k.
Proof.
  intros Hk [Hlo Hhi].
  assert (Hn : 0 < n).
  { assert (0 < 10 ^ (k - 1)) by (apply Z.pow_pos_nonneg; lia). lia. }
  destruct (len_str_spec n ltac:(lia)) as (H1 & Hlt & Hge). specialize (Hge Hn).
  assert (Py.len_str n - 1 < k).
  { apply (Z.pow_lt_mono_r_iff 10); lia. }
  assert (k - 1 < Py.len_str n).
  { apply (Z.pow_lt_mono_r_iff 10); lia. }
  lia.
Qed.

(** X9.  The ["nikhilam"] generator draws both operands within a fifth of 100 or of
    1000, on either side.  Whenever the first operand comes out at or above that
    base, the classifier -- whose base is the power of ten above the operand --
    does not select Nikhilam (nor Standard Arithmetic). *)
Theorem nikhilam_test_cases_at_or_above_base (r1 r2 r3 : Z) :
  choice [100; 1000] r1 <= fst (test_case "nikhilam" r1 r2 r3) ->
  exists sutra c p why,
    _analyze_pattern (PyInt (fst (test_case "nikhilam" r1 r2 r3)))
                     (PyInt (snd (test_case "nikhilam" r1 r2 r3)))
    = Return (sutra, c, p, why) /\
    sutra <> Nikhilam /\ sutra <> Standard_Arithmetic.
Proof.
  cbn [test_case String.eqb Ascii.eqb Bool.eqb fst snd].
  assert (Hbase : choice [100; 1000] r1 = 100 \/ choice [100; 1000] r1 = 1000).
  { unfold choice. cbn [List.length]. change (Z.of_nat 2) with 2.
    pose proof (Z.mod_pos_bound r1 2 ltac:(lia)) as Hm.
    assert (Hc : r1 mod 2 = 0 \/ r1 mod 2 = 1) by lia.
    destruct Hc as [-> | ->]; [left | right]; reflexivity. }
  set (base := choice [100; 1000] r1) in *. clearbody base.
  intros Hge.
  assert (Hcases :
    (base = 100 /\ 100 <= base + randint ((- base) / 5) (base / 5) r2 <= 120 /\
     80 <= base + randint ((- base) / 5) (base / 5) r3 <= 120) \/
    (base = 1000 /\ 1000 <= base + randint ((- base) / 5) (base / 5) r2 <= 1200 /\
     800 <= base + randint ((- base) / 5) (base / 5) r3 <= 1200)).
  { destruct Hbase as [-> | ->]; [left | right].
    - change (Z.opp 100 / 5) with (-20) in *. change (100 / 5) with 20 in *.
      pose proof (randint_range (-20) 20 r2 ltac:(lia)).
      pose proof (randint_range (-20) 20 r3 ltac:(lia)). lia.
    - change (Z.opp 1000 / 5) with (-200) in *. change (1000 / 5) with 200 in *.
      pose proof (randint_range (-200) 200 r2 ltac:(lia)).
      pose proof (randint_range (-200) 200 r3 ltac:(lia)). lia. }
  clear Hge Hbase.
  set (a := base + randint ((- base) / 5) (base / 5) r2) in *. clearbody a.
  set (b := base + randint ((- base) / 5) (base / 5) r3) in *. clearbody b.
  destruct (three_digits_not_standard a b) as (sutra & c & p & why & E & Hstd).
  { apply small_range. lia. }
  { apply small_range. lia. }
  { left. lia. }
  exists sutra, c, p, why. split; [exact E | ]. split; [ | exact Hstd].
  intros ->. apply nikhilam_inv in E.
  destruct E as (a_int & b_int & Ea & Eb & Hpos & Ha5 & _).
  cbn [Py.int] in Ea. assert (a_int = a) by congruence. subst a_int.
  destruct Hcases as [(_ & Ha & _) | (_ & Ha & _)].
  - rewrite (len_str_unique (Z.abs a) 3) in Ha5
      by (try lia; change (10 ^ (3 - 1)) with 100; change (10 ^ 3) with 1000; lia).
    change (10 ^ 3 / 10 ^ 15) with 0 in Ha5. change (10 ^ 3) with 1000 in Ha5. lia.
  - rewrite (len_str_unique (Z.abs a) 4) in Ha5
      by (try lia; change (10 ^ (4 - 1)) with 1000; change (10 ^ 4) with 10000; lia).
    change (10 ^ 4 / 10 ^ 15) with 0 in Ha5. change (10 ^ 4) with 10000 in Ha5. lia.
Qed.

Lemma nikhilam_test_cases_at_or_above_base_witness :
  exists sutra c p why,
    _analyze_pattern (PyInt (fst (test_case "nikhilam" 0 25 18)))
                     (PyInt (snd (test_case "nikhilam" 0 25 18)))
    = Return (sutra, c, p, why) /\
    sutra <> Nikhilam /\ sutra <> Standard_Arithmetic.
Proof.
  apply (nikhilam_test_cases_at_or_above_base 0 25 18).
  apply Z.leb_le. reflexivity.
Defined.

(** ** The benchmark and dataset loops *)

Lemma fold_add_ones (A : Type) (l : list A) (acc : Z) :
  fold_left Z.add (map (fun _ => 1) l) acc = acc + Z.of_nat (List.length l).
Proof.
  revert acc. induction l as [ | x l IH]; intros acc; cbn [map fold_left List.length].
  - lia.
  - rewrite IH. lia.
Qed.

Lemma vedic_count_cons (r : OperationRecord) (rs : list OperationRecord) :
  vedic_count (r :: rs)
  = (if negb (String.eqb (selected_algorithm r) Standard_Arithmetic) then 1 else 0)
    + vedic_count rs.
Proof.
  unfold vedic_count. cbn [filter].
  destruct (negb _); cbn [map fold_left]; rewrite !fold_add_ones; lia.
Qed.

Lemma vedic_count_bounds (rs : list OperationRecord) :
  0 <= vedic_count rs <= Z.of_nat (List.length rs).
Proof.
  induction rs as [ | r rs IH]; [cbn; lia | ].
  rewrite vedic_count_cons. cbn [List.length]. destruct (negb _); lia.
Qed.

Lemma generate_dataset_loop_spec (self : VedicMathEngine)
    (draws : list (pynum * pynum * float)) (dataset0 : list DatasetRow) (v0 : Z)
    (dataset : list DatasetRow) (v : Z) :
  generate_dataset_loop self draws dataset0 v0 = Return (dataset, v) ->
  exists results,
    run_benchmark_loop self draws = Return results /\
    map sutra_used dataset = map sutra_used dataset0 ++ map selected_algorithm results /\
    map row_result dataset = map row_result dataset0 ++ map result results /\
    v = v0 + vedic_count results /\
    List.length dataset = (List.length dataset0 + List.length draws)%nat.
Proof.
  revert dataset0 v0. induction draws as [ | [[a b] variance] rest IH]; intros dataset0 v0.
  - cbn [generate_dataset_loop run_benchmark_loop]. intros H.
    assert (dataset = dataset0 /\ v = v0) as [-> ->] by (split; congruence).
    exists []. cbn [map List.length]. rewrite !app_nil_r.
    repeat split; try reflexivity; try lia. cbn. lia.
  - cbn [generate_dataset_loop run_benchmark_loop].
    destruct (_simulate_vedic_operation self variance a b "multiply") as [r | ];
      [ | discriminate].
    cbn [bind]. intros H. apply IH in H.
    destruct H as (results & -> & Hs & Hr & Hv & Hl).
    cbn [bind]. exists (r :: results). split; [reflexivity | ].
    rewrite map_app in Hs, Hr. cbn [map sutra_used row_result] in Hs, Hr.
    rewrite <- app_assoc in Hs, Hr. cbn [app] in Hs, Hr.
    split; [exact Hs | ]. split; [exact Hr | ].
    rewrite vedic_count_cons. rewrite length_app in Hl. cbn [List.length] in Hl |- *.
    split; [ | lia]. destruct (negb _); lia.
Qed.

(** X10.  [generate_dataset] and [run_benchmark] count the Vedic methods in two
    different ways -- an accumulator in the loop, a sum over the results -- and
    on the same test cases they agree.  The dataset has one row per test case,
    in order, with the sutra and the result of the corresponding operation, and
    the number of Vedic methods lies between 0 and the number of rows. *)
Theorem dataset_counts_agree_with_benchmark (self : VedicMathEngine)
    (draws : list (pynum * pynum * float)) (dataset : list DatasetRow) (v : Z) :
  generate_dataset_loop self draws [] 0 = Return (dataset, v) ->
  exists results,
    run_benchmark_loop self draws = Return results /\
    map sutra_used dataset = map selected_algorithm results /\
    map row_result dataset = map result results /\
    v = vedic_count results /\
    List.length dataset = List.length draws /\
    0 <= v <= Z.of_nat (List.length dataset).
Proof.
  intros H. apply generate_dataset_loop_spec in H.
  destruct H as (results & E & Hs & Hr & Hv & Hl).
  exists results. cbn [map app List.length] in Hs, Hr, Hl.
  split; [exact E | ]. split; [exact Hs | ]. split; [exact Hr | ].
  split; [lia | ]. split; [exact Hl | ].
  pose proof (vedic_count_bounds results) as Hb.
  destruct (run_benchmark_loop_ids draws self results E) as [Hlen _]. lia.
Qed.

Lemma dataset_counts_agree_with_benchmark_witness :
  exists dataset v results,
    generate_dataset_loop engine0
      [(PyInt 25, PyInt 25, f1_0); (PyInt 12, PyInt 13, f1_0);
       (PyInt 98, PyInt 97, f1_0)] [] 0 = Return (dataset, v) /\
    v = 2 /\
    run_benchmark_loop engine0
      [(PyInt 25, PyInt 25, f1_0); (PyInt 12, PyInt 13, f1_0);
       (PyInt 98, PyInt 97, f1_0)] = Return results /\
    map sutra_used dataset = map selected_algorithm results /\
    map row_result dataset = map result results /\
    v = vedic_count results /\
    List.length dataset = 3%nat /\
    0 <= v <= Z.of_nat (List.length dataset).
Proof.
  destruct (generate_dataset_loop engine0
      [(PyInt 25, PyInt 25, f1_0); (PyInt 12, PyInt 13, f1_0);
       (PyInt 98, PyInt 97, f1_0)] [] 0) as [[dataset v] | ] eqn:E;
    [ | vm_compute in E; discriminate E].
  exists dataset, v.
  destruct (dataset_counts_agree_with_benchmark engine0 _ dataset v E)
    as (results & Er & H1 & H2 & H3 & H4 & H5).
  exists results. split; [reflexivity | ].
  split; [vm_compute in E; congruence | ]. auto 10.
Defined.

(** ** Conversions and arithmetic on operands in range *)
Lemma round_int_le (s : bool) (k my : positive) (ey : Z) :
  bounded prec emax my ey = true ->
  Z.pos k * 2 ^ 1074 <= Z.pos my * 2 ^ (ey + 1074) ->
  exists mx ex,
    binary_round prec emax s k 0 = S754_finite s mx ex /\
    bounded prec emax mx ex = true /\
    Z.pos mx * 2 ^ (ex + 1074) <= Z.pos my * 2 ^ (ey + 1074) /\
    1 <= Z.pos (digits2_pos mx) + ex.
Proof.
  intros Hby Hle.
  destruct (bounded_facts my ey Hby) as (Hey & Hmy & Hdy).
  destruct (binary_round_spec s k 0) as (m2 & -> & Hm2 & Hnorm & Hsmall & Hbig).
  set (d := Z.pos (digits2_pos k)) in *.
  pose proof (digits2_pos_bounds k) as [Hklo Hkhi]. fold d in Hklo, Hkhi.
  assert (Hd : 1 <= d) by (unfold d; lia).
  rewrite fexp_eq in *. rewrite Z.add_0_r in *.
  replace (Z.max (d - 53) (-1074)) with (d - 53) in * by lia.
  assert (Hm2pos : 2 ^ 52 <= m2) by (destruct Hnorm; lia).
  assert (Hgoal : m2 * 2 ^ (d - 53 + 1074) <= Z.pos my * 2 ^ (ey + 1074)).
  { destruct (Z.le_gt_cases (d - 53) 0) as [Hc | Hc].
    - rewrite (Hsmall Hc). rewrite <- Z.mul_assoc, <- Z.pow_add_r by lia.
      replace (0 - (d - 53) + (d - 53 + 1074)) with 1074 by lia. exact Hle.
    - destruct (Hbig ltac:(lia)) as [Hb Hex].
      rewrite Z.sub_0_r in Hb, Hex.
      pose proof (pow2_pos (d - 53) ltac:(lia)) as Hpn.
      assert (Hey1 : d - 53 <= ey).
      { assert (Hlt : 2 ^ (d - 1 + 1074) < 2 ^ (53 + (ey + 1074))).
        { rewrite (Z.pow_add_r 2 53) by lia. rewrite (Z.pow_add_r 2 (d - 1)) by lia.
          pose proof (pow2_pos 1074 ltac:(lia)). pose proof (pow2_pos (ey + 1074) ltac:(lia)).
          nia. }
        apply pow2_lt_inv in Hlt; lia. }
      set (kk := Z.pos my * 2 ^ (ey - (d - 53))).
      assert (Hkk : Z.pos my * 2 ^ (ey + 1074) = kk * 2 ^ (d - 53 + 1074)).
      { unfold kk. rewrite <- Z.mul_assoc, <- Z.pow_add_r by lia. f_equal. f_equal. lia. }
      assert (Hkle : Z.pos k <= kk * 2 ^ (d - 53)).
      { rewrite Hkk in Hle. rewrite (Z.pow_add_r 2 (d - 53)) in Hle by lia.
        pose proof (pow2_pos 1074 ltac:(lia)). nia. }
      assert (Hm1 : Z.pos k / 2 ^ (d - 53) <= kk).
      { apply Z.div_le_upper_bound; [lia | ]. rewrite Z.mul_comm. exact Hkle. }
      assert (Hm2k : m2 <= kk).
      { destruct (Z.eq_dec (Z.pos k / 2 ^ (d - 53)) kk) as [Heq | Hne]; [ | lia].
        pose proof (Z.mul_div_le (Z.pos k) (2 ^ (d - 53)) Hpn) as Hmd.
        rewrite Heq in Hmd.
        assert (Hkeq : Z.pos k = kk * 2 ^ (d - 53)) by lia.
        rewrite Hex; [lia | ]. rewrite Hkeq. apply Z.mod_mul. lia. }
      rewrite Hkk. apply Z.mul_le_mono_nonneg_r; [ | exact Hm2k].
      apply Z.lt_le_incl, pow2_pos. lia. }
  destruct (canon_finite s m2 (d - 53) ltac:(lia) Hnorm ltac:(lia))
    as [(m' & e' & -> & Hbd & He' & Hval) | (_ & Hov)].
  - exists m', e'. split; [reflexivity | ]. split; [exact Hbd | ].
    assert (Hscaled : Z.pos m' * 2 ^ (e' + 1074) = m2 * 2 ^ (d - 53 + 1074)).
    { rewrite <- Hval. rewrite <- Z.mul_assoc, <- Z.pow_add_r by lia.
      f_equal. f_equal. lia. }
    split; [lia | ].
    apply bounded_spec in Hbd. destruct Hbd as [Hc _]. lia.
  - exfalso.
    pose proof (pow2_pos (ey + 1074) ltac:(lia)) as HA.
    assert (HAB : 2 ^ (ey + 1074) <= 2 ^ (d - 53 + 1074))
      by (apply Z.pow_le_mono_r; lia).
    assert (HAB2 : 971 < d - 53 -> 2 * 2 ^ (ey + 1074) <= 2 ^ (d - 53 + 1074)).
    { intros Hlt. rewrite <- Z.pow_succ_r by lia. apply Z.pow_le_mono_r; lia. }
    set (A := 2 ^ (ey + 1074)) in *. set (B := 2 ^ (d - 53 + 1074)) in *.
    clearbody A B.
    assert (H52 : 2 ^ 53 = 2 * 2 ^ 52) by reflexivity.
    set (P := 2 ^ 52) in *. clearbody P. rewrite H52 in *.
    destruct Hov as [Hov | [Hov1 Hov2]].
    + specialize (HAB2 Hov).
      assert (P * (2 * A) <= m2 * B) by (apply Z.mul_le_mono_nonneg; lia).
      assert (Z.pos my * A < 2 * P * A) by (apply Z.mul_lt_mono_pos_r; lia).
      lia.
    + assert (2 * P * A <= m2 * B) by (rewrite Hov1; apply Z.mul_le_mono_nonneg; lia).
      assert (Z.pos my * A < 2 * P * A) by (apply Z.mul_lt_mono_pos_r; lia).
      lia.
Qed.

Lemma to_float_in_range (x : pynum) :
  in_range x = true ->
  exists f, Py.to_float x = Return f /\ finite_or_zero f = true /\
            is_zero f = Py.eqb x (PyInt 0).
Proof.
  intros H. destruct (in_range_inv x H) as (z & Ez & Hz).
  destruct x as [y | f]; cbn [Py.int Py.to_float Py.eqb] in *.
  - assert (y = z) by congruence. subst y.
    assert (Hmax : 10 ^ 307 * 2 ^ 1074 <= 9007199254740991 * 2 ^ (971 + 1074)).
    { rewrite (Z.pow_add_r 2 971 1074) by lia. rewrite Z.mul_assoc.
      apply Z.mul_le_mono_nonneg_r; [apply Z.pow_nonneg; lia | ].
      apply Z.leb_le. vm_compute. reflexivity. }
    assert (Hk : forall k : positive, Z.pos k < 10 ^ 307 ->
              Z.pos k * 2 ^ 1074 <= 9007199254740991 * 2 ^ (971 + 1074)).
    { intros k Hlt. set (P := 2 ^ 1074) in *.
      assert (HP : 0 <= P) by (apply Z.pow_nonneg; lia).
      set (B := 10 ^ 307) in *. set (M := 9007199254740991 * 2 ^ (971 + 1074)) in *.
      clearbody P B M.
      assert (Z.pos k * P <= B * P) by (apply Z.mul_le_mono_nonneg_r; lia). lia. }
    unfold of_int, binary_normalize. destruct z as [ | k | k].
    + eexists. split; [reflexivity | ]. split; reflexivity.
    + destruct (round_int_le false k 9007199254740991 971 eq_refl (Hk k ltac:(lia)))
        as (mx & ex & -> & _).
      eexists. split; [reflexivity | ]. split; reflexivity.
    + destruct (round_int_le true k 9007199254740991 971 eq_refl (Hk k ltac:(lia)))
        as (mx & ex & -> & _).
      eexists. split; [reflexivity | ]. split; reflexivity.
  - exists f. split; [reflexivity | ].
    destruct f as [s | s | | s m e]; try discriminate.
    + split; reflexivity.
    + split; [reflexivity | ].
      unfold is_zero, Float64.Zeqb, Float64.Zcompare.
      destruct (0 <=? e) eqn:He.
      * apply Z.leb_le in He. pose proof (pow2_pos e He) as Hp.
        destruct s; cbn [cond_Zopp].
        -- destruct (Z.compare_spec 0 (- Z.pos m * 2 ^ e)); try reflexivity. nia.
        -- destruct (Z.compare_spec 0 (Z.pos m * 2 ^ e)); try reflexivity. nia.
      * rewrite Z.mul_0_l. destruct s; reflexivity.
Qed.

Lemma arith_in_range (zop : Z -> Z -> Z) (fop : float -> float -> float)
    (a b : pynum) :
  in_range a = true -> in_range b = true ->
  exists res, Py.arith zop fop a b = Return res.
Proof.
  intros Ha Hb.
  destruct (to_float_in_range a Ha) as (f & Ef & _).
  destruct (to_float_in_range b Hb) as (g & Eg & _).
  unfold Py.arith. destruct a as [x | fa], b as [y | gb]; try (eexists; reflexivity);
    rewrite Ef, Eg; cbn [bind]; eexists; reflexivity.
Qed.

Lemma calculate_result_in_range (a b : pynum) (operation : string) :
  in_range a = true -> in_range b = true ->
  exists res, calculate_result a b operation = Return res.
Proof.
  intros Ha Hb. unfold calculate_result.
  destruct (String.eqb operation "multiply"); [apply arith_in_range; assumption | ].
  destruct (String.eqb operation "divide").
  - unfold Py.neqb. destruct (Py.eqb b (PyInt 0)) eqn:Eb0; cbn [negb]; [eauto | ].
    destruct (to_float_in_range a Ha) as (f & Ef & _).
    destruct (to_float_in_range b Hb) as (g & Eg & _ & Hz).
    rewrite Eb0 in Hz.
    unfold Py.truediv. destruct a as [x | fa], b as [y | gb].
    + cbn [Py.eqb] in Eb0. apply Z.eqb_neq in Eb0.
      destruct (in_range_inv _ Ha) as (x' & Ex & Hx).
      destruct (in_range_inv _ Hb) as (y' & Ey & Hy).
      cbn [Py.int] in Ex, Ey.
      assert (x' = x) by congruence. assert (y' = y) by congruence. subst x' y'.
      destruct (Z.eq_dec x 0) as [-> | Hx0].
      * unfold int_true_div.
        replace (y =? 0) with false by (symmetry; apply Z.eqb_neq; exact Eb0).
        cbn [Z.eqb bind]. eauto.
      * destruct (int_true_div_returns x y Hx0 Eb0 Hx Hy) as (m & e & -> & _).
        cbn [bind]. eauto.
    + rewrite Ef, Eg. cbn [bind]. rewrite Hz. eauto.
    + rewrite Ef, Eg. cbn [bind]. rewrite Hz. eauto.
    + rewrite Ef, Eg. cbn [bind]. rewrite Hz. eauto.
  - destruct (String.eqb operation "add"); [apply arith_in_range; assumption | ].
    destruct (String.eqb operation "subtract"); apply arith_in_range; assumption.
Qed.

(** ** The endpoints and the dispatcher *)


(** With a response model that rejects the record, one request takes the number
    of active operations from 0 to -1. *)
Example calculate_double_decrement :
  calculate (fun _ _ => false) engine0 f1_0 (Return status0)
    {| operand_a := PyInt 3; operand_b := PyInt 4; operation := "add" |}
  = (Raise (HTTPException 500),
     {| operation_counter := 1; active_operations := -1 |}).
Proof. vm_compute. reflexivity. Qed.

(** X12.  The size check of the matrix handler can never answer with its status
    400.  A request that passed the validation of [MatrixRequest] never has a
    size above 200, so the check is not reached through the endpoint; and for a
    request built past the validation, the [HTTPException(400)] is raised inside
    the [try] and caught by its [except Exception]: like every failure of the
    handler it leaves as [HTTPException(500)]. *)
Theorem matrix_handler_never_answers_400
    (float_pow : float -> float -> outcome float) :
  (forall n vedic request,
     MatrixRequest_new n vedic = Return request ->
     matrix_multiply_try float_pow request
     = simulate_matrix_operation float_pow n vedic) /\
  (forall request,
     200 < size request ->
     matrix_multiply_try float_pow request = Raise (HTTPException 400) /\
     matrix_multiply float_pow request = Raise (HTTPException 500)) /\
  (forall request e,
     matrix_multiply float_pow request = Raise e -> e = HTTPException 500) /\
  (forall n vedic e,
     post_matrix float_pow n vedic = Raise e ->
     e = ValidationError \/ e = HTTPException 500).
Proof.
  split; [ | split; [ | split]].
  - intros n vedic request. unfold MatrixRequest_new, matrix_multiply_try.
    destruct ((2 <=? n) && (n <=? 200)) eqn:Hn; [ | discriminate].
    intros H. injection H as <-. cbn [size use_vedic].
    apply andb_true_iff in Hn. destruct Hn as [_ Hn]. apply Z.leb_le in Hn.
    replace (n >? 200) with false; [reflexivity | ].
    symmetry. rewrite Z.gtb_ltb. apply Z.ltb_ge. exact Hn.
  - intros request H. unfold matrix_multiply, matrix_multiply_try.
    replace (size request >? 200) with true; [split; reflexivity | ].
    symmetry. rewrite Z.gtb_ltb. apply Z.ltb_lt. exact H.
  - intros request e. unfold matrix_multiply, except_500.
    destruct (matrix_multiply_try float_pow request); [discriminate | congruence].
  - intros n vedic e. unfold post_matrix.
    destruct (MatrixRequest_new n vedic) as [request | e0] eqn:E; cbn [bind].
    + unfold matrix_multiply, except_500.
      destruct (matrix_multiply_try float_pow request); [discriminate | ].
      intros H. right. congruence.
    + unfold MatrixRequest_new in E.
      destruct ((2 <=? n) && (n <=? 200)); [discriminate | ].
      intros H. left. congruence.
Qed.

(** X13.  Within 307 digits, [divide] on integers always returns a float, also when
    the quotient is an integer, and that float is the sentinel [inf] exactly
    when the divisor is zero: a non-zero divisor never produces it. *)
Theorem divide_is_inf_only_for_zero_divisor (self : VedicMathEngine)
    (variance : float) (a b : Z) :
  Z.abs a < 10 ^ 307 -> Z.abs b < 10 ^ 307 ->
  exists r f,
    _simulate_vedic_operation self variance (PyInt a) (PyInt b) "divide" = Return r /\
    result r = PyFloat f /\
    (f = inf <-> b = 0).
Proof.
  intros Ha Hb.
  assert (Hres : exists f,
    calculate_result (PyInt a) (PyInt b) "divide" = Return (PyFloat f) /\
    (f = inf <-> b = 0)).
  { unfold calculate_result. cbn [String.eqb Ascii.eqb Bool.eqb].
    unfold Py.neqb, Py.eqb.
    destruct (Z.eqb_spec b 0) as [-> | Hb0]; cbn [negb].
    - exists inf. split; [reflexivity | tauto].
    - unfold Py.truediv.
      destruct (Z.eq_dec a 0) as [-> | Ha0].
      + unfold int_true_div.
        replace (b =? 0) with false by (symmetry; apply Z.eqb_neq; exact Hb0).
        cbn [Z.eqb bind]. eexists. split; [reflexivity | ].
        split; [discriminate | intros; contradiction].
      + destruct (int_true_div_returns a b Ha0 Hb0 Ha Hb) as (m & e & -> & _).
        cbn [bind]. eexists. split; [reflexivity | ].
        split; [discriminate | intros; contradiction]. }
  destruct Hres as (f & Eres & Hf).
  destruct (simulate_returns self variance (PyInt a) (PyInt b) "divide" (PyFloat f)
              (in_range_int a Ha) (in_range_int b Hb) Eres) as (r & Er & Hr & _).
  exists r, f. auto.
Qed.

Lemma divide_is_inf_only_for_zero_divisor_witness :
  exists r f,
    _simulate_vedic_operation engine0 f1_0 (PyInt 6) (PyInt 3) "divide" = Return r /\
    result r = PyFloat f /\
    (f = inf <-> 3 = 0).
Proof.
  apply (divide_is_inf_only_for_zero_divisor engine0 f1_0 6 3); reflexivity.
Defined.

Lemma py_mul_comm (a b : pynum) : Py.mul a b = Py.mul b a.
Proof.
  unfold Py.mul, Py.arith.
  destruct a as [x | f], b as [y | g]; cbn [Py.to_float].
  - rewrite Z.mul_comm. reflexivity.
  - destruct (of_int x); cbn [bind]; [rewrite fmul_comm | ]; reflexivity.
  - destruct (of_int y); cbn [bind]; [rewrite fmul_comm | ]; reflexivity.
  - cbn [bind]. rewrite fmul_comm. reflexivity.
Qed.

(** X14.  Swapping the operands of a multiplication.  Whenever both orders return
    a record the results are equal, for integers and floats alike; on operands
    in range both orders do return.  The sutra can differ, since the classifier
    takes its base from the first operand ([98 * 103] is Nikhilam, [103 * 98]
    is Urdhva-Tiryagbhyam), and out of range one order can fail where the
    other returns ([10^400 * 5] raises, [5 * 10^400] returns). *)
Theorem multiply_result_symmetric (self : VedicMathEngine) (v1 v2 : float)
    (a b : pynum) :
  (forall r1 r2,
     _simulate_vedic_operation self v1 a b "multiply" = Return r1 ->
     _simulate_vedic_operation self v2 b a "multiply" = Return r2 ->
     result r1 = result r2) /\
  (in_range a = true -> in_range b = true ->
   exists r1 r2,
     _simulate_vedic_operation self v1 a b "multiply" = Return r1 /\
     _simulate_vedic_operation self v2 b a "multiply" = Return r2 /\
     result r1 = result r2) /\
  (_simulate_vedic_operation self v1 (PyInt (10 ^ 400)) (PyInt 5) "multiply"
   = Raise OverflowError /\
   exists r,
     _simulate_vedic_operation self v2 (PyInt 5) (PyInt (10 ^ 400)) "multiply"
     = Return r /\ result r = PyInt (5 * 10 ^ 400)).
Proof.
  assert (Heq : forall r1 r2,
    _simulate_vedic_operation self v1 a b "multiply" = Return r1 ->
    _simulate_vedic_operation self v2 b a "multiply" = Return r2 ->
    result r1 = result r2).
  { intros r1 r2 E1 E2. apply simulate_inv in E1, E2.
    destruct E1 as (s1 & c1 & p1 & w1 & res1 & _ & R1 & ->).
    destruct E2 as (s2 & c2 & p2 & w2 & res2 & _ & R2 & ->).
    cbn [result]. unfold calculate_result in R1, R2.
    cbn [String.eqb Ascii.eqb Bool.eqb] in R1, R2.
    rewrite py_mul_comm in R1. congruence. }
  split; [exact Heq | ]. split.
  - intros Ha Hb.
    destruct (calculate_result_in_range a b "multiply" Ha Hb) as (res1 & E1).
    destruct (calculate_result_in_range b a "multiply" Hb Ha) as (res2 & E2).
    destruct (simulate_returns self v1 a b "multiply" res1 Ha Hb E1) as (r1 & Er1 & _).
    destruct (simulate_returns self v2 b a "multiply" res2 Hb Ha E2) as (r2 & Er2 & _).
    exists r1, r2. split; [exact Er1 | ]. split; [exact Er2 | ].
    apply (Heq r1 r2 Er1 Er2).
  - split.
    + rewrite simulate_eq.
      replace (_analyze_pattern (PyInt (10 ^ 400)) (PyInt 5)) with
        (@Raise pattern OverflowError) by (vm_compute; reflexivity).
      reflexivity.
    + rewrite simulate_eq.
      destruct (_analyze_pattern (PyInt 5) (PyInt (10 ^ 400)))
        as [[[[sutra c] p] why] | ] eqn:E; [ | vm_compute in E; discriminate E].
      cbn [bind]. eexists. split; [reflexivity | ]. cbn [result]. reflexivity.
Qed.

Lemma multiply_result_symmetric_witness :
  exists r1 r2,
    _simulate_vedic_operation engine0 f1_0 (PyInt 98) (PyInt 103) "multiply" = Return r1 /\
    _simulate_vedic_operation engine0 f1_0 (PyInt 103) (PyInt 98) "multiply" = Return r2 /\
    result r1 = result r2.
Proof.
  apply (multiply_result_symmetric engine0 f1_0 f1_0 (PyInt 98) (PyInt 103));
    reflexivity.
Defined.

(** The results agree, the sutras do not. *)
Example multiply_sutra_depends_on_order :
  exists r1 r2,
    _simulate_vedic_operation engine0 f1_0 (PyInt 98) (PyInt 103) "multiply" = Return r1 /\
    _simulate_vedic_operation engine0 f1_0 (PyInt 103) (PyInt 98) "multiply" = Return r2 /\
    selected_algorithm r1 = Nikhilam /\
    selected_algorithm r2 = Urdhva_Tiryagbhyam /\
    result r1 = PyInt 10094 /\ result r2 = PyInt 10094.
Proof.
  eexists _, _. split; [vm_compute; reflexivity | ].
  split; [vm_compute; reflexivity | ]. repeat split; reflexivity.
Qed.

(** ** The base and the range of the classifier *)

(** X15.  [base_a = 10 ** len(str(abs(a_int)))] is the least power of ten strictly
    above [|a_int|] (and 10 for zero): it exceeds the operand, by a factor of at
    most ten. *)
Theorem base_is_next_power_of_ten (a_int : Z) :
  1 <= Py.len_str (Z.abs a_int) /\
  Z.abs a_int < 10 ^ Py.len_str (Z.abs a_int) /\
  (a_int <> 0 -> 10 ^ Py.len_str (Z.abs a_int) <= 10 * Z.abs a_int) /\
  (forall k, 0 <= k -> Z.abs a_int < 10 ^ k -> a_int <> 0 ->
             10 ^ Py.len_str (Z.abs a_int) <= 10 ^ k).
Proof.
  destruct (len_str_spec (Z.abs a_int) (Z.abs_nonneg _)) as (H1 & Hlt & Hge).
  split; [exact H1 | ]. split; [exact Hlt | ]. split.
  - intros Hnz. specialize (Hge ltac:(lia)).
    replace (Py.len_str (Z.abs a_int)) with (1 + (Py.len_str (Z.abs a_int) - 1)) by lia.
    rewrite Z.pow_add_r by lia. change (10 ^ 1) with 10. lia.
  - intros k Hk Hak Hnz. specialize (Hge ltac:(lia)).
    apply Z.pow_le_mono_r; [lia | ].
    assert (Py.len_str (Z.abs a_int) - 1 < k); [ | lia].
    apply (Z.pow_lt_mono_r_iff 10); lia.
Qed.

Lemma pow10_overflows (k : Z) : 309 <= k -> of_int (10 ^ k) = Raise OverflowError.
Proof.
  intros Hk.
  assert (Hbig : 2 ^ 1024 <= 10 ^ k).
  { assert (H309 : 2 ^ 1024 <= 10 ^ 309) by (apply Z.leb_le; vm_compute; reflexivity).
    assert (10 ^ 309 <= 10 ^ k) by (apply Z.pow_le_mono_r; lia).
    set (P := 2 ^ 1024) in *. clearbody P. set (Q := 10 ^ 309) in *. clearbody Q. lia. }
  assert (Hpos : 0 < 10 ^ k) by (apply Z.pow_pos_nonneg; lia).
  destruct (10 ^ k) as [ | q | q]; try lia.
  apply of_int_overflow. exact Hbig.
Qed.

(** X16.  From 309 digits on, failure is the rule and not the exception: when the
    first operand has 309 digits or more and neither of the first two rules
    matches, [_analyze_pattern] always raises, whatever the second operand --
    [OverflowError] from [base_a * 0.2] up to 4300 digits, and beyond that
    [ValueError] from [str(abs(a_int))]. *)
Theorem classify_fails_from_309_digits (a b : Z) :
  10 ^ 308 <= Z.abs a ->
  rule1 (PyInt a) (PyInt b) a = false -> rule2 a b = false ->
  _analyze_pattern (PyInt a) (PyInt b)
  = Raise (if Py.len_str (Z.abs a) <=? 4300 then OverflowError else ValueError).
Proof.
  intros Ha H1 H2. unfold _analyze_pattern, Py.int. cbn [bind].
  fold (rule1 (PyInt a) (PyInt b) a). fold (rule2 a b). rewrite H1, H2.
  destruct (len_str_spec (Z.abs a) (Z.abs_nonneg _)) as (Hk1 & Hlt & _).
  assert (Hk : 309 <= Py.len_str (Z.abs a)).
  { assert (308 < Py.len_str (Z.abs a)); [ | lia].
    apply (Z.pow_lt_mono_r_iff 10); lia. }
  destruct (Z.leb_spec (Py.len_str (Z.abs a)) 4300) as [Hle | Hgt].
  - rewrite (str_len_small _ Hle). cbn [bind].
    unfold int_mul at 1. rewrite (pow10_overflows _ Hk). reflexivity.
  - unfold Py.str_len, Py.max_str_digits.
    replace (4300 <? Py.len_str (Z.abs a)) with true
      by (symmetry; apply Z.ltb_lt; exact Hgt).
    reflexivity.
Qed.

Lemma classify_fails_from_309_digits_witness :
  _analyze_pattern (PyInt (10 ^ 308 + 1)) (PyInt 7)
  = Raise (if Py.len_str (Z.abs (10 ^ 308 + 1)) <=? 4300
           then OverflowError else ValueError) /\
  (Py.len_str (Z.abs (10 ^ 308 + 1)) <=? 4300) = true.
Proof.
  split.
  - apply (classify_fails_from_309_digits (10 ^ 308 + 1) 7).
    + apply Z.leb_le. vm_compute. reflexivity.
    + vm_compute. reflexivity.
    + vm_compute. reflexivity.
  - vm_compute. reflexivity.
Defined.

(** X17.  Up to 23 digits the third rule is exactly the 20% test on integers:
    Nikhilam is returned if and only if the first two rules do not match and
    both operands are strictly within a fifth of [base_a]. *)
Theorem nikhilam_iff_within_a_fifth (a b : Z) :
  Py.len_str (Z.abs a) <= 23 ->
  (exists c p why, _analyze_pattern (PyInt a) (PyInt b) = Return (Nikhilam, c, p, why))
  <->
  (rule1 (PyInt a) (PyInt b) a = false /\ rule2 a b = false /\
   5 * Z.abs (a - 10 ^ Py.len_str (Z.abs a)) < 10 ^ Py.len_str (Z.abs a) /\
   5 * Z.abs (b - 10 ^ Py.len_str (Z.abs a)) < 10 ^ Py.len_str (Z.abs a)).
Proof.
  intros Hk.
  destruct (len_str_spec (Z.abs a) (Z.abs_nonneg _)) as (Hk1 & _ & _).
  destruct (threshold_exact (Py.len_str (Z.abs a)) (conj Hk1 Hk)) as (thr & Ethr & Hthr).
  split.
  - intros (c & p & why & E). apply analyze_pattern_inv in E.
    destruct E as (a_int & b_int & Ea & Eb & H). cbn [Py.int] in Ea, Eb.
    assert (a_int = a) by congruence. assert (b_int = b) by congruence. subst a_int b_int.
    destruct H as [H | [H | [H | [H | H]]]];
      [destruct H as (_ & Hs & _) | destruct H as (H1 & H2 & Hs & H) ..];
      try (sutra_names; discriminate Hs).
    destruct H as (_ & thr' & Ethr' & Ha & Hb).
    assert (thr' = thr) by congruence. subst thr'.
    split; [exact H1 | ]. split; [exact H2 | ].
    split; apply Hthr; assumption.
  - intros (H1 & H2 & Ha & Hb).
    destruct (nikhilam_classification a b thr H1 H2 ltac:(lia) Ethr
                ltac:(apply Hthr; exact Ha) ltac:(apply Hthr; exact Hb))
      as (c & p & E & _).
    exists c, p, "Numbers close to same power of 10"%string. exact E.
Qed.

Lemma nikhilam_iff_within_a_fifth_witness :
  (exists c p why, _analyze_pattern (PyInt 9800) (PyInt 11999)
                   = Return (Nikhilam, c, p, why))
  <->
  (rule1 (PyInt 9800) (PyInt 11999) 9800 = false /\ rule2 9800 11999 = false /\
   5 * Z.abs (9800 - 10 ^ Py.len_str (Z.abs 9800)) < 10 ^ Py.len_str (Z.abs 9800) /\
   5 * Z.abs (11999 - 10 ^ Py.len_str (Z.abs 9800)) < 10 ^ Py.len_str (Z.abs 9800)).
Proof.
  apply (nikhilam_iff_within_a_fifth 9800 11999). apply Z.leb_le. reflexivity.
Defined.

Lemma Zltb_zero_positive (m : positive) (e : Z) :
  Float64.Zltb 0 (S754_finite false m e) = true.
Proof.
  unfold Float64.Zltb, Float64.Zcompare, cond_Zopp.
  destruct (Z.leb_spec 0 e) as [He | He].
  - pose proof (pow2_pos e He).
    destruct (Z.compare_spec 0 (Z.pos m * 2 ^ e)); try reflexivity; lia.
  - rewrite Z.mul_0_l. reflexivity.
Qed.

(** X18.  The first rule tests equality on the operands but the last digit on their
    integer parts: squaring any positive float whose integer part ends in 5 --
    25.5, say -- is classified Ekadhikena Purvena with confidence [0.95]. *)
Theorem squaring_rule_truncates_floats (m : positive) (e n : Z) :
  trunc (S754_finite false m e) = Return n -> n mod 10 = 5 ->
  _analyze_pattern (PyFloat (S754_finite false m e)) (PyFloat (S754_finite false m e))
  = Return (Ekadhikena_Purvena, f0_95, f3_2,
            "Perfect squaring pattern: number ending in 5"%string).
Proof.
  intros Htr Hmod. unfold _analyze_pattern, Py.int. rewrite Htr. cbn [bind].
  unfold Py.eqb, Py.gtb, Py.ltb.
  rewrite feqb_refl, Hmod, Zltb_zero_positive. reflexivity.
Qed.

Lemma squaring_rule_truncates_floats_witness :
  _analyze_pattern (PyFloat (S754_finite false 51 (-1))) (PyFloat (S754_finite false 51 (-1)))
  = Return (Ekadhikena_Purvena, f0_95, f3_2,
            "Perfect squaring pattern: number ending in 5"%string).
Proof.
  apply (squaring_rule_truncates_floats 51 (-1) 25); reflexivity.
Defined.

(** ** The matrix estimate: throughput and fields *)

Lemma standard_throughput_table (float_pow : float -> float -> outcome float) :
  forallb (standard_throughput_ok float_pow) (map Z.of_nat (seq 2 199)) = true.
Proof. vm_compute. reflexivity. Qed.

Lemma matrix_standard_response (float_pow : float -> float -> outcome float) (n : Z) :
  2 <= n <= 200 ->
  exists r q,
    simulate_matrix_operation float_pow n false = Return r /\
    operations_per_second r = PyFloat q /\
    Float64.Zltb 999999999 q = true /\ Float64.Zgtb 1000000001 q = true /\
    Float64.Zltb 0 (execution_time_ms r) = true /\ m_size r = n.
Proof.
  intros Hs. pose proof (standard_throughput_table float_pow) as H.
  rewrite forallb_forall in H.
  assert (Hin : In n (map Z.of_nat (seq 2 199))).
  { apply in_map_iff. exists (Z.to_nat n). split; [lia | ]. apply in_seq. lia. }
  specialize (H n Hin). unfold standard_throughput_ok in H.
  destruct (simulate_matrix_operation float_pow n false) as [r | ]; [ | discriminate].
  destruct (operations_per_second r) as [z | q] eqn:Eq; [discriminate | ].
  rewrite !andb_true_iff in H. destruct H as [[[H1 H2] H3] H4].
  apply Z.eqb_eq in H4. exists r, q. auto 10.
Qed.

Lemma standard_throughput_ulp_table (float_pow : float -> float -> outcome float) :
  forallb (standard_throughput_ulp_ok float_pow) (map Z.of_nat (seq 2 199)) = true.
Proof. vm_compute. reflexivity. Qed.

(** X19.  On the standard path the reported throughput is [10^9] operations per
    second up to two units in the last place, at every valid size: the time is
    [0.001 * size^3 / 1000] ms, and [operations_per_second] comes out as
    [m * 2^-23] with [m] at most two below and one above [10^9 * 2^23].  It is
    not the same double at every size: sizes 3, 2, 7 and 41 give four
    different ones. *)
Theorem standard_matrix_throughput_near_1e9
    (float_pow : float -> float -> outcome float) (n : Z) :
  2 <= n <= 200 ->
  exists r m,
    post_matrix float_pow n false = Return r /\
    operations_per_second r = PyFloat (S754_finite false m (-23)) /\
    10 ^ 9 * 2 ^ 23 - 2 <= Z.pos m <= 10 ^ 9 * 2 ^ 23 + 1.
Proof.
  intros Hs.
  destruct (matrix_standard_response float_pow n Hs) as (r & q & E & Hq & _).
  pose proof (standard_throughput_ulp_table float_pow) as Ht.
  rewrite forallb_forall in Ht.
  assert (Hin : In n (map Z.of_nat (seq 2 199))).
  { apply in_map_iff. exists (Z.to_nat n). split; [lia | ]. apply in_seq. lia. }
  specialize (Ht n Hin). unfold standard_throughput_ulp_ok in Ht.
  rewrite E, Hq in Ht.
  destruct q as [ | | | [ | ] m e]; try discriminate.
  rewrite !andb_true_iff in Ht. destruct Ht as [[He Hlo] Hhi].
  apply Z.eqb_eq in He. apply Z.leb_le in Hlo, Hhi. subst e.
  exists r, m. split; [apply post_matrix_valid; assumption | ].
  split; [exact Hq | ].
  change (10 ^ 9 * 2 ^ 23) with 8388608000000000. lia.
Qed.

Lemma standard_matrix_throughput_near_1e9_witness :
  exists r m,
    post_matrix pow_model 7 false = Return r /\
    operations_per_second r = PyFloat (S754_finite false m (-23)) /\
    10 ^ 9 * 2 ^ 23 - 2 <= Z.pos m <= 10 ^ 9 * 2 ^ 23 + 1.
Proof.
  apply (standard_matrix_throughput_near_1e9 pow_model 7). lia.
Defined.

(** The four values occur. *)
Example standard_matrix_throughput_varies :
  (exists r, post_matrix pow_model 3 false = Return r /\
             operations_per_second r = PyFloat f1e9) /\
  (exists r, post_matrix pow_model 2 false = Return r /\
             operations_per_second r = PyFloat f1e9_succ) /\
  (exists r, post_matrix pow_model 7 false = Return r /\
             operations_per_second r = PyFloat f1e9_pred) /\
  (exists r, post_matrix pow_model 41 false = Return r /\
             operations_per_second r
             = PyFloat (S754_finite false 8388607999999998 (-23))).
Proof.
  repeat split; eexists; (split; [vm_compute; reflexivity | reflexivity]).
Qed.

Lemma matrix_vedic_response (float_pow : float -> float -> outcome float) (n : Z) :
  pow_sane float_pow -> 2 <= n <= 200 ->
  exists r q,
    simulate_matrix_operation float_pow n true = Return r /\
    operations_per_second r = PyFloat q /\
    Float64.Zltb 0 (execution_time_ms r) = true /\
    m_size r = n /\
    n ^ 2 <= vedic_operations_used r <= 1980 * n ^ 2.
Proof.
  intros Hpow Hs. unfold simulate_matrix_operation.
  assert (Hsq : 0 <= n ^ 2) by (apply Z.pow_nonneg; lia).
  assert (Ht : exists t vedic_ops,
    (if n <=? 25 then
       t <- power_law float_pow f0_06 n 10 ;; Return (t, n ^ 2)
     else if n <=? 50 then
       t <- power_law float_pow f0_90 n 25 ;; Return (t, n ^ 2 * 15)
     else if n <=? 100 then
       t <- power_law float_pow f8_27 n 50 ;; Return (t, n ^ 2 * 200)
     else
       t <- power_law float_pow f189_84 n 100 ;; Return (t, n ^ 2 * 1980))
    = Return (t, vedic_ops) /\ normalb (-75) (-31) t = true /\
    n ^ 2 <= vedic_ops <= 1980 * n ^ 2).
  { pose proof (power_law_normal float_pow f0_06 n Hpow Hs eq_refl) as H1.
    pose proof (power_law_normal float_pow f0_90 n Hpow Hs eq_refl) as H2.
    pose proof (power_law_normal float_pow f8_27 n Hpow Hs eq_refl) as H3.
    pose proof (power_law_normal float_pow f189_84 n Hpow Hs eq_refl) as H4.
    unfold matrix_reference in H1, H2, H3, H4.
    set (sq := n ^ 2) in *. clearbody sq.
    destruct (n <=? 25).
    { destruct H1 as (t & -> & Hn). cbn [bind]. exists t, sq.
      split; [reflexivity | ]. split; [exact Hn | lia]. }
    destruct (n <=? 50).
    { destruct H2 as (t & -> & Hn). cbn [bind]. exists t, (sq * 15).
      split; [reflexivity | ]. split; [exact Hn | lia]. }
    destruct (n <=? 100).
    { destruct H3 as (t & -> & Hn). cbn [bind]. exists t, (sq * 200).
      split; [reflexivity | ]. split; [exact Hn | lia]. }
    destruct H4 as (t & -> & Hn). cbn [bind]. exists t, (sq * 1980).
    split; [reflexivity | ]. split; [exact Hn | lia]. }
  destruct Ht as (t & vedic_ops & -> & Hn & Hv).
  cbn [bind].
  destruct (ops_per_sec_returns (n ^ 3) t (cube_small n Hs) Hn) as (q & ->).
  cbn [bind]. eexists _, q. split; [reflexivity | ].
  cbn [operations_per_second execution_time_ms m_size vedic_operations_used].
  split; [reflexivity | ]. split; [exact (Zltb_zero_normal _ _ t Hn) | ].
  split; [reflexivity | exact Hv].
Qed.

(** X20.  For every valid size and either strategy the estimate is a complete
    response: it echoes the size, its time is strictly positive, so the
    throughput is always the computed float and never the [else 0] fallback,
    and the number of Vedic operations is 0 on the standard path and between
    [size^2] and [1980 * size^2] on the Vedic path. *)
Theorem matrix_estimate_never_uses_fallback
    (float_pow : float -> float -> outcome float) (n : Z) (vedic : bool) :
  pow_sane float_pow -> 2 <= n <= 200 ->
  exists r q,
    post_matrix float_pow n vedic = Return r /\
    m_size r = n /\
    Float64.Zltb 0 (execution_time_ms r) = true /\
    operations_per_second r = PyFloat q /\
    (if vedic then n ^ 2 <= vedic_operations_used r <= 1980 * n ^ 2
     else vedic_operations_used r = 0).
Proof.
  intros Hpow Hs. destruct vedic.
  - destruct (matrix_vedic_response float_pow n Hpow Hs)
      as (r & q & E & Hq & Ht & Hn & Hv).
    exists r, q. split; [apply post_matrix_valid; assumption | auto].
  - destruct (matrix_standard_response float_pow n Hs)
      as (r & q & E & Hq & _ & _ & Ht & Hn).
    destruct (matrix_standard_returns float_pow n Hs) as (r' & E' & _ & _ & Hv).
    assert (r' = r) by congruence. subst r'.
    exists r, q. split; [apply post_matrix_valid; assumption | auto].
Qed.

Lemma matrix_estimate_never_uses_fallback_witness :
  exists r q,
    post_matrix pow_model 60 true = Return r /\
    m_size r = 60 /\
    Float64.Zltb 0 (execution_time_ms r) = true /\
    operations_per_second r = PyFloat q /\
    60 ^ 2 <= vedic_operations_used r <= 1980 * 60 ^ 2.
Proof.
  apply (matrix_estimate_never_uses_fallback pow_model 60 true);
    [exact pow_model_sane | lia].
Defined.

(** ** The test patterns of the wrapper *)

Lemma append_loop_app (P : Z * Z -> Prop) (n : nat) (body : nat -> (Z * Z) * nat)
    (patterns : list (Z * Z)) (pos : nat) :
  (forall p, P (fst (body p))) ->
  exists group,
    fst (append_loop n body patterns pos) = patterns ++ group /\
    List.length group = n /\ Forall P group.
Proof.
  intros Hbody. revert patterns pos.
  induction n as [ | n IH]; intros patterns pos; cbn [append_loop].
  - exists []. cbn [fst]. rewrite app_nil_r. repeat split. constructor.
  - pose proof (Hbody pos) as Hp. destruct (body pos) as [item pos'] eqn:E.
    cbn [fst] in Hp.
    destruct (IH (patterns ++ [item]) pos') as (group & Eg & Hl & Hf).
    exists (item :: group). rewrite Eg, <- app_assoc. cbn [app List.length].
    split; [reflexivity | ]. split; [lia | constructor; assumption].
Qed.

Lemma np_randint_range (raw : nat -> Z) (lo hi : Z) (pos : nat) :
  lo < hi -> lo <= fst (np_randint raw lo hi pos) < hi.
Proof.
  intros H. unfold np_randint. cbn [fst].
  pose proof (Z.mod_pos_bound (raw pos) (hi - lo) ltac:(lia)). lia.
Qed.

Lemma pair_between_shape (raw : nat -> Z) (lo hi : Z) (pos : nat) :
  lo < hi -> both_between lo (hi - 1) (fst (pair_between raw lo hi pos)).
Proof.
  intros Hhi. unfold pair_between.
  pose proof (np_randint_range raw lo hi pos Hhi) as Ha.
  destruct (np_randint raw lo hi pos) as [a pos1]. cbn [fst] in Ha.
  pose proof (np_randint_range raw lo hi pos1 Hhi) as Hb.
  destruct (np_randint raw lo hi pos1) as [b pos2]. cbn [fst] in Hb.
  unfold both_between. cbn [fst snd]. lia.
Qed.

Lemma square_ending_in_5_shape (raw : nat -> Z) (pos : nat) :
  square_of_5_shape (fst (square_ending_in_5 raw pos)).
Proof.
  unfold square_ending_in_5.
  pose proof (np_randint_range raw 1 20 pos ltac:(lia)) as Hr.
  destruct (np_randint raw 1 20 pos) as [r pos1]. cbn [fst] in Hr.
  unfold square_of_5_shape. cbn [fst snd].
  split; [reflexivity | ]. split; [apply mod10_last_digit; lia | lia].
Qed.

Lemma antyayordasake_pair_shape (raw : nat -> Z) (pos : nat) :
  antyayordasake_shape (fst (antyayordasake_pair raw pos)).
Proof.
  unfold antyayordasake_pair.
  pose proof (np_randint_range raw 1 10 pos ltac:(lia)) as Hp.
  destruct (np_randint raw 1 10 pos) as [prefix pos1]. cbn [fst] in Hp.
  pose proof (np_randint_range raw 1 10 pos1 ltac:(lia)) as Hl.
  destruct (np_randint raw 1 10 pos1) as [last_a pos2]. cbn [fst] in Hl.
  unfold antyayordasake_shape. cbn [fst snd].
  rewrite (mod10_last_digit prefix last_a), (mod10_last_digit prefix (10 - last_a)) by lia.
  rewrite (div10_prefix prefix last_a), (div10_prefix prefix (10 - last_a)) by lia.
  repeat split; lia.
Qed.

(** X21.  [create_test_patterns(count)] returns exactly [count] pairs (none for a
    negative [count]), in six groups, whatever the generator yields: five
    groups of [count // 6] pairs each -- equal operands ending in 5 between 15
    and 195; operands in 85..115; operands in 950..1050; two-digit operands
    with the same tens digit and last digits summing to 10; operands in
    1000..9999 -- and the remainder filled with operands in 1..999. *)
Theorem create_test_patterns_groups (raw : nat -> Z) (count : Z) :
  exists g1 g2 g3 g4 g5 g6,
    create_test_patterns raw count = g1 ++ g2 ++ g3 ++ g4 ++ g5 ++ g6 /\
    List.length g1 = Z.to_nat (count / 6) /\ Forall square_of_5_shape g1 /\
    List.length g2 = Z.to_nat (count / 6) /\ Forall (both_between 85 115) g2 /\
    List.length g3 = Z.to_nat (count / 6) /\ Forall (both_between 950 1050) g3 /\
    List.length g4 = Z.to_nat (count / 6) /\ Forall antyayordasake_shape g4 /\
    List.length g5 = Z.to_nat (count / 6) /\ Forall (both_between 1000 9999) g5 /\
    List.length g6 = (Z.to_nat count - 5 * Z.to_nat (count / 6))%nat /\
    Forall (both_between 1 999) g6 /\
    List.length (create_test_patterns raw count) = Z.to_nat count.
Proof.
  unfold create_test_patterns.
  set (pt := Z.to_nat (count / 6)).
  assert (Hpt : (5 * Z.of_nat pt <= Z.max 0 count)).
  { subst pt. destruct (Z.le_gt_cases 0 count) as [H | H].
    - rewrite Z2Nat.id by (apply Z.div_pos; lia).
      pose proof (Z.mul_div_le count 6 ltac:(lia)).
      assert (0 <= count / 6) by (apply Z.div_pos; lia). lia.
    - assert (count / 6 < 0) by (apply Z.div_lt_upper_bound; lia).
      assert (Hz : Z.to_nat (count / 6) = O) by lia. rewrite Hz. lia. }
  clearbody pt.
  destruct (append_loop_app square_of_5_shape pt (square_ending_in_5 raw) [] O
              (square_ending_in_5_shape raw)) as (g1 & E1 & L1 & F1).
  destruct (append_loop pt (square_ending_in_5 raw) [] O) as [p1 pos1].
  cbn [fst app] in E1. subst p1.
  destruct (append_loop_app (both_between 85 115) pt (pair_between raw 85 116) g1 pos1
              (fun p => pair_between_shape raw 85 116 p ltac:(lia)))
    as (g2 & E2 & L2 & F2).
  destruct (append_loop pt (pair_between raw 85 116) g1 pos1) as [p2 pos2].
  cbn [fst] in E2. subst p2.
  destruct (append_loop_app (both_between 950 1050) pt (pair_between raw 950 1051)
              (g1 ++ g2) pos2
              (fun p => pair_between_shape raw 950 1051 p ltac:(lia)))
    as (g3 & E3 & L3 & F3).
  destruct (append_loop pt (pair_between raw 950 1051) (g1 ++ g2) pos2) as [p3 pos3].
  cbn [fst] in E3. subst p3.
  destruct (append_loop_app antyayordasake_shape pt (antyayordasake_pair raw)
              ((g1 ++ g2) ++ g3) pos3 (antyayordasake_pair_shape raw))
    as (g4 & E4 & L4 & F4).
  destruct (append_loop pt (antyayordasake_pair raw) ((g1 ++ g2) ++ g3) pos3)
    as [p4 pos4].
  cbn [fst] in E4. subst p4.
  destruct (append_loop_app (both_between 1000 9999) pt (pair_between raw 1000 10000)
              (((g1 ++ g2) ++ g3) ++ g4) pos4
              (fun p => pair_between_shape raw 1000 10000 p ltac:(lia)))
    as (g5 & E5 & L5 & F5).
  destruct (append_loop pt (pair_between raw 1000 10000)
              (((g1 ++ g2) ++ g3) ++ g4) pos4) as [p5 pos5].
  cbn [fst] in E5. subst p5.
  set (p5 := (((g1 ++ g2) ++ g3) ++ g4) ++ g5).
  assert (Lp5 : List.length p5 = (5 * pt)%nat).
  { subst p5. rewrite !length_app. lia. }
  destruct (append_loop_app (both_between 1 999)
              (Z.to_nat (count - Z.of_nat (List.length p5)))
              (pair_between raw 1 1000) p5 pos5
              (fun p => pair_between_shape raw 1 1000 p ltac:(lia)))
    as (g6 & E6 & L6 & F6).
  destruct (append_loop (Z.to_nat (count - Z.of_nat (List.length p5)))
              (pair_between raw 1 1000) p5 pos5) as [p6 pos6].
  cbn [fst] in E6. subst p6.
  exists g1, g2, g3, g4, g5, g6.
  split; [subst p5; rewrite <- !app_assoc; reflexivity | ].
  repeat (split; [assumption | ]).
  split; [lia | ]. split; [exact F6 | ].
  rewrite length_app. lia.
Qed.

(** ** The engine on operands in range *)


